(** * Agent Passport middleware and thin SDK client: a shallow embedding

    The development embeds the request-mediation pipeline of
    [aporthq_middleware_fastapi/middleware.py] and the decision client of
    [aporthq_sdk_python/client.py] (with [decision_types.py]) as executable
    Rocq functions, and states the properties of the specification over them.

    Python values are embedded as [pyval]; dictionaries are finite maps with
    string keys.  Exceptions, the log of observable effects (body reads,
    client operations, network calls) and the mutable fields of the client
    are threaded by a small state-and-exception monad [M]. *)

From stdpp Require Import base strings gmap list option.
From Stdlib Require Import ZArith NArith Ascii String.

#[local] Set Warnings "-register-all".
#[local] Open Scope Z_scope.

(** ** Python values *)

(** The values that [json.loads] produces, which are also the values the
    middleware passes around ([None], [bool], [int], [str], [list], [dict]).
    Non-integer numbers are not represented: no branch of the code inspects a
    number other than through its truth value. *)
Inductive pyval :=
| PNone
| PBool (b : bool)
| PInt (z : Z)
| PStr (s : string)
| PList (l : list pyval)
| PDict (d : gmap string pyval).

Definition str_nonempty (s : string) : bool :=
  match s with EmptyString => false | String _ _ => true end.

(** Python truth value ([bool(v)], [if v], [not v], [a or b]). *)
Definition truthy (v : pyval) : bool :=
  match v with
  | PNone => false
  | PBool b => b
  | PInt z => negb (z =? 0)
  | PStr s => str_nonempty s
  | PList l => match l with [] => false | _ :: _ => true end
  | PDict d => negb (Nat.eqb (size d) 0)
  end.

(** [a or b] *)
Definition py_or (a b : pyval) : pyval := if truthy a then a else b.

(** [isinstance(v, dict)] *)
Definition is_dict (v : pyval) : bool :=
  match v with PDict _ => true | _ => false end.

(** [v is not None] *)
Definition is_not_none (v : pyval) : bool :=
  match v with PNone => false | _ => true end.

(** [d.get(k)] on a value known to be a dict *)
Definition dict_get (d : gmap string pyval) (k : string) : pyval :=
  default PNone (d !! k).

(** An [Optional[str]] as a Python value *)
Definition of_opt_str (o : option string) : pyval :=
  match o with Some s => PStr s | None => PNone end.

Definition truthy_opt_str (o : option string) : bool := truthy (of_opt_str o).

(** [s.rstrip("/")] *)
Fixpoint rstrip_slash (s : string) : string :=
  match s with
  | EmptyString => EmptyString
  | String c r =>
      match rstrip_slash r with
      | EmptyString => if Ascii.eqb c "/"%char then EmptyString else String c EmptyString
      | r' => String c r'
      end
  end.

(** ** Errors *)

(** Modelled from the spec: [errors.py], which declares [AportError], is not
    among the sources.  Its constructor is called with [status], [reasons],
    [decision_id], [server_timing] and [raw_response] (client.py), and the
    middleware reads [status] and [reasons] back.  Following the spec (a
    failure carries a status code, a reason list and an optional decision
    identifier), the arguments a call leaves out are [None].  The middleware
    also reads [error.message]; neither the spec's failure nor any code under
    src/ gives the error such an attribute, so the read is a collaborator of
    its own ([error_message] below), which may raise. *)
Module AportError.
Record t := mk {
  status : Z;
  reasons : pyval;
  decision_id : pyval;
  server_timing : option string;
  raw_response : option string;
}.
End AportError.

(** [AportError(status, reasons)] with the remaining arguments left out *)
Definition AportError_2 (status : Z) (reasons : pyval) : AportError.t :=
  AportError.mk status reasons PNone None None.

(** Exceptions: [AportError], or any other subclass of [Exception]
    ([AttributeError], [TypeError], ...) identified by its class name. *)
Inductive exn :=
| AportErr (e : AportError.t)
| PyExn (name : string).

Inductive res (A : Type) :=
| Ok (a : A)
| Raise (e : exn).
Arguments Ok {A} a.
Arguments Raise {A} e.

(** Modelled from the spec: the constructor of [AportError] ([errors.py] is
    not among the sources).  The exception's text is made from the reason
    records, which the spec describes as records of a code, a human message
    and a severity: the constructor reads every item of a truthy [reasons] as
    such a record through [get], so an item that is no mapping makes the
    construction itself raise [AttributeError] (a number, which cannot be
    iterated, [TypeError]).  A falsy [reasons] ([None], the empty list) is
    not read. *)
Definition AportError_init (status : Z) (reasons decision_id : pyval)
    (server_timing raw_response : option string) : res AportError.t :=
  let error := AportError.mk status reasons decision_id server_timing raw_response in
  if truthy reasons then
    match reasons with
    | PList items =>
        if forallb is_dict items then Ok error else Raise (PyExn "AttributeError")
    | PDict _ | PStr _ => Raise (PyExn "AttributeError")
    | _ => Raise (PyExn "TypeError")
    end
  else Ok error.

(** ** Data of the decision client (decision_types.py, client.py) *)

Module APortClientOptions.
Record t := mk {
  base_url : string;
  api_key : option string;
  timeout_ms : Z;
}.
End APortClientOptions.

Module PolicyVerificationResponse.
Record t := mk {
  decision_id : pyval;
  allow : pyval;
  reasons : pyval;
  assurance_level : pyval;
  expires_in : pyval;
  passport_digest : pyval;
  signature : pyval;
  created_at : pyval;
  _meta : pyval;
}.
End PolicyVerificationResponse.

Module Jwks.
Record t := mk { keys : pyval }.
End Jwks.

(** What goes on the wire: the arguments of [session.request], the headers
    together with the defaults of the session. *)
Record wire_request := {
  w_method : string;
  w_url : string;
  w_headers : gmap string string;
  w_json : option pyval;
}.

(** What comes back from [session.request] and [response.text()]: an HTTP
    response, or one of the two transport failures the client handles. *)
Inductive transport_outcome :=
| HttpResponse (status : Z) (server_timing : option string) (text : string)
| ClientError (msg : string)
| TimeoutError.

(** aiohttp's [ClientResponse.ok]: the status is below 400. *)
Definition response_ok (status : Z) : bool := status <? 400.

(** Outcome of [json.loads]: a value, [json.JSONDecodeError], or another
    exception (such as [UnicodeDecodeError] on undecodable bytes). *)
Inductive loads_result :=
| LoadsOk (v : pyval)
| LoadsJSONDecodeError
| LoadsRaise (name : string).

(** The client operations the middleware invokes. *)
Inductive client_op :=
| OpVerifyPolicy (agent_id policy_id : pyval) (context : gmap string pyval)
| OpVerifyPolicyWithPassport (passport : gmap string pyval) (policy_id : pyval)
    (context : gmap string pyval)
| OpVerifyPolicyWithPolicyInBody (agent_id_or_passport : pyval)
    (policy : gmap string pyval) (context : gmap string pyval)
| OpGetPassportView (agent_id : pyval)
| OpGetJwks.

(** Observable effects, in the order they happen. *)
Inductive event :=
| EvBodyRead
| EvClientOp (op : client_op)
| EvWire (w : wire_request).

(** ** The monad *)

(** The state threaded through the code: the clock ([time.time()], seconds
    since the epoch as a non-negative number; rounding is not modelled), the
    log of effects, and the two cache fields of [APortClient]. *)
Record World := mkWorld {
  now : N;
  events : list event;
  jwks_cache : option Jwks.t;
  jwks_cache_expiry : option N;
}.

Definition M (A : Type) : Type := World → res A * World.

#[global] Instance M_ret : MRet M := λ A a w, (Ok a, w).
#[global] Instance M_bind : MBind M := λ A B f m w,
  match m w with
  | (Ok a, w') => f a w'
  | (Raise e, w') => (Raise e, w')
  end.

Definition raise {A} (e : exn) : M A := λ w, (Raise e, w).

Definition lift_res {A} (r : res A) : M A := λ w, (r, w).

(** [raise AportError(status, reasons, ...)]: the error is constructed,
    which may itself raise, and then raised. *)
Definition raise_AportError {A} (status : Z) (reasons decision_id : pyval)
    (server_timing raw_response : option string) : M A :=
  λ w, (match AportError_init status reasons decision_id server_timing raw_response with
        | Ok error => Raise (AportErr error)
        | Raise e => Raise e
        end, w).

(** [try: body  except ...: handler]; the handler is partial: an exception
    it does not match propagates. *)
Definition try_except {A} (body : M A) (handler : exn → option (M A)) : M A :=
  λ w, match body w with
       | (Ok a, w') => (Ok a, w')
       | (Raise e, w') =>
           match handler e with
           | Some h => h w'
           | None => (Raise e, w')
           end
       end.

Definition emit (ev : event) : M unit :=
  λ w, (Ok (), mkWorld (now w) (events w ++ [ev]) (jwks_cache w) (jwks_cache_expiry w)).

Definition time_time : M N := λ w, (Ok (now w), w).

Definition sleep (d : N) : M unit :=
  λ w, (Ok (), mkWorld (now w + d)%N (events w) (jwks_cache w) (jwks_cache_expiry w)).

Definition get_cache : M (option Jwks.t * option N) :=
  λ w, (Ok (jwks_cache w, jwks_cache_expiry w), w).

Definition set_jwks_cache (j : Jwks.t) : M unit :=
  λ w, (Ok (), mkWorld (now w) (events w) (Some j) (jwks_cache_expiry w)).

Definition set_jwks_cache_expiry (t : N) : M unit :=
  λ w, (Ok (), mkWorld (now w) (events w) (jwks_cache w) (Some t)).

(** ** Operations on Python values that can raise *)

(** [v.get(k)]: only a dict has [get]. *)
Definition py_get (v : pyval) (k : string) : res pyval :=
  match v with
  | PDict d => Ok (dict_get d k)
  | _ => Raise (PyExn "AttributeError")
  end.

(** [v.items()], as the mapping it enumerates *)
Definition py_items (v : pyval) : res (gmap string pyval) :=
  match v with
  | PDict d => Ok d
  | _ => Raise (PyExn "AttributeError")
  end.

(** [v[k] = x] with a string key: only a dict accepts it. *)
Definition py_setitem (v : pyval) (k : string) (x : pyval) : res pyval :=
  match v with
  | PDict d => Ok (PDict (<[k := x]> d))
  | _ => Raise (PyExn "TypeError")
  end.

(** One item of the sequence given to [dict]: it must itself be a sequence
    of two items, key and value.  A list of two items gives them; a string of
    two characters gives its characters; any other length is a [ValueError],
    an item that cannot be iterated a [TypeError], a list or a dict as key
    (unhashable) a [TypeError].  A key that is not a string (a number, a
    boolean, [None]) is kept by Python but is out of reach of the lookups by
    field name made on the result, all with string keys: the entry is left
    out here.  A dict of two entries as an item stands for its two keys in
    insertion order, which this mapping type does not keep; it is taken to
    raise like a dict of any other size. *)
Definition py_dict_item (item : pyval) (acc : gmap string pyval)
    : res (gmap string pyval) :=
  match item with
  | PList [k; x] =>
      match k with
      | PStr s => Ok (<[s := x]> acc)
      | PList _ | PDict _ => Raise (PyExn "TypeError")
      | _ => Ok acc
      end
  | PStr (String c1 (String c2 EmptyString)) =>
      Ok (<[String c1 EmptyString := PStr (String c2 EmptyString)]> acc)
  | PList _ | PStr _ | PDict _ => Raise (PyExn "ValueError")
  | _ => Raise (PyExn "TypeError")
  end.

Fixpoint py_dict_items (items : list pyval) (acc : gmap string pyval)
    : res (gmap string pyval) :=
  match items with
  | [] => Ok acc
  | item :: rest =>
      match py_dict_item item acc with
      | Ok acc' => py_dict_items rest acc'
      | Raise e => Raise e
      end
  end.

(** [dict(v)].  A dict is copied; a list is read as a sequence of key/value
    pairs, item by item, a later pair replacing an earlier one with the same
    key; the empty string gives the empty dict and any other string, whose
    items are single characters, a [ValueError]; a number cannot be
    iterated. *)
Definition py_dict (v : pyval) : res (gmap string pyval) :=
  match v with
  | PDict d => Ok d
  | PList items => py_dict_items items ∅
  | PStr EmptyString => Ok ∅
  | PStr _ => Raise (PyExn "ValueError")
  | _ => Raise (PyExn "TypeError")
  end.

(** [**v] in a call or a dict display: [v] must be a mapping. *)
Definition py_splat (v : pyval) : res (gmap string pyval) :=
  match v with
  | PDict d => Ok d
  | _ => Raise (PyExn "TypeError")
  end.

(** ** The decision client (client.py) *)

Section Model.

(** The collaborators outside the repository: the JSON decoder, Python's
    conversion of a non-string value inside an f-string, the read of
    [error.message] on an [AportError] (errors.py is absent; the read gives
    a text or raises, [AttributeError] when the class has no such
    attribute), and the network with the time a call takes. *)
Variable json_loads : string → loads_result.
Variable py_repr : pyval → string.
Variable error_message : AportError.t → res string.
Variable transport : wire_request → transport_outcome.
Variable latency : wire_request → N.

(** [f"{v}"] *)
Definition fstr (v : pyval) : string :=
  match v with PStr s => s | _ => py_repr v end.

(** [json.loads(text) if text else {}] under
    [except json.JSONDecodeError: {}] *)
Definition loads_or_empty (text : string) : res pyval :=
  if str_nonempty text then
    match json_loads text with
    | LoadsOk v => Ok v
    | LoadsJSONDecodeError => Ok (PDict ∅)
    | LoadsRaise name => Raise (PyExn name)
    end
  else Ok (PDict ∅).

(** [DEFAULT_HEADERS], which [_ensure_session] gives the session: they go
    out with every request. *)
Definition DEFAULT_HEADERS : gmap string string :=
  <["Content-Type" := "application/json"]>
    (<["Accept" := "application/json"]> {[ "User-Agent" := "aport-sdk-python/0.1.0" ]}).

(** The headers a request of the session goes out with: the request's own
    over the session's defaults. *)
Definition session_headers (headers : gmap string string) : gmap string string :=
  headers ∪ DEFAULT_HEADERS.

Definition _get_headers (opts : APortClientOptions.t)
    (idempotency_key : option string) : gmap string string :=
  let headers : gmap string string := ∅ in
  let headers :=
    match APortClientOptions.api_key opts with
    | Some k =>
        if str_nonempty k
        then <["Authorization" := String.append "Bearer " k]> headers
        else headers
    | None => headers
    end in
  match idempotency_key with
  | Some k => if str_nonempty k then <["Idempotency-Key" := k]> headers else headers
  | None => headers
  end.

Definition _normalize_url (opts : APortClientOptions.t) (path : string) : string :=
  let base_url := rstrip_slash (APortClientOptions.base_url opts) in
  let clean_path := if String.prefix "/" path then path else String.append "/" path in
  String.append base_url clean_path.

Definition network_error_reasons (msg : string) : pyval :=
  PList [PDict (<["code" := PStr "NETWORK_ERROR"]> (<["message" := PStr msg]> ∅))].

Definition timeout_reasons : pyval :=
  PList [PDict (<["code" := PStr "TIMEOUT"]> (<["message" := PStr "Request timeout"]> ∅))].

Definition _make_request (opts : APortClientOptions.t) (method path : string)
    (data : option pyval) (idempotency_key : option string) : M pyval :=
  let url := _normalize_url opts path in
  let headers := _get_headers opts idempotency_key in
  let w := {| w_method := method; w_url := url; w_headers := session_headers headers;
              w_json := data |} in
  emit (EvWire w);;
  sleep (latency w);;
  match transport w with
  | HttpResponse status server_timing text =>
      json_data ← lift_res (loads_or_empty text);
      if negb (response_ok status) then
        reasons ← lift_res (py_get json_data "reasons");
        decision_id ← lift_res (py_get json_data "decision_id");
        raise_AportError status reasons decision_id server_timing (Some text)
      else if truthy_opt_str server_timing then
        lift_res (py_setitem json_data "_meta"
                    (PDict (<["serverTiming" := of_opt_str server_timing]> ∅)))
      else mret json_data
  | ClientError msg => raise_AportError 0 (network_error_reasons msg) PNone None None
  | TimeoutError => raise_AportError 408 timeout_reasons PNone None None
  end.

(** [ctx[k] = v] guarded by [if v is not None] *)
Definition set_if_not_none (k : string) (v : pyval)
    (ctx : gmap string pyval) : gmap string pyval :=
  if is_not_none v then <[k := v]> ctx else ctx.

Definition _build_policy_request_body (agent_id policy_id : pyval)
    (idempotency_key : option string) (context : option (gmap string pyval))
    (passport policy : option (gmap string pyval)) : gmap string pyval :=
  let ctx := default ∅ context in
  let ctx := set_if_not_none "agent_id" agent_id ctx in
  let ctx := set_if_not_none "policy_id" policy_id ctx in
  let ctx := set_if_not_none "idempotency_key" (of_opt_str idempotency_key) ctx in
  let body : gmap string pyval := <["context" := PDict ctx]> ∅ in
  let body := match passport with Some p => <["passport" := PDict p]> body | None => body end in
  match policy with Some p => <["policy" := PDict p]> body | None => body end.

(** [PolicyVerificationResponse.from_api_response] *)
Definition from_api_response (data : pyval) : res PolicyVerificationResponse.t :=
  match py_get data "decision", data with
  | Ok decision, PDict data_d =>
      let payload_r := if is_not_none decision then py_dict decision else Ok data_d in
      match payload_r with
      | Ok payload =>
          let payload :=
            match data_d !! "_meta", payload !! "_meta" with
            | Some m, None => <["_meta" := m]> payload
            | _, _ => payload
            end in
          match payload !! "decision_id", payload !! "allow" with
          | Some decision_id, Some allow =>
              Ok (PolicyVerificationResponse.mk decision_id allow
                    (dict_get payload "reasons")
                    (dict_get payload "assurance_level")
                    (dict_get payload "expires_in")
                    (dict_get payload "passport_digest")
                    (dict_get payload "signature")
                    (dict_get payload "created_at")
                    (dict_get payload "_meta"))
          | _, _ => Raise (PyExn "TypeError")
          end
      | Raise e => Raise e
      end
  | Raise e, _ => Raise e
  | Ok _, _ => Raise (PyExn "AttributeError")
  end.

Definition verify_policy (opts : APortClientOptions.t) (agent_id policy_id : pyval)
    (context : option (gmap string pyval)) (idempotency_key : option string)
    (passport policy : option (gmap string pyval)) : M PolicyVerificationResponse.t :=
  emit (EvClientOp (OpVerifyPolicy agent_id policy_id (default ∅ context)));;
  let body := _build_policy_request_body agent_id policy_id idempotency_key
                context passport policy in
  let path := match policy with
              | Some _ => "/api/verify/policy/IN_BODY"
              | None => String.append "/api/verify/policy/" (fstr policy_id)
              end in
  response_data ← _make_request opts "POST" path (Some (PDict body)) idempotency_key;
  lift_res (from_api_response response_data).

Definition verify_policy_with_passport (opts : APortClientOptions.t)
    (passport : gmap string pyval) (policy_id : pyval)
    (context : option (gmap string pyval)) (idempotency_key : option string)
    : M PolicyVerificationResponse.t :=
  emit (EvClientOp (OpVerifyPolicyWithPassport passport policy_id (default ∅ context)));;
  let agent_id := dict_get passport "agent_id" in
  let body := _build_policy_request_body agent_id policy_id idempotency_key
                (Some (default ∅ context)) (Some passport) None in
  response_data ← _make_request opts "POST"
                    (String.append "/api/verify/policy/" (fstr policy_id))
                    (Some (PDict body)) idempotency_key;
  lift_res (from_api_response response_data).

Definition verify_policy_with_policy_in_body (opts : APortClientOptions.t)
    (agent_id_or_passport : pyval) (policy : gmap string pyval)
    (context : option (gmap string pyval)) (idempotency_key : option string)
    : M PolicyVerificationResponse.t :=
  emit (EvClientOp (OpVerifyPolicyWithPolicyInBody agent_id_or_passport policy
                      (default ∅ context)));;
  let '(passport, agent_id) :=
    match agent_id_or_passport with
    | PDict p => (Some p, dict_get p "agent_id")
    | a => (None, a)
    end in
  let body := _build_policy_request_body agent_id (dict_get policy "id") idempotency_key
                (Some (default ∅ context)) passport (Some policy) in
  response_data ← _make_request opts "POST" "/api/verify/policy/IN_BODY"
                    (Some (PDict body)) idempotency_key;
  lift_res (from_api_response response_data).

Definition get_passport_view (opts : APortClientOptions.t) (agent_id : pyval) : M pyval :=
  emit (EvClientOp (OpGetPassportView agent_id));;
  _make_request opts "GET"
    (String.append "/api/passports/" (String.append (fstr agent_id) "/verify_view"))
    None None.

(** [Jwks] built from the keywords of [response_data]: the dataclass has the one field [keys]. *)
Definition Jwks_init (response_data : pyval) : res Jwks.t :=
  match py_splat response_data with
  | Ok d =>
      match d !! "keys" with
      | Some ks => if Nat.eqb (size d) 1 then Ok (Jwks.mk ks) else Raise (PyExn "TypeError")
      | None => Raise (PyExn "TypeError")
      end
  | Raise e => Raise e
  end.

Definition JWKS_TTL : N := 5 * 60.

Definition jwks_fetch_failed_reasons : pyval :=
  PList [PDict (<["code" := PStr "JWKS_FETCH_FAILED"]>
                  (<["message" := PStr "Failed to fetch JWKS"]> ∅))].

Definition jwks_fetch_failed : AportError.t := AportError_2 500 jwks_fetch_failed_reasons.

(** The cache test of [get_jwks]: both fields are set (and truthy) and the
    clock is before the expiry. *)
Definition jwks_cached (cache : option Jwks.t) (expiry : option N) (t : N)
    : option Jwks.t :=
  match cache, expiry with
  | Some j, Some e => if negb (e =? 0)%N && (t <? e)%N then Some j else None
  | _, _ => None
  end.

Definition get_jwks (opts : APortClientOptions.t) : M Jwks.t :=
  emit (EvClientOp OpGetJwks);;
  '(cache, expiry) ← get_cache;
  t ← time_time;
  match jwks_cached cache expiry t with
  | Some j => mret j
  | None =>
      try_except
        (response_data ← _make_request opts "GET" "/jwks.json" None None;
         j ← lift_res (Jwks_init response_data);
         set_jwks_cache j;;
         t' ← time_time;
         set_jwks_cache_expiry (t' + JWKS_TTL)%N;;
         mret j)
        (λ _, Some (raise_AportError 500 jwks_fetch_failed_reasons PNone None None))
  end.

End Model.

(** ** The middleware (middleware.py) *)

Module AgentPassportMiddlewareOptions.
Record t := mk {
  base_url : string;
  api_key : option string;
  timeout_ms : Z;
  fail_closed : bool;
  skip_paths : list string;
  policy_id : option string;
  passport_from_body : bool;
  policy_from_body : bool;
}.
End AgentPassportMiddlewareOptions.

Definition DEFAULT_BASE_URL : string := "https://api.aport.io".
Definition DEFAULT_SKIP_PATHS : list string := ["/health"; "/metrics"; "/status"].

(** [a or b] on optional strings *)
Definition opt_str_or (a b : option string) : option string :=
  if truthy_opt_str a then a else b.

(** [AgentPassportMiddlewareOptions.__init__]; [getenv] is [os.getenv]. *)
Definition AgentPassportMiddlewareOptions_init (getenv : string → option string)
    (base_url api_key : option string) (timeout_ms : Z) (fail_closed : bool)
    (skip_paths : option (list string)) (policy_id : option string)
    (passport_from_body policy_from_body : bool) : AgentPassportMiddlewareOptions.t :=
  AgentPassportMiddlewareOptions.mk
    (default DEFAULT_BASE_URL
       (opt_str_or base_url
          (Some (default DEFAULT_BASE_URL (getenv "AGENT_PASSPORT_BASE_URL")))))
    (opt_str_or api_key (getenv "AGENT_PASSPORT_API_KEY"))
    timeout_ms
    fail_closed
    (match skip_paths with
     | Some (p :: ps) => p :: ps
     | _ => DEFAULT_SKIP_PATHS
     end)
    policy_id
    passport_from_body
    policy_from_body.

(** [create_client], through [APortClientOptions.__init__] *)
Definition create_client (getenv : string → option string)
    (base_url api_key : option string) (timeout_ms : option Z) : APortClientOptions.t :=
  let base_url :=
    opt_str_or base_url (Some (default DEFAULT_BASE_URL (getenv "AGENT_PASSPORT_BASE_URL"))) in
  let api_key := opt_str_or api_key (getenv "AGENT_PASSPORT_API_KEY") in
  let timeout_ms := match timeout_ms with
                    | Some t => if t =? 0 then 5000 else t
                    | None => 5000
                    end in
  APortClientOptions.mk (default DEFAULT_BASE_URL (opt_str_or base_url (Some DEFAULT_BASE_URL)))
    api_key timeout_ms.

(** The inbound request: method, path, headers (names in lower case, as
    ASGI delivers them), the bytes the [receive] channel still holds, and
    the two attributes the middleware sets on [request.state]. *)
Record Request := mkRequest {
  method : string;
  url_path : string;
  headers : gmap string string;
  receive : string;
  state_agent : option (gmap string pyval);
  state_policy_result : option pyval;
}.

Definition set_receive (request : Request) (bytes : string) : Request :=
  mkRequest (method request) (url_path request) (headers request) bytes
    (state_agent request) (state_policy_result request).

Definition set_state_agent (request : Request) (a : gmap string pyval) : Request :=
  mkRequest (method request) (url_path request) (headers request) (receive request)
    (Some a) (state_policy_result request).

Definition set_state_policy_result (request : Request) (r : pyval) : Request :=
  mkRequest (method request) (url_path request) (headers request) (receive request)
    (state_agent request) (Some r).

(** What a middleware returns: the downstream response for the request
    handed to [call_next] (the handler is outside the model), or a
    [JSONResponse] of its own. *)
Inductive response :=
| CallNext (request : Request)
| JSONResponse (status_code : Z) (content : gmap string pyval).

(** What the client hands back: the dataclass, or (with other clients) a
    plain dict; the middleware accepts both. *)
Inductive decision_t :=
| DObj (r : PolicyVerificationResponse.t)
| DDict (d : gmap string pyval).

Definition should_skip_request (request : Request) (skip_paths : list string) : bool :=
  existsb (λ p, String.prefix p (url_path request)) skip_paths.

Definition header_get (request : Request) (name : string) : pyval :=
  of_opt_str (headers request !! name).

Definition extract_agent_id (request : Request) (provided_agent_id : option string)
    (body_json : pyval) (passport_from_body : bool) : res pyval :=
  if truthy_opt_str provided_agent_id then Ok (of_opt_str provided_agent_id)
  else
    let from_headers :=
      py_or (header_get request "x-agent-passport-id")
        (py_or (header_get request "x-agent-id") PNone) in
    if passport_from_body && truthy body_json then
      match py_get body_json "passport" with
      | Ok (PDict passport) =>
          let aid := dict_get passport "agent_id" in
          if truthy aid then Ok aid else Ok from_headers
      | Ok _ => Ok from_headers
      | Raise e => Raise e
      end
    else Ok from_headers.

Definition _decision_allow (decision : decision_t) : bool :=
  match decision with
  | DObj r => truthy (PolicyVerificationResponse.allow r)
  | DDict d => truthy (default (PBool false) (d !! "allow"))
  end.

Definition _decision_meta (decision : decision_t) : gmap string pyval :=
  match decision with
  | DObj r =>
      <["reasons" := py_or (PolicyVerificationResponse.reasons r) (PList [])]>
        (<["decision_id" := PolicyVerificationResponse.decision_id r]> ∅)
  | DDict d =>
      <["reasons" := default (PList []) (d !! "reasons")]>
        (<["decision_id" := dict_get d "decision_id"]> ∅)
  end.

Definition create_error_response (status_code : Z) (error message : string)
    (additional : option (gmap string pyval)) : response :=
  let response_data : gmap string pyval :=
    <["message" := PStr message]> (<["error" := PStr error]> ∅) in
  let response_data :=
    match additional with
    | Some a => if truthy (PDict a) then a ∪ response_data else response_data
    | None => response_data
    end in
  JSONResponse status_code response_data.

(** The value stored in [request.state.policy_result] *)
Definition policy_result_of (decision : decision_t) : pyval :=
  match decision with
  | DDict d => PDict d
  | DObj r =>
      PDict (<["reasons" := py_or (PolicyVerificationResponse.reasons r) (PList [])]>
               (<["allow" := PolicyVerificationResponse.allow r]>
                  (<["decision_id" := PolicyVerificationResponse.decision_id r]> ∅)))
  end.

(** The comprehension
    [{k: v for k, v in body_json.items() if k not in ("passport", "policy")}] *)
Definition context_of_body (d : gmap string pyval) : gmap string pyval :=
  filter (λ kv, kv.1 ≠ "passport" ∧ kv.1 ≠ "policy") d.

(** [body_json.get(key) if flag and isinstance(body_json.get(key), dict)
    else None] *)
Definition body_dict_field (flag : bool) (body_json : pyval) (key : string) : res pyval :=
  if flag then
    match py_get body_json key with
    | Ok v => if is_dict v then py_get body_json key else Ok PNone
    | Raise e => Raise e
    end
  else Ok PNone.

(** [d.get(k) if d else None] for [d] a dict or [None] *)
Definition get_if_truthy (d : pyval) (k : string) : res pyval :=
  if truthy d then py_get d k else Ok PNone.

Definition MISSING_AGENT_ID_MESSAGE : string :=
  "Agent ID is required. Provide X-Agent-Passport-Id header or body.passport.".

(** The middleware object: its options and the client made from them. *)
Record AgentPassportMiddleware := mkMiddleware {
  options : AgentPassportMiddlewareOptions.t;
  client : APortClientOptions.t;
}.

(** [AgentPassportMiddleware.__init__] (without keyword overrides) *)
Definition AgentPassportMiddleware_init (getenv : string → option string)
    (options : AgentPassportMiddlewareOptions.t) : AgentPassportMiddleware :=
  mkMiddleware options
    (create_client getenv
       (Some (AgentPassportMiddlewareOptions.base_url options))
       (AgentPassportMiddlewareOptions.api_key options)
       (Some (AgentPassportMiddlewareOptions.timeout_ms options))).

(** A value that is a dict on the branch where it is used *)
Definition as_dict (v : pyval) : gmap string pyval :=
  match v with PDict d => d | _ => ∅ end.

Section Pipeline.

Variable json_loads : string → loads_result.
Variable py_repr : pyval → string.
Variable error_message : AportError.t → res string.
Variable transport : wire_request → transport_outcome.
Variable latency : wire_request → N.

Definition _read_and_replay_body (request : Request) : M (pyval * Request) :=
  emit EvBodyRead;;
  let body_bytes := receive request in
  let request := set_receive request EmptyString in
  body_json ← lift_res (loads_or_empty json_loads body_bytes);
  mret (body_json, set_receive request body_bytes).

(** [await call_next(request)] *)
Definition call_next (request : Request) : M response := mret (CallNext request).

(** The condition under which [dispatch] reads the body *)
Definition reads_body (opts : AgentPassportMiddlewareOptions.t) (request : Request) : bool :=
  String.eqb (method request) "POST"
  && (truthy_opt_str (AgentPassportMiddlewareOptions.policy_id opts)
      || AgentPassportMiddlewareOptions.passport_from_body opts
      || AgentPassportMiddlewareOptions.policy_from_body opts).

(** The verification step shared by the three middlewares' text: choose
    the client operation from the body policy and body passport. *)
Definition verify_selected (cl : APortClientOptions.t) (body_policy body_passport
    effective_agent_id policy_id : pyval) (context : gmap string pyval)
    : M PolicyVerificationResponse.t :=
  if truthy body_policy then
    let agent_id_or_passport :=
      if truthy body_passport then body_passport else effective_agent_id in
    verify_policy_with_policy_in_body json_loads transport latency cl
      agent_id_or_passport (as_dict body_policy) (Some context) None
  else if truthy body_passport then
    verify_policy_with_passport json_loads py_repr transport latency cl
      (as_dict body_passport) policy_id (Some context) None
  else
    verify_policy json_loads py_repr transport latency cl
      effective_agent_id policy_id (Some context) None None None.

(** What the middleware does from the body read to the end, given the
    options and the client; the body of the [try] block of [dispatch]. *)
Definition mediate (opts : AgentPassportMiddlewareOptions.t) (cl : APortClientOptions.t)
    (request : Request) : M response :=
  if should_skip_request request (AgentPassportMiddlewareOptions.skip_paths opts)
  then call_next request
  else
    '(body_json, request) ←
      (if reads_body opts request then _read_and_replay_body request
       else mret (PDict ∅, request));
    let use_passport_from_body := AgentPassportMiddlewareOptions.passport_from_body opts in
    let use_policy_from_body := AgentPassportMiddlewareOptions.policy_from_body opts in
    body_passport ← lift_res (body_dict_field use_passport_from_body body_json "passport");
    body_policy ← lift_res (body_dict_field use_policy_from_body body_json "policy");
    agent_id ← lift_res (extract_agent_id request None body_json use_passport_from_body);
    if negb (truthy agent_id) && negb (truthy body_passport) then
      if AgentPassportMiddlewareOptions.fail_closed opts then
        mret (create_error_response 401 "missing_agent_id" MISSING_AGENT_ID_MESSAGE None)
      else call_next request
    else
      effective_agent_id ←
        (if truthy agent_id then mret agent_id
         else lift_res (get_if_truthy body_passport "agent_id"));
      let policy_id := AgentPassportMiddlewareOptions.policy_id opts in
      if negb (truthy_opt_str policy_id) && negb (truthy body_policy) then
        if truthy body_passport then
          aid ← lift_res (py_get body_passport "agent_id");
          passport ← lift_res (py_splat body_passport);
          call_next (set_state_agent request (passport ∪ {[ "agent_id" := aid ]}))
        else
          try_except
            (passport_view ← get_passport_view json_loads py_repr transport latency cl
                               effective_agent_id;
             view ← lift_res (py_splat passport_view);
             call_next (set_state_agent request
                          (view ∪ {[ "agent_id" := effective_agent_id ]})))
            (λ e, match e with
                  | AportErr error =>
                      Some (message ← lift_res (error_message error);
                            mret (create_error_response (AportError.status error)
                                    "agent_verification_failed" message
                                    (Some {[ "agent_id" := effective_agent_id ]})))
                  | PyExn _ => None
                  end)
      else
        items ← lift_res (py_items body_json);
        let context := context_of_body items in
        decision ← verify_selected cl body_policy body_passport effective_agent_id
                     (of_opt_str policy_id) context;
        let decision := DObj decision in
        if negb (_decision_allow decision) then
          let meta := _decision_meta decision in
          reported ←
            (if truthy_opt_str policy_id then mret (of_opt_str policy_id)
             else lift_res (get_if_truthy body_policy "id"));
          mret (create_error_response 403 "policy_violation" "Policy violation"
                  (Some (meta ∪ (<["policy_id" := reported]>
                                   (<["agent_id" := effective_agent_id]> ∅)))))
        else
          let request := set_state_agent request {[ "agent_id" := effective_agent_id ]} in
          let request := set_state_policy_result request (policy_result_of decision) in
          call_next request.

(** The two [except] clauses that close the [try] block: for an
    [AportError] the handler reads [error.status] and [error.message] and
    builds [api_error] with the error's status; anything else becomes
    [internal_error] (500).  An exception raised inside a handler leaves the
    [try] statement: the sibling clause does not catch it. *)
Definition mediate_handlers (e : exn) : option (M response) :=
  match e with
  | AportErr error =>
      Some (message ← lift_res (error_message error);
            mret (create_error_response (AportError.status error) "api_error"
                    message
                    (Some {[ "reasons" := AportError.reasons error ]})))
  | PyExn _ =>
      Some (mret (create_error_response 500 "internal_error" "Internal server error" None))
  end.

(** [AgentPassportMiddleware.dispatch] *)
Definition dispatch (self : AgentPassportMiddleware) (request : Request) : M response :=
  try_except (mediate (options self) (client self) request) mediate_handlers.

End Pipeline.

Section Factories.

Variable getenv : string → option string.
Variable json_loads : string → loads_result.
Variable py_repr : pyval → string.
Variable error_message : AportError.t → res string.
Variable transport : wire_request → transport_outcome.
Variable latency : wire_request → N.

(** [agent_passport_middleware(options)]: the options are rebuilt from the
    given ones' attributes, a client is made, and the returned function has
    the text of [dispatch]. *)
Definition agent_passport_middleware (options : option AgentPassportMiddlewareOptions.t)
    (request : Request) : M response :=
  let opts :=
    match options with
    | Some o =>
        AgentPassportMiddlewareOptions_init getenv
          (Some (AgentPassportMiddlewareOptions.base_url o))
          (AgentPassportMiddlewareOptions.api_key o)
          (AgentPassportMiddlewareOptions.timeout_ms o)
          (AgentPassportMiddlewareOptions.fail_closed o)
          (Some (AgentPassportMiddlewareOptions.skip_paths o))
          (AgentPassportMiddlewareOptions.policy_id o)
          (AgentPassportMiddlewareOptions.passport_from_body o)
          (AgentPassportMiddlewareOptions.policy_from_body o)
    | None =>
        AgentPassportMiddlewareOptions_init getenv None None 5000 true None None true true
    end in
  let client :=
    create_client getenv
      (Some (AgentPassportMiddlewareOptions.base_url opts))
      (AgentPassportMiddlewareOptions.api_key opts)
      (Some (AgentPassportMiddlewareOptions.timeout_ms opts)) in
  try_except (mediate json_loads py_repr error_message transport latency opts client request)
    (mediate_handlers error_message).

Definition MISSING_AGENT_ID_MESSAGE_ROUTE : string :=
  "Agent ID is required. Provide X-Agent-Passport-Id header, function parameter, or body.passport.".

(** The [try] block of the middleware that
    [require_policy_with_context(policy_id, context, agent_id)] returns. *)
Definition require_policy_with_context_try (cl : APortClientOptions.t)
    (policy_id : string) (context : gmap string pyval) (agent_id : option string)
    (request : Request) : M response :=
  '(body_json, request) ←
    (if String.eqb (method request) "POST" then _read_and_replay_body json_loads request
     else mret (PDict ∅, request));
  body_passport ← lift_res (body_dict_field true body_json "passport");
  body_policy ← lift_res (body_dict_field true body_json "policy");
  extracted_agent_id ← lift_res (extract_agent_id request agent_id body_json true);
  if negb (truthy extracted_agent_id) && negb (truthy body_passport) then
    mret (create_error_response 401 "missing_agent_id" MISSING_AGENT_ID_MESSAGE_ROUTE None)
  else
    effective_agent_id ←
      (if truthy extracted_agent_id then mret extracted_agent_id
       else lift_res (get_if_truthy body_passport "agent_id"));
    items ← lift_res (py_items body_json);
    let request_context := context_of_body items in
    let merged_context := context ∪ request_context in
    decision ← verify_selected json_loads py_repr transport latency cl
                 body_policy body_passport effective_agent_id (PStr policy_id)
                 merged_context;
    let decision := DObj decision in
    if negb (_decision_allow decision) then
      let meta := _decision_meta decision in
      mret (create_error_response 403 "policy_violation" "Policy violation"
              (Some (meta ∪ (<["policy_id" := PStr policy_id]>
                               (<["agent_id" := effective_agent_id]> ∅)))))
    else
      let request := set_state_agent request {[ "agent_id" := effective_agent_id ]} in
      let request := set_state_policy_result request (policy_result_of decision) in
      call_next request.

Definition require_policy_with_context (policy_id : string)
    (context : gmap string pyval) (agent_id : option string)
    (request : Request) : M response :=
  let client := create_client getenv None None None in
  try_except (require_policy_with_context_try client policy_id context agent_id request)
    (mediate_handlers error_message).

End Factories.

(** ** Reading the log *)

Definition client_ops (evs : list event) : list client_op :=
  omap (λ ev, match ev with EvClientOp op => Some op | _ => None end) evs.

Definition wire_requests (evs : list event) : list wire_request :=
  omap (λ ev, match ev with EvWire w => Some w | _ => None end) evs.

Definition is_body_read (ev : event) : bool :=
  match ev with EvBodyRead => true | _ => false end.

Definition body_reads (evs : list event) : nat :=
  List.length (List.filter is_body_read evs).

(** A fresh process: empty log, nothing cached. *)
Definition world0 (t : N) : World := mkWorld t [] None None.

(** ** Fixtures *)

(** A JSON decoder given by a finite table from texts to values; every
    other text is not JSON. *)
Definition loads_table (table : list (string * pyval)) (text : string) : loads_result :=
  match list_find (λ kv, kv.1 = text) table with
  | Some (_, (_, v)) => LoadsOk v
  | None => LoadsJSONDecodeError
  end.

Definition repr0 (v : pyval) : string := "<object>".
(** [AportError] as the spec describes the failure, with a status, a
    reason list and a decision identifier and without a [message] attribute:
    every read of [error.message] raises [AttributeError]. *)
Definition no_message (error_message : AportError.t → res string) : Prop :=
  ∀ error, error_message error = Raise (PyExn "AttributeError").

Definition message0 (e : AportError.t) : res string := Raise (PyExn "AttributeError").
Definition getenv0 (name : string) : option string := None.
Definition latency0 (w : wire_request) : N := 1%N.

Definition request0 (method path : string) (headers : gmap string string)
    (body : string) : Request :=
  mkRequest method path headers body None None.

(** ** Summaries used by the statements *)

#[global] Instance res_ret : MRet res := λ A a, Ok a.
#[global] Instance res_bind : MBind res := λ A B f r,
  match r with Ok a => f a | Raise e => Raise e end.

(** The resolver's view of a body that is a mapping: the honoured
    sub-object under [key] ([None] unless it is a dict), and the agent
    identity by the precedence parameter, body passport, headers. *)
Definition dict_field (flag : bool) (body : gmap string pyval) (key : string) : pyval :=
  if flag && is_dict (dict_get body key) then dict_get body key else PNone.

Definition agent_id_of (request : Request) (provided_agent_id : option string)
    (body : gmap string pyval) (passport_from_body : bool) : pyval :=
  let from_headers :=
    py_or (header_get request "x-agent-passport-id")
      (py_or (header_get request "x-agent-id") PNone) in
  let from_passport :=
    if passport_from_body
    then dict_get (as_dict (dict_field true body "passport")) "agent_id"
    else PNone in
  py_or (of_opt_str provided_agent_id) (py_or from_passport from_headers).

(** [effective_agent_id]: the agent identity, else the passport's. *)
Definition effective_agent_id_of (agent_id body_passport : pyval) : pyval :=
  py_or agent_id (dict_get (as_dict body_passport) "agent_id").

(** The selection rule of the specification (§4.2): inline policy pack,
    else passport, else identity. *)
Definition selected_op (body_policy body_passport effective_agent_id policy_id : pyval)
    (context : gmap string pyval) : client_op :=
  if truthy body_policy then
    OpVerifyPolicyWithPolicyInBody
      (if truthy body_passport then body_passport else effective_agent_id)
      (as_dict body_policy) context
  else if truthy body_passport then
    OpVerifyPolicyWithPassport (as_dict body_passport) policy_id context
  else OpVerifyPolicy effective_agent_id policy_id context.

(** HTTP methods that change state and may carry a body (RFC 9110). *)
Definition state_changing (method : string) : bool :=
  bool_decide (method ∈ ["POST"; "PUT"; "PATCH"; "DELETE"]).

Section Summaries.

Variable json_loads : string → loads_result.
Variable py_repr : pyval → string.
Variable transport : wire_request → transport_outcome.
Variable latency : wire_request → N.

(** What [_make_request] returns or raises for a transport outcome. *)
Definition http_result (o : transport_outcome) : res pyval :=
  match o with
  | HttpResponse status server_timing text =>
      json_data ← loads_or_empty json_loads text;
      if negb (response_ok status) then
        reasons ← py_get json_data "reasons";
        decision_id ← py_get json_data "decision_id";
        error ← AportError_init status reasons decision_id server_timing (Some text);
        Raise (AportErr error)
      else if truthy_opt_str server_timing then
        py_setitem json_data "_meta"
          (PDict (<["serverTiming" := of_opt_str server_timing]> ∅))
      else Ok json_data
  | ClientError msg =>
      error ← AportError_init 0 (network_error_reasons msg) PNone None None;
      Raise (AportErr error)
  | TimeoutError =>
      error ← AportError_init 408 timeout_reasons PNone None None;
      Raise (AportErr error)
  end.

Definition wire_of (opts : APortClientOptions.t) (method path : string)
    (data : option pyval) (idempotency_key : option string) : wire_request :=
  {| w_method := method; w_url := _normalize_url opts path;
     w_headers := session_headers (_get_headers opts idempotency_key); w_json := data |}.

(** The world after a network call *)
Definition after_call (wr : wire_request) (w : World) : World :=
  mkWorld (now w + latency wr)%N (events w ++ [EvWire wr])
    (jwks_cache w) (jwks_cache_expiry w).

(** The world after a log entry *)
Definition after_emit (ev : event) (w : World) : World :=
  mkWorld (now w) (events w ++ [ev]) (jwks_cache w) (jwks_cache_expiry w).

(** The network call each client operation issues when the middleware
    invokes it (no idempotency key). *)
Definition op_wire (cl : APortClientOptions.t) (op : client_op) : wire_request :=
  match op with
  | OpVerifyPolicy agent_id policy_id context =>
      wire_of cl "POST" (String.append "/api/verify/policy/" (fstr py_repr policy_id))
        (Some (PDict (_build_policy_request_body agent_id policy_id None
                        (Some context) None None))) None
  | OpVerifyPolicyWithPassport passport policy_id context =>
      wire_of cl "POST" (String.append "/api/verify/policy/" (fstr py_repr policy_id))
        (Some (PDict (_build_policy_request_body (dict_get passport "agent_id") policy_id
                        None (Some context) (Some passport) None))) None
  | OpVerifyPolicyWithPolicyInBody agent_id_or_passport policy context =>
      wire_of cl "POST" "/api/verify/policy/IN_BODY"
        (Some (PDict (_build_policy_request_body
                        (match agent_id_or_passport with
                         | PDict p => dict_get p "agent_id"
                         | a => a
                         end)
                        (dict_get policy "id") None (Some context)
                        (match agent_id_or_passport with
                         | PDict p => Some p
                         | _ => None
                         end)
                        (Some policy)))) None
  | OpGetPassportView agent_id =>
      wire_of cl "GET"
        (String.append "/api/passports/"
           (String.append (fstr py_repr agent_id) "/verify_view")) None None
  | OpGetJwks => wire_of cl "GET" "/jwks.json" None None
  end.

(** The body mapping as [dispatch] obtains it *)
Definition body_json_of (opts : AgentPassportMiddlewareOptions.t) (request : Request)
    : res pyval :=
  if reads_body opts request then loads_or_empty json_loads (receive request)
  else Ok (PDict ∅).

(** The world after the body-reading step of [dispatch] *)
Definition after_read (opts : AgentPassportMiddlewareOptions.t) (request : Request)
    (w : World) : World :=
  if reads_body opts request then after_emit EvBodyRead w else w.

End Summaries.

(** The context entry a verification request carries for one of the three
    keys the client owns: the call's own value when it is not [None], else
    the caller's entry. *)
Definition owned_entry (own : pyval) (context : gmap string pyval) (k : string)
    : option pyval :=
  if is_not_none own then Some own else context !! k.

(** The frame condition on a verification request body: the three owned
    keys, every other key of the caller's context, and the two optional
    fields. *)
Definition wire_frame (agent_id policy_id : pyval) (idempotency_key : option string)
    (context : gmap string pyval) (passport policy : option (gmap string pyval))
    (body : gmap string pyval) : Prop :=
  ∃ ctx : gmap string pyval,
    body !! "context" = Some (PDict ctx)
    ∧ ctx !! "agent_id" = owned_entry agent_id context "agent_id"
    ∧ ctx !! "policy_id" = owned_entry policy_id context "policy_id"
    ∧ ctx !! "idempotency_key"
      = owned_entry (of_opt_str idempotency_key) context "idempotency_key"
    ∧ (∀ k : string, k ≠ "agent_id" → k ≠ "policy_id" → k ≠ "idempotency_key" →
         ctx !! k = context !! k)
    ∧ body !! "passport" = PDict <$> passport
    ∧ body !! "policy" = PDict <$> policy.

(** The policy identifier a [policy_violation] rejection reports: the
    configured one when set, else the body policy pack's [id]. *)
Definition reported_policy_id (policy_id : option string) (body_policy : pyval) : pyval :=
  if truthy_opt_str policy_id then of_opt_str policy_id
  else dict_get (as_dict body_policy) "id".

Definition policy_violation_response (effective_agent_id reported : pyval)
    (decision : decision_t) : response :=
  create_error_response 403 "policy_violation" "Policy violation"
    (Some (_decision_meta decision
           ∪ (<["policy_id" := reported]> (<["agent_id" := effective_agent_id]> ∅)))).

(** The request handed downstream after an allowing decision *)
Definition enriched_request (request : Request) (effective_agent_id : pyval)
    (decision : decision_t) : Request :=
  set_state_policy_result
    (set_state_agent request {[ "agent_id" := effective_agent_id ]})
    (policy_result_of decision).

(** What the pipeline answers once a decision is resolved *)
Definition decided (request : Request) (effective_agent_id reported : pyval)
    (decision : decision_t) : response :=
  if negb (_decision_allow decision)
  then policy_violation_response effective_agent_id reported decision
  else CallNext (enriched_request request effective_agent_id decision).

Definition missing_agent_id_response : response :=
  create_error_response 401 "missing_agent_id" MISSING_AGENT_ID_MESSAGE None.

(** What the two [except] clauses of [dispatch] do with an exception: the
    rejection they build, or the exception the read of [error.message]
    raises. *)
Definition rejection_of (error_message : AportError.t → res string) (e : exn)
    : res response :=
  match e with
  | AportErr error =>
      message ← error_message error;
      Ok (create_error_response (AportError.status error) "api_error" message
            (Some {[ "reasons" := AportError.reasons error ]}))
  | PyExn _ => Ok (create_error_response 500 "internal_error" "Internal server error" None)
  end.

(** A computation that never reads the request body, whatever it returns
    or raises. *)
Definition quiet {A} (m : M A) : Prop :=
  ∀ w, ∃ evs, events (m w).2 = events w ++ evs ∧ body_reads evs = 0%nat.


(** The context argument of a verification operation *)
Definition op_context (op : client_op) : gmap string pyval :=
  match op with
  | OpVerifyPolicy _ _ c | OpVerifyPolicyWithPassport _ _ c
  | OpVerifyPolicyWithPolicyInBody _ _ c => c
  | OpGetPassportView _ | OpGetJwks => ∅
  end.

(** The agent identity and the policy id that a verification operation
    passes to [_build_policy_request_body] as the call's own values: the
    agent identity given, or the passport's [agent_id]; the policy id given,
    or the [id] of the policy pack. *)
Definition op_agent_id (op : client_op) : pyval :=
  match op with
  | OpVerifyPolicy agent_id _ _ => agent_id
  | OpVerifyPolicyWithPassport passport _ _ => dict_get passport "agent_id"
  | OpVerifyPolicyWithPolicyInBody (PDict passport) _ _ => dict_get passport "agent_id"
  | OpVerifyPolicyWithPolicyInBody agent_id _ _ => agent_id
  | OpGetPassportView _ | OpGetJwks => PNone
  end.

Definition op_policy_id (op : client_op) : pyval :=
  match op with
  | OpVerifyPolicy _ policy_id _ | OpVerifyPolicyWithPassport _ policy_id _ => policy_id
  | OpVerifyPolicyWithPolicyInBody _ policy _ => dict_get policy "id"
  | OpGetPassportView _ | OpGetJwks => PNone
  end.

(** The body mapping as the route middleware obtains it, and the world
    after its body-reading step *)
Definition route_body_json_of (json_loads : string → loads_result) (request : Request)
    : res pyval :=
  if String.eqb (method request) "POST" then loads_or_empty json_loads (receive request)
  else Ok (PDict ∅).

Definition after_route_read (request : Request) (w : World) : World :=
  if String.eqb (method request) "POST"
  then mkWorld (now w) (events w ++ [EvBodyRead]) (jwks_cache w) (jwks_cache_expiry w)
  else w.

(** Texts and the values they decode to, for the examples below *)
Definition passport_x : gmap string pyval := {[ "agent_id" := PStr "x" ]}.

Definition policy_custom : gmap string pyval :=
  <["id" := PStr "custom"]> {[ "requires_capabilities" := PList [] ]}.

Definition reason_cap_missing : pyval :=
  PDict (<["code" := PStr "CAP_MISSING"]>
           (<["message" := PStr "missing capability"]> {[ "severity" := PStr "error" ]})).

Definition fixture_texts : list (string * pyval) :=
  [ ("body_passport_and_policy",
     PDict (<["passport" := PDict passport_x]>
              (<["policy" := PDict policy_custom]> {[ "amount" := PInt 5 ]})));
    ("body_context", PDict (<["agent_id" := PStr "body"]> {[ "amount" := PInt 5 ]}));
    ("body_array", PList [PInt 1]);
    ("decision_deny",
     PDict {[ "decision" :=
                PDict (<["decision_id" := PStr "d1"]>
                         (<["allow" := PBool false]>
                            {[ "reasons" := PList [reason_cap_missing] ]})) ]});
    ("decision_allow",
     PDict {[ "decision" :=
                PDict (<["decision_id" := PStr "d1"]>
                         (<["allow" := PBool true]>
                            (<["assurance_level" := PStr "L2"]>
                               (<["expires_in" := PInt 60]>
                                  {[ "reasons" := PList [] ]})))) ]});
    ("keyset", PDict {[ "keys" := PList [] ]}) ].

Definition loads0 : string → loads_result := loads_table fixture_texts.

(** A decision service that answers every call with status 200 and the
    given text *)
Definition respond (text : string) (w : wire_request) : transport_outcome :=
  HttpResponse 200 None text.

(** A decision service that cannot be reached in time, or at all *)
Definition times_out (w : wire_request) : transport_outcome := TimeoutError.

Definition connection_refused (w : wire_request) : transport_outcome :=
  ClientError "Connection refused".

Definition middleware0 (policy_id : option string) (fail_closed : bool)
    : AgentPassportMiddleware :=
  AgentPassportMiddleware_init getenv0
    (AgentPassportMiddlewareOptions_init getenv0 None None 5000 fail_closed None
       policy_id true true).

(** ** The rest of the client (client.py) *)

(** [v[k]] with a string key *)
Definition py_getitem (v : pyval) (k : string) : res pyval :=
  match v with
  | PDict d =>
      match d !! k with
      | Some x => Ok x
      | None => Raise (PyExn "KeyError")
      end
  | _ => Raise (PyExn "TypeError")
  end.

(** [PolicyVerificationRequest(agent_id=agent_id, context=context).__dict__]:
    the dataclass's five fields, the three left out at their default [None]. *)
Definition policy_verification_request_dict (agent_id : pyval)
    (context : gmap string pyval) : gmap string pyval :=
  <["policy" := PNone]>
    (<["passport" := PNone]>
       (<["context" := PDict context]>
          (<["idempotency_key" := PNone]> (<["agent_id" := agent_id]> ∅)))).

Definition invalid_token_reasons : pyval :=
  PList [PDict (<["code" := PStr "INVALID_TOKEN"]>
                  (<["message" := PStr "Token validation failed"]> ∅))].

Definition invalid_token : AportError.t := AportError_2 401 invalid_token_reasons.

Section ClientTokens.

Variable json_loads : string → loads_result.
Variable py_repr : pyval → string.
Variable transport : wire_request → transport_outcome.
Variable latency : wire_request → N.

Definition get_decision_token (opts : APortClientOptions.t) (agent_id policy_id : pyval)
    (context : option (gmap string pyval)) : M pyval :=
  let context := default ∅ context in
  let request := policy_verification_request_dict agent_id context in
  response_data ← _make_request json_loads transport latency opts "POST"
                    (String.append "/api/verify/token/" (fstr py_repr policy_id))
                    (Some (PDict request)) None;
  lift_res (py_getitem response_data "token").

Definition validate_decision_token (opts : APortClientOptions.t) (token : pyval)
    : M PolicyVerificationResponse.t :=
  response_data ← _make_request json_loads transport latency opts "POST"
                    "/api/verify/token/validate"
                    (Some (PDict {[ "token" := token ]})) None;
  lift_res (from_api_response response_data).

Definition validate_decision_token_local (opts : APortClientOptions.t) (token : pyval)
    : M PolicyVerificationResponse.t :=
  try_except
    (jwks ← get_jwks json_loads transport latency opts;
     validate_decision_token opts token)
    (λ _, Some (raise_AportError 401 invalid_token_reasons PNone None None)).

End ClientTokens.

(** ** The rest of the middleware (middleware.py) *)

Definition _response_to_dict (resp : decision_t) : gmap string pyval :=
  match resp with
  | DDict d => d
  | DObj r =>
      <["created_at" := PolicyVerificationResponse.created_at r]>
        (<["expires_in" := PolicyVerificationResponse.expires_in r]>
           (<["assurance_level" := PolicyVerificationResponse.assurance_level r]>
              (<["reasons" := py_or (PolicyVerificationResponse.reasons r) (PList [])]>
                 (<["allow" := PolicyVerificationResponse.allow r]>
                    (<["decision_id" := PolicyVerificationResponse.decision_id r]> ∅)))))
  end.

(** What a route dependency does: raise [HTTPException], or return a value
    after setting the request state. *)
Inductive dependency_result :=
| HTTPException (status_code : Z) (detail : gmap string pyval)
| Returned (request : Request) (value : gmap string pyval).

(** A client made for one call: its cache fields start empty and are
    dropped with it; the fields of the world's client are left alone. *)
Definition with_new_client {A} (m : M A) : M A :=
  λ w, let '(r, w') := m (mkWorld (now w) (events w) None None) in
       (r, mkWorld (now w') (events w') (jwks_cache w) (jwks_cache_expiry w)).

Section Routes.

Variable getenv : string → option string.
Variable json_loads : string → loads_result.
Variable py_repr : pyval → string.
Variable error_message : AportError.t → res string.
Variable transport : wire_request → transport_outcome.
Variable latency : wire_request → N.

(** The [try] block of the dependency that [require_policy(policy_id,
    agent_id)] returns.  The [agent_id] parameter is not passed on to
    [extract_agent_id]. *)
Definition require_policy_try (cl : APortClientOptions.t) (policy_id : string)
    (agent_id : option string) (request : Request) : M dependency_result :=
  '(body_json, request) ←
    (if String.eqb (method request) "POST" then _read_and_replay_body json_loads request
     else mret (PDict ∅, request));
  body_passport ← lift_res (body_dict_field true body_json "passport");
  body_policy ← lift_res (body_dict_field true body_json "policy");
  extracted_agent_id ← lift_res (extract_agent_id request None body_json true);
  if negb (truthy extracted_agent_id) && negb (truthy body_passport) then
    mret (HTTPException 401
            (<["message" := PStr (MISSING_AGENT_ID_MESSAGE_ROUTE)]>
               (<["error" := PStr "missing_agent_id"]> ∅)))
  else
    effective_agent_id ←
      (if truthy extracted_agent_id then mret extracted_agent_id
       else lift_res (get_if_truthy body_passport "agent_id"));
    items ← lift_res (py_items body_json);
    let context := context_of_body items in
    decision ← verify_selected json_loads py_repr transport latency cl
                 body_policy body_passport effective_agent_id (PStr policy_id) context;
    let decision := DObj decision in
    if negb (_decision_allow decision) then
      let meta := _decision_meta decision in
      mret (HTTPException 403
              (meta ∪ (<["policy_id" := PStr policy_id]>
                         (<["agent_id" := effective_agent_id]>
                            (<["message" := PStr "Policy violation"]>
                               (<["error" := PStr "policy_violation"]> ∅))))))
    else
      let agent : gmap string pyval := {[ "agent_id" := effective_agent_id ]} in
      let request := set_state_agent request agent in
      let request := set_state_policy_result request (policy_result_of decision) in
      mret (Returned request
              (<["policy_result" := policy_result_of decision]>
                 (<["agent" := PDict agent]> ∅))).

Definition require_policy_handlers (e : exn) : option (M dependency_result) :=
  match e with
  | AportErr error =>
      Some (message ← lift_res (error_message error);
            mret (HTTPException (AportError.status error)
                    (<["reasons" := AportError.reasons error]>
                       (<["message" := PStr message]>
                          (<["error" := PStr "api_error"]> ∅)))))
  | PyExn _ =>
      Some (mret (HTTPException 500
                    (<["message" := PStr "Internal server error"]>
                       (<["error" := PStr "internal_error"]> ∅))))
  end.

Definition require_policy (policy_id : string) (agent_id : option string)
    (request : Request) : M dependency_result :=
  let client := create_client getenv None None None in
  try_except (require_policy_try client policy_id agent_id request)
    require_policy_handlers.

End Routes.

(** The module-level convenience functions, each on a client of its own. *)
Module Middleware.
Section Functions.

Variable getenv : string → option string.
Variable json_loads : string → loads_result.
Variable py_repr : pyval → string.
Variable transport : wire_request → transport_outcome.
Variable latency : wire_request → N.

Definition get_decision_token (agent_id policy_id : pyval)
    (context : option (gmap string pyval)) : M pyval :=
  with_new_client
    (get_decision_token json_loads py_repr transport latency
       (create_client getenv None None None) agent_id policy_id
       (Some (default ∅ context))).

Definition validate_decision_token (token : pyval) : M (gmap string pyval) :=
  with_new_client
    (resp ← validate_decision_token json_loads transport latency
              (create_client getenv None None None) token;
     mret (_response_to_dict (DObj resp))).

Definition validate_decision_token_local (token : pyval) : M (gmap string pyval) :=
  with_new_client
    (resp ← validate_decision_token_local json_loads transport latency
              (create_client getenv None None None) token;
     mret (_response_to_dict (DObj resp))).

Definition get_jwks : M (gmap string pyval) :=
  with_new_client
    (jwks ← get_jwks json_loads transport latency
              (create_client getenv None None None);
     mret {[ "keys" := Jwks.keys jwks ]}).

End Functions.
End Middleware.

(** ** Predicates for the properties of all runs *)

(** The statuses an [AportError] of the client carries: 0 after a connection
    error, 408 after a timeout, else the status of a response that is not
    [ok]. *)
Definition client_status (s : Z) : Prop := s = 0 ∨ s = 408 ∨ 400 ≤ s.

Definition client_exn (e : exn) : Prop :=
  match e with
  | AportErr error => client_status (AportError.status error)
  | PyExn _ => True
  end.

(** A pure helper raises no [AportError]. *)
Definition no_aport {A} (r : res A) : Prop :=
  match r with
  | Raise (AportErr _) => False
  | _ => True
  end.

(** [post Q E m]: whatever the world, [m] returns a value in [Q] or raises
    an exception in [E]. *)
Definition post {A} (Q : A → Prop) (E : exn → Prop) (m : M A) : Prop :=
  ∀ w, match (m w).1 with Ok a => Q a | Raise e => E e end.

(** [calls n m]: whatever the world, [m] appends to the log at most [n]
    client operations and at most [n] network calls. *)
Definition calls {A} (n : nat) (m : M A) : Prop :=
  ∀ w, ∃ evs,
    events (m w).2 = events w ++ evs
    ∧ (List.length (wire_requests evs) ≤ n)%nat
    ∧ (List.length (client_ops evs) ≤ n)%nat.

(** The rejections that are built when [AportError] has no [message]:
    each code with its status. *)
Definition rejection_wf (r : response) : Prop :=
  match r with
  | CallNext _ => True
  | JSONResponse s c =>
      ∃ code message,
        c !! "error" = Some (PStr code)
        ∧ c !! "message" = Some (PStr message)
        ∧ ((code = "missing_agent_id" ∧ s = 401)
           ∨ (code = "policy_violation" ∧ s = 403)
           ∨ (code = "internal_error" ∧ s = 500))
  end.

(** The request handed downstream is the inbound one up to
    [request.state]. *)
Definition same_inbound (request : Request) (r : response) : Prop :=
  match r with
  | CallNext downstream =>
      method downstream = method request
      ∧ url_path downstream = url_path request
      ∧ headers downstream = headers request
      ∧ receive downstream = receive request
  | JSONResponse _ _ => True
  end.

(** The request handed downstream carries an allowing policy result. *)
Definition carries_allow (r : response) : Prop :=
  match r with
  | CallNext downstream =>
      ∃ policy_result allow,
        state_policy_result downstream = Some (PDict policy_result)
        ∧ policy_result !! "allow" = Some allow
        ∧ truthy allow = true
        ∧ is_Some (state_agent downstream)
  | JSONResponse _ _ => True
  end.


(** [sends P m]: whatever the world, every network call that [m] issues
    satisfies [P]. *)
Definition sends {A} (P : wire_request → Prop) (m : M A) : Prop :=
  ∀ w, ∃ evs, events (m w).2 = events w ++ evs ∧ Forall P (wire_requests evs).

(** What the dependency of [require_policy] answers for a request when
    [AportError] has no [message]: the return value and the request state
    after an allowing decision, or one of three [HTTPException]s. *)
Definition dependency_wf (request : Request) (policy_id : string)
    (r : dependency_result) : Prop :=
  match r with
  | Returned downstream value =>
      ∃ effective_agent_id policy_result allow,
        state_agent downstream = Some {[ "agent_id" := effective_agent_id ]}
        ∧ state_policy_result downstream = Some (PDict policy_result)
        ∧ value !! "agent" = Some (PDict {[ "agent_id" := effective_agent_id ]})
        ∧ value !! "policy_result" = Some (PDict policy_result)
        ∧ policy_result !! "allow" = Some allow
        ∧ truthy allow = true
        ∧ receive downstream = receive request
  | HTTPException s detail =>
      ∃ code,
        detail !! "error" = Some (PStr code)
        ∧ ((code = "missing_agent_id" ∧ s = 401)
           ∨ (code = "policy_violation" ∧ s = 403
              ∧ detail !! "policy_id" = Some (PStr policy_id))
           ∨ (code = "internal_error" ∧ s = 500))
  end.

(** ** Claims as the specification words them *)

(** C1 as stated: every request for which neither an agent identity nor a
    body passport is resolved is rejected 401 [missing_agent_id] under
    [fail_closed]. *)
Definition missing_identity_always_rejected : Prop :=
  ∀ json_loads py_repr error_message transport latency
    (self : AgentPassportMiddleware) (request : Request)
    (body : gmap string pyval) (w : World),
    let opts := options self in
    let pfb := AgentPassportMiddlewareOptions.passport_from_body opts in
    body_json_of json_loads opts request = Ok (PDict body) →
    truthy (agent_id_of request None body pfb) = false →
    truthy (dict_field pfb body "passport") = false →
    AgentPassportMiddlewareOptions.fail_closed opts = true →
    ∃ content,
      (dispatch json_loads py_repr error_message transport latency self request w).1
      = Ok (JSONResponse 401 content)
      ∧ content !! "error" = Some (PStr "missing_agent_id").

(** C5 as stated: every request with a state-changing method has its body
    read exactly once. *)
Definition state_changing_body_read_once : Prop :=
  ∀ json_loads py_repr error_message transport latency
    (self : AgentPassportMiddleware) (request : Request) (w : World),
    should_skip_request request
      (AgentPassportMiddlewareOptions.skip_paths (options self)) = false →
    state_changing (method request) = true →
    body_reads
      (events (dispatch json_loads py_repr error_message transport latency
                 self request w).2)
    = (body_reads (events w) + 1)%nat.

(** C9 as stated: the context that goes out on the wire is the merge of the
    body context and the override context. *)
Definition context_sent_is_merge : Prop :=
  ∀ getenv json_loads py_repr error_message transport latency
    (policy_id : string) (context : gmap string pyval) (agent_id : option string)
    (request : Request) (body : gmap string pyval) (w : World)
    (wr : wire_request) (sent_body sent : gmap string pyval),
    route_body_json_of json_loads request = Ok (PDict body) →
    wire_requests
      (events (require_policy_with_context getenv json_loads py_repr error_message
                 transport latency policy_id context agent_id request w).2)
    = wire_requests (events w) ++ [wr] →
    w_json wr = Some (PDict sent_body) →
    sent_body !! "context" = Some (PDict sent) →
    sent = context ∪ context_of_body body.

(** C3 as stated: a denial reports the body policy pack's [id] when a body
    policy pack was applied, else the configured policy id. *)
Definition denial_reports_applied_policy : Prop :=
  ∀ json_loads py_repr error_message transport latency
    (self : AgentPassportMiddleware) (request : Request)
    (body : gmap string pyval) (w : World) (d : PolicyVerificationResponse.t),
    let opts := options self in
    let policy_id := AgentPassportMiddlewareOptions.policy_id opts in
    let pfb := AgentPassportMiddlewareOptions.passport_from_body opts in
    let bp := dict_field pfb body "passport" in
    let bpol := dict_field (AgentPassportMiddlewareOptions.policy_from_body opts)
                  body "policy" in
    let aid := agent_id_of request None body pfb in
    let eff := effective_agent_id_of aid bp in
    let op := selected_op bpol bp eff (of_opt_str policy_id) (context_of_body body) in
    should_skip_request request (AgentPassportMiddlewareOptions.skip_paths opts) = false →
    body_json_of json_loads opts request = Ok (PDict body) →
    truthy aid || truthy bp = true →
    truthy_opt_str policy_id || truthy bpol = true →
    http_result json_loads (transport (op_wire py_repr (client self) op))
      ≫= from_api_response = Ok d →
    truthy (PolicyVerificationResponse.allow d) = false →
    ∃ content,
      (dispatch json_loads py_repr error_message transport latency self request w).1
      = Ok (JSONResponse 403 content)
      ∧ content !! "error" = Some (PStr "policy_violation")
      ∧ content !! "policy_id"
        = Some (if truthy bpol then dict_get (as_dict bpol) "id"
                else of_opt_str policy_id).

(** C4 as stated, for two of the decision's fields: after an allowing
    decision the request state carries the decision's assurance level and
    expiry. *)
Definition allowed_state_carries_every_field : Prop :=
  ∀ json_loads py_repr error_message transport latency
    (self : AgentPassportMiddleware) (request : Request)
    (body : gmap string pyval) (w : World) (d : PolicyVerificationResponse.t),
    let opts := options self in
    let policy_id := AgentPassportMiddlewareOptions.policy_id opts in
    let pfb := AgentPassportMiddlewareOptions.passport_from_body opts in
    let bp := dict_field pfb body "passport" in
    let bpol := dict_field (AgentPassportMiddlewareOptions.policy_from_body opts)
                  body "policy" in
    let aid := agent_id_of request None body pfb in
    let eff := effective_agent_id_of aid bp in
    let op := selected_op bpol bp eff (of_opt_str policy_id) (context_of_body body) in
    should_skip_request request (AgentPassportMiddlewareOptions.skip_paths opts) = false →
    body_json_of json_loads opts request = Ok (PDict body) →
    truthy aid || truthy bp = true →
    truthy_opt_str policy_id || truthy bpol = true →
    http_result json_loads (transport (op_wire py_repr (client self) op))
      ≫= from_api_response = Ok d →
    truthy (PolicyVerificationResponse.allow d) = true →
    ∃ downstream policy_result,
      (dispatch json_loads py_repr error_message transport latency self request w).1
      = Ok (CallNext downstream)
      ∧ state_policy_result downstream = Some (PDict policy_result)
      ∧ policy_result !! "assurance_level"
        = Some (PolicyVerificationResponse.assurance_level d)
      ∧ policy_result !! "expires_in" = Some (PolicyVerificationResponse.expires_in d).

(** * Properties *)

(** ** The monad and the pure helpers *)

Ltac munfold :=
  unfold mbind, mret, M_bind, M_ret, res_bind, res_ret, lift_res, raise, emit, sleep,
    time_time, get_cache, set_jwks_cache, set_jwks_cache_expiry, call_next in *.

Lemma set_receive_replay (request : Request) :
  set_receive (set_receive request EmptyString) (receive request) = request.
Proof. destruct request; reflexivity. Qed.

Lemma body_dict_field_dict (flag : bool) (body : gmap string pyval) (key : string) :
  body_dict_field flag (PDict body) key = Ok (dict_field flag body key).
Proof.
  unfold body_dict_field, dict_field; simpl.
  destruct flag; simpl; [|reflexivity].
  destruct (is_dict (dict_get body key)); reflexivity.
Qed.

Lemma dict_field_cases (flag : bool) (body : gmap string pyval) (key : string) :
  dict_field flag body key = PNone ∨ ∃ d, dict_field flag body key = PDict d.
Proof.
  unfold dict_field. destruct flag; simpl; [|by left].
  destruct (dict_get body key); simpl; eauto.
Qed.

Lemma extract_agent_id_dict (request : Request) (provided : option string)
    (body : gmap string pyval) (pfb : bool) :
  extract_agent_id request provided (PDict body) pfb
  = Ok (agent_id_of request provided body pfb).
Proof.
  unfold extract_agent_id, agent_id_of, truthy_opt_str, dict_field.
  set (hdr := py_or (header_get request "x-agent-passport-id") _).
  unfold py_or at 1.
  destruct (truthy (of_opt_str provided)); [reflexivity|].
  destruct pfb; simpl; [|reflexivity].
  destruct (negb (size body =? 0)%nat) eqn:Hsz.
  - destruct (dict_get body "passport") as [| | | | |p]; simpl; try reflexivity.
    unfold py_or. destruct (truthy (dict_get p "agent_id")); reflexivity.
  - assert (body = ∅) as ->.
    { apply negb_false_iff, Nat.eqb_eq in Hsz. by apply map_size_empty_iff. }
    reflexivity.
Qed.

Section Facts.

Variable getenv : string → option string.
Variable json_loads : string → loads_result.
Variable py_repr : pyval → string.
Variable error_message : AportError.t → res string.
Variable transport : wire_request → transport_outcome.
Variable latency : wire_request → N.

Lemma make_request_run (opts : APortClientOptions.t) (method path : string)
    (data : option pyval) (idempotency_key : option string) (w : World) :
  _make_request json_loads transport latency opts method path data idempotency_key w
  = (http_result json_loads (transport (wire_of opts method path data idempotency_key)),
     after_call latency (wire_of opts method path data idempotency_key) w).
Proof.
  unfold _make_request, http_result, after_call, wire_of. munfold. cbv beta iota.
  destruct (transport _) as [status st text| |]; try reflexivity.
  destruct (loads_or_empty json_loads text) as [jd|e]; [|reflexivity].
  destruct (negb (response_ok status)).
  - destruct (py_get jd "reasons"); [|reflexivity].
    destruct (py_get jd "decision_id"); reflexivity.
  - destruct (truthy_opt_str st); [|reflexivity].
    destruct (py_setitem jd "_meta" _); reflexivity.
Qed.

Lemma bind_run {A B} (m : M A) (f : A → M B) (w : World) :
  (m ≫= f) w = match m w with
               | (Ok a, w') => f a w'
               | (Raise e, w') => (Raise e, w')
               end.
Proof. reflexivity. Qed.

(** Every verification operation logs itself, issues the one network call
    [op_wire] describes, and builds its result from the response. *)
Lemma verify_selected_run (cl : APortClientOptions.t)
    (body_policy body_passport effective_agent_id policy_id : pyval)
    (context : gmap string pyval) (w : World) :
  let op := selected_op body_policy body_passport effective_agent_id policy_id context in
  verify_selected json_loads py_repr transport latency cl body_policy body_passport
    effective_agent_id policy_id context w
  = (http_result json_loads (transport (op_wire py_repr cl op)) ≫= from_api_response,
     after_call latency (op_wire py_repr cl op) (after_emit (EvClientOp op) w)).
Proof.
  unfold verify_selected, selected_op.
  destruct (truthy body_policy); [|destruct (truthy body_passport)].
  - unfold verify_policy_with_policy_in_body, op_wire.
    set (aop := if truthy body_passport then body_passport else effective_agent_id).
    rewrite bind_run. unfold emit at 1. cbv beta iota.
    destruct aop; cbv beta iota; rewrite bind_run, make_request_run;
      destruct (http_result _ _); reflexivity.
  - unfold verify_policy_with_passport, op_wire.
    rewrite bind_run. unfold emit at 1. cbv beta iota.
    rewrite bind_run, make_request_run. destruct (http_result _ _); reflexivity.
  - unfold verify_policy, op_wire.
    rewrite bind_run. unfold emit at 1. cbv beta iota.
    rewrite bind_run, make_request_run. destruct (http_result _ _); reflexivity.
Qed.

Lemma get_passport_view_run (cl : APortClientOptions.t) (agent_id : pyval) (w : World) :
  get_passport_view json_loads py_repr transport latency cl agent_id w
  = (http_result json_loads (transport (op_wire py_repr cl (OpGetPassportView agent_id))),
     after_call latency (op_wire py_repr cl (OpGetPassportView agent_id))
       (after_emit (EvClientOp (OpGetPassportView agent_id)) w)).
Proof.
  unfold get_passport_view, op_wire.
  rewrite bind_run. unfold emit at 1. cbv beta iota.
  by rewrite make_request_run.
Qed.

Lemma read_step (opts : AgentPassportMiddlewareOptions.t) (request : Request)
    (w : World) (v : pyval) :
  body_json_of json_loads opts request = Ok v →
  (if reads_body opts request then _read_and_replay_body json_loads request
   else mret (PDict ∅, request)) w
  = (Ok (v, request), after_read opts request w).
Proof.
  unfold body_json_of, after_read, _read_and_replay_body.
  destruct (reads_body opts request); [|by intros [= <-]].
  intros Hv. rewrite bind_run. unfold emit at 1. cbv beta iota.
  rewrite bind_run. unfold lift_res at 1. rewrite Hv.
  by rewrite set_receive_replay.
Qed.

Lemma effective_agent_id_step (agent_id body_passport : pyval) (w : World) :
  body_passport = PNone ∨ (∃ d, body_passport = PDict d) →
  (if truthy agent_id then mret agent_id
   else lift_res (get_if_truthy body_passport "agent_id")) w
  = (Ok (effective_agent_id_of agent_id body_passport), w).
Proof.
  unfold effective_agent_id_of, py_or, get_if_truthy.
  destruct (truthy agent_id); [reflexivity|].
  intros [-> | [d ->]]; [reflexivity|].
  destruct (truthy (PDict d)) eqn:Hd; [reflexivity|].
  simpl in Hd. apply negb_false_iff, Nat.eqb_eq, map_size_empty_iff in Hd. by subst.
Qed.

(** The policy verification path, in one equation. *)
Lemma mediate_policy_path (opts : AgentPassportMiddlewareOptions.t)
    (cl : APortClientOptions.t) (request : Request) (body : gmap string pyval)
    (w : World) :
  let policy_id := AgentPassportMiddlewareOptions.policy_id opts in
  let pfb := AgentPassportMiddlewareOptions.passport_from_body opts in
  let bp := dict_field pfb body "passport" in
  let bpol := dict_field (AgentPassportMiddlewareOptions.policy_from_body opts)
                body "policy" in
  let aid := agent_id_of request None body pfb in
  let eff := effective_agent_id_of aid bp in
  let op := selected_op bpol bp eff (of_opt_str policy_id) (context_of_body body) in
  should_skip_request request (AgentPassportMiddlewareOptions.skip_paths opts) = false →
  body_json_of json_loads opts request = Ok (PDict body) →
  truthy aid || truthy bp = true →
  truthy_opt_str policy_id || truthy bpol = true →
  mediate json_loads py_repr error_message transport latency opts cl request w
  = (match http_result json_loads (transport (op_wire py_repr cl op))
           ≫= from_api_response with
     | Ok d => Ok (decided request eff (reported_policy_id policy_id bpol) (DObj d))
     | Raise e => Raise e
     end,
     after_call latency (op_wire py_repr cl op)
       (after_emit (EvClientOp op) (after_read opts request w))).
Proof.
  intros policy_id pfb bp bpol aid eff op Hskip Hbody Hid Hpol.
  subst policy_id pfb bp bpol aid eff op.
  unfold mediate. rewrite Hskip.
  rewrite bind_run, (read_step _ _ _ _ Hbody). cbv beta iota zeta.
  rewrite bind_run. unfold lift_res at 1. rewrite body_dict_field_dict. cbv beta iota zeta.
  rewrite bind_run. unfold lift_res at 1. rewrite body_dict_field_dict. cbv beta iota zeta.
  rewrite bind_run. unfold lift_res at 1. rewrite extract_agent_id_dict. cbv beta iota zeta.
  set (policy_id := AgentPassportMiddlewareOptions.policy_id opts) in *.
  set (bp := dict_field _ body "passport") in *.
  set (bpol := dict_field _ body "policy") in *.
  set (aid := agent_id_of _ _ _ _) in *.
  replace (negb (truthy aid) && negb (truthy bp)) with false
    by (rewrite <- negb_orb, Hid; reflexivity).
  rewrite bind_run, effective_agent_id_step by apply dict_field_cases.
  set (eff := effective_agent_id_of aid bp). cbv beta iota zeta.
  replace (negb (truthy_opt_str policy_id) && negb (truthy bpol)) with false
    by (rewrite <- negb_orb, Hpol; reflexivity).
  rewrite bind_run. unfold lift_res at 1, py_items. cbv beta iota zeta.
  rewrite bind_run, verify_selected_run.
  set (op := selected_op _ _ _ _ _).
  destruct (http_result _ _ ≫= from_api_response) as [d|e]; [|reflexivity].
  unfold decided, policy_violation_response, enriched_request, reported_policy_id.
  destruct (negb (_decision_allow (DObj d))); [|reflexivity].
  rewrite bind_run.
  destruct (truthy_opt_str policy_id) eqn:Hp; [reflexivity|].
  simpl in Hpol. unfold lift_res at 1, get_if_truthy. rewrite Hpol.
  destruct (dict_field_cases (AgentPassportMiddlewareOptions.policy_from_body opts)
              body "policy") as [Hn | [d' Hd]]; fold bpol in Hn || fold bpol in Hd.
  - rewrite Hn in Hpol. discriminate.
  - rewrite Hd. reflexivity.
Qed.

Lemma dispatch_run (self : AgentPassportMiddleware) (request : Request) (w : World) :
  dispatch json_loads py_repr error_message transport latency self request w
  = (match (mediate json_loads py_repr error_message transport latency
              (options self) (client self) request w).1 with
     | Ok r => Ok r
     | Raise e => rejection_of error_message e
     end,
     (mediate json_loads py_repr error_message transport latency
        (options self) (client self) request w).2).
Proof.
  unfold dispatch, try_except.
  destruct (mediate _ _ _ _ _ _ _ _ _) as [[r|[e|n]] w']; try reflexivity.
  cbn [fst snd mediate_handlers]. unfold rejection_of.
  rewrite bind_run. unfold lift_res at 1.
  destruct (error_message e); reflexivity.
Qed.

Lemma client_ops_app (l1 l2 : list event) :
  client_ops (l1 ++ l2) = client_ops l1 ++ client_ops l2.
Proof. apply omap_app. Qed.

Lemma wire_requests_app (l1 l2 : list event) :
  wire_requests (l1 ++ l2) = wire_requests l1 ++ wire_requests l2.
Proof. apply omap_app. Qed.

Lemma body_reads_app (l1 l2 : list event) :
  body_reads (l1 ++ l2) = (body_reads l1 + body_reads l2)%nat.
Proof. unfold body_reads. by rewrite List.filter_app, List.length_app. Qed.

Lemma events_after_read (opts : AgentPassportMiddlewareOptions.t) (request : Request)
    (w : World) :
  events (after_read opts request w)
  = events w ++ (if reads_body opts request then [EvBodyRead] else []).
Proof.
  unfold after_read. destruct (reads_body opts request); simpl; [done|].
  by rewrite app_nil_r.
Qed.

(** The function that [agent_passport_middleware] returns is [dispatch] of
    the middleware object with the rebuilt options: the two share their
    text. *)
Remark agent_passport_middleware_dispatch (o : AgentPassportMiddlewareOptions.t)
    (request : Request) :
  agent_passport_middleware getenv json_loads py_repr error_message transport latency
    (Some o) request
  = dispatch json_loads py_repr error_message transport latency
      (AgentPassportMiddleware_init getenv
         (AgentPassportMiddlewareOptions_init getenv
            (Some (AgentPassportMiddlewareOptions.base_url o))
            (AgentPassportMiddlewareOptions.api_key o)
            (AgentPassportMiddlewareOptions.timeout_ms o)
            (AgentPassportMiddlewareOptions.fail_closed o)
            (Some (AgentPassportMiddlewareOptions.skip_paths o))
            (AgentPassportMiddlewareOptions.policy_id o)
            (AgentPassportMiddlewareOptions.passport_from_body o)
            (AgentPassportMiddlewareOptions.policy_from_body o)))
      request.
Proof. reflexivity. Qed.

(** ** The policy verification path *)

(** C2.  On the policy verification path (the request is not bypassed, its
    body is a mapping, an agent identity or a body passport is resolved, and
    a policy id is configured or a body policy pack is resolved), [dispatch]
    invokes exactly one client operation and issues exactly one network
    call.  The operation is [verify_policy_with_policy_in_body] when a body
    policy pack is resolved, whatever the configured policy id; else
    [verify_policy_with_passport] with the configured policy id when a body
    passport is resolved; else [verify_policy] with the resolved agent
    identity and the configured policy id.  A sub-object is resolved when the
    options honour it and it is a non-empty dict (the code tests its truth
    value). *)
Theorem dispatch_selects_one_operation (self : AgentPassportMiddleware)
    (request : Request) (body : gmap string pyval) (w : World) :
  let opts := options self in
  let policy_id := AgentPassportMiddlewareOptions.policy_id opts in
  let pfb := AgentPassportMiddlewareOptions.passport_from_body opts in
  let bp := dict_field pfb body "passport" in
  let bpol := dict_field (AgentPassportMiddlewareOptions.policy_from_body opts)
                body "policy" in
  let aid := agent_id_of request None body pfb in
  let eff := effective_agent_id_of aid bp in
  let context := context_of_body body in
  let w' := (dispatch json_loads py_repr error_message transport latency
               self request w).2 in
  should_skip_request request (AgentPassportMiddlewareOptions.skip_paths opts) = false →
  body_json_of json_loads opts request = Ok (PDict body) →
  truthy aid || truthy bp = true →
  truthy_opt_str policy_id || truthy bpol = true →
  (∃ op wr, client_ops (events w') = client_ops (events w) ++ [op]
            ∧ wire_requests (events w') = wire_requests (events w) ++ [wr])
  ∧ (truthy bpol = true →
     client_ops (events w')
     = client_ops (events w)
       ++ [OpVerifyPolicyWithPolicyInBody (if truthy bp then bp else eff)
             (as_dict bpol) context])
  ∧ (truthy bpol = false → truthy bp = true →
     client_ops (events w')
     = client_ops (events w)
       ++ [OpVerifyPolicyWithPassport (as_dict bp) (of_opt_str policy_id) context])
  ∧ (truthy bpol = false → truthy bp = false →
     client_ops (events w')
     = client_ops (events w) ++ [OpVerifyPolicy eff (of_opt_str policy_id) context]).
Proof.
  intros opts policy_id pfb bp bpol aid eff context w' Hskip Hbody Hid Hpol.
  assert (Hops : client_ops (events w')
                 = client_ops (events w)
                   ++ [selected_op bpol bp eff (of_opt_str policy_id) context]
                 ∧ ∃ wr, wire_requests (events w') = wire_requests (events w) ++ [wr]).
  { subst w'. rewrite dispatch_run.
    rewrite (mediate_policy_path _ _ _ _ _ Hskip Hbody Hid Hpol). simpl.
    rewrite events_after_read. split.
    - rewrite !client_ops_app. simpl.
      destruct (reads_body _ _); simpl; by rewrite !app_nil_r.
    - eexists. rewrite !wire_requests_app. simpl.
      destruct (reads_body _ _); simpl; by rewrite !app_nil_r. }
  destruct Hops as [Hops [wr Hwr]].
  split; [eauto|].
  unfold selected_op in Hops.
  split_and!.
  - intros Hb. by rewrite Hb in Hops.
  - intros Hb Hp. by rewrite Hb, Hp in Hops.
  - intros Hb Hp. by rewrite Hb, Hp in Hops.
Qed.

(** ** Body reads *)

Lemma quiet_ret {A} (a : A) : quiet (mret a).
Proof. intros w. exists []. by rewrite app_nil_r. Qed.

Lemma quiet_lift_res {A} (r : res A) : quiet (lift_res r).
Proof. intros w. exists []. by rewrite app_nil_r. Qed.

Lemma quiet_bind {A B} (m : M A) (f : A → M B) :
  quiet m → (∀ a, quiet (f a)) → quiet (m ≫= f).
Proof.
  intros Hm Hf w. rewrite bind_run.
  destruct (Hm w) as [evs [Hevs Hn]].
  destruct (m w) as [[a|e] w1]; simpl in *; [|eauto].
  destruct (Hf a w1) as [evs' [Hevs' Hn']].
  exists (evs ++ evs'). rewrite Hevs', Hevs, body_reads_app, Hn, Hn'.
  by rewrite app_assoc.
Qed.

Lemma quiet_try_except {A} (body : M A) (handler : exn → option (M A)) :
  quiet body → (∀ e h, handler e = Some h → quiet h) → quiet (try_except body handler).
Proof.
  intros Hb Hh w. unfold try_except.
  destruct (Hb w) as [evs [Hevs Hn]].
  destruct (body w) as [[a|e] w1]; simpl in *; [eauto|].
  destruct (handler e) as [h|] eqn:He; [|simpl; eauto].
  destruct (Hh e h He w1) as [evs' [Hevs' Hn']].
  exists (evs ++ evs'). rewrite Hevs', Hevs, body_reads_app, Hn, Hn'.
  by rewrite app_assoc.
Qed.

Lemma quiet_verify_selected (cl : APortClientOptions.t)
    (body_policy body_passport effective_agent_id policy_id : pyval)
    (context : gmap string pyval) :
  quiet (verify_selected json_loads py_repr transport latency cl body_policy
           body_passport effective_agent_id policy_id context).
Proof.
  intros w. rewrite verify_selected_run. simpl.
  eexists [_; _]. by rewrite <- app_assoc.
Qed.

Lemma quiet_get_passport_view (cl : APortClientOptions.t) (agent_id : pyval) :
  quiet (get_passport_view json_loads py_repr transport latency cl agent_id).
Proof.
  intros w. rewrite get_passport_view_run. simpl.
  eexists [_; _]. by rewrite <- app_assoc.
Qed.

Ltac quiet_step :=
  first
    [ apply quiet_ret
    | apply quiet_lift_res
    | apply quiet_verify_selected
    | apply quiet_get_passport_view
    | apply quiet_bind; [|intros ?]
    | apply quiet_try_except; [|intros [?|?] ? [= <-]]
    | match goal with
      | |- quiet (if ?b then _ else _) => destruct b
      | |- quiet (match ?x with _ => _ end) => destruct x
      end
    | progress (unfold call_next) ].

(** Past its body-reading step, the pipeline does not read the body. *)
Lemma mediate_body_reads (opts : AgentPassportMiddlewareOptions.t)
    (cl : APortClientOptions.t) (request : Request) (w : World) :
  body_reads (events (mediate json_loads py_repr error_message transport latency
                        opts cl request w).2)
  = (body_reads (events w)
     + (if negb (should_skip_request request
                   (AgentPassportMiddlewareOptions.skip_paths opts))
           && reads_body opts request
        then 1 else 0))%nat.
Proof.
  unfold mediate.
  destruct (should_skip_request _ _); [simpl; lia|].
  match goal with
  | |- context [mbind ?F _] =>
      set (tail := F);
      assert (Hq : ∀ p, quiet (tail p)) by (intros [bj rq]; repeat quiet_step)
  end.
  rewrite bind_run. simpl negb. rewrite andb_true_l.
  destruct (reads_body opts request).
  - unfold _read_and_replay_body. rewrite bind_run. unfold emit at 1.
    cbv beta iota zeta. rewrite bind_run. unfold lift_res at 1.
    destruct (loads_or_empty json_loads (receive request)) as [bj|e].
    + unfold mret, M_ret.
      match goal with
      | |- context [tail ?p ?w1] => destruct (Hq p w1) as [evs [-> Hn]]
      end.
      simpl. rewrite !body_reads_app, Hn.
      change (body_reads [EvBodyRead]) with 1%nat. lia.
    + simpl. rewrite body_reads_app.
      change (body_reads [EvBodyRead]) with 1%nat. lia.
  - unfold mret at 1, M_ret at 1.
    match goal with
    | |- context [tail ?p ?w1] => destruct (Hq p w1) as [evs [-> Hn]]
    end.
    rewrite body_reads_app, Hn. lia.
Qed.

Lemma read_and_replay_body_empty (request : Request) (w : World) :
  receive request = EmptyString
  ∨ (receive request ≠ EmptyString
     ∧ json_loads (receive request) = LoadsJSONDecodeError) →
  _read_and_replay_body json_loads request w
  = (Ok (PDict ∅, request), after_emit EvBodyRead w).
Proof.
  intros H.
  assert (Hl : loads_or_empty json_loads (receive request) = Ok (PDict ∅)).
  { unfold loads_or_empty. destruct H as [-> | [_ ->]]; [reflexivity|].
    by destruct (str_nonempty _). }
  unfold _read_and_replay_body.
  rewrite bind_run. unfold emit at 1. cbv beta iota zeta.
  rewrite bind_run. unfold lift_res at 1. rewrite Hl.
  by rewrite set_receive_replay.
Qed.

(** C5, amended.  [dispatch] reads the request body exactly once when the
    request is not bypassed, its method is POST and a policy id is
    configured or a body passport or body policy is honoured; otherwise it
    does not read the body at all (so a PUT, PATCH or DELETE body is never
    read).  The read parses the body: an empty body, and a body on which the
    decoder raises [JSONDecodeError], give the empty mapping without raising
    and leave the bytes available downstream. *)
Theorem dispatch_reads_post_body_once (self : AgentPassportMiddleware)
    (request : Request) (w : World) :
  let opts := options self in
  let out := dispatch json_loads py_repr error_message transport latency
               self request w in
  body_reads (events out.2)
  = (body_reads (events w)
     + (if negb (should_skip_request request
                   (AgentPassportMiddlewareOptions.skip_paths opts))
           && reads_body opts request
        then 1 else 0))%nat
  ∧ (reads_body opts request = true → method request = "POST")
  ∧ (receive request = EmptyString
     ∨ (receive request ≠ EmptyString
        ∧ json_loads (receive request) = LoadsJSONDecodeError) →
     _read_and_replay_body json_loads request w
     = (Ok (PDict ∅, request), after_emit EvBodyRead w)).
Proof.
  intros opts out. subst out. split_and!.
  - rewrite dispatch_run. simpl. apply mediate_body_reads.
  - unfold reads_body. intros [H _]%andb_true_iff. by apply String.eqb_eq.
  - apply read_and_replay_body_empty.
Qed.

(** ** Missing identity *)

(** C1, amended.  A request on a skip path is handed on unmodified whatever
    [fail_closed] says.  For every request that is not bypassed by a skip
    prefix and whose body, as far as it is read, is a mapping: when neither
    an agent identity nor a body passport is resolved, [dispatch] answers 401
    with error code [missing_agent_id] if [fail_closed] is set, and otherwise
    hands the request on unmodified; either way no client operation is
    invoked, no network call is issued and the request state is not
    touched. *)
Theorem dispatch_missing_identity (self : AgentPassportMiddleware)
    (request : Request) (body : gmap string pyval) (w : World) :
  let opts := options self in
  let pfb := AgentPassportMiddlewareOptions.passport_from_body opts in
  let skip := should_skip_request request
                (AgentPassportMiddlewareOptions.skip_paths opts) in
  let out := dispatch json_loads py_repr error_message transport latency
               self request w in
  (skip = true → out = (Ok (CallNext request), w))
  ∧ (skip = false →
     body_json_of json_loads opts request = Ok (PDict body) →
     truthy (agent_id_of request None body pfb) = false →
     truthy (dict_field pfb body "passport") = false →
     out.1 = Ok (if AgentPassportMiddlewareOptions.fail_closed opts
                 then JSONResponse 401
                        (<["message" := PStr MISSING_AGENT_ID_MESSAGE]>
                           (<["error" := PStr "missing_agent_id"]> ∅))
                 else CallNext request)
     ∧ client_ops (events out.2) = client_ops (events w)
     ∧ wire_requests (events out.2) = wire_requests (events w)).
Proof.
  intros opts pfb skip out. subst out skip opts pfb. split.
  - intros Hskip. rewrite dispatch_run. unfold mediate. by rewrite Hskip.
  - intros Hskip Hbody Hid Hbp.
    rewrite dispatch_run.
    assert (Hm : mediate json_loads py_repr error_message transport latency
                   (options self) (client self) request w
                 = (Ok (if AgentPassportMiddlewareOptions.fail_closed (options self)
                        then missing_agent_id_response else CallNext request),
                    after_read (options self) request w)).
    { unfold mediate. rewrite Hskip.
      rewrite bind_run, (read_step _ _ _ _ Hbody). cbv beta iota zeta.
      rewrite bind_run. unfold lift_res at 1. rewrite body_dict_field_dict.
      cbv beta iota zeta.
      rewrite bind_run. unfold lift_res at 1. rewrite body_dict_field_dict.
      cbv beta iota zeta.
      rewrite bind_run. unfold lift_res at 1. rewrite extract_agent_id_dict.
      cbv beta iota zeta.
      rewrite Hid, Hbp. simpl.
      by destruct (AgentPassportMiddlewareOptions.fail_closed _). }
    rewrite Hm. simpl. rewrite events_after_read, client_ops_app, wire_requests_app.
    split_and!.
    + by destruct (AgentPassportMiddlewareOptions.fail_closed _).
    + destruct (reads_body _ _); simpl; by rewrite app_nil_r.
    + destruct (reads_body _ _); simpl; by rewrite app_nil_r.
Qed.

(** ** The identity-view path *)

(** No policy applies and no body passport is resolved: the identity view
    is fetched; on an [AportError] of that call the inner handler reads
    [error.message] to build [agent_verification_failed] with the error's
    status, and what that read raises leaves the inner [try]. *)
Lemma mediate_identity_view_path (opts : AgentPassportMiddlewareOptions.t)
    (cl : APortClientOptions.t) (request : Request) (body : gmap string pyval)
    (w : World) :
  let policy_id := AgentPassportMiddlewareOptions.policy_id opts in
  let pfb := AgentPassportMiddlewareOptions.passport_from_body opts in
  let bp := dict_field pfb body "passport" in
  let bpol := dict_field (AgentPassportMiddlewareOptions.policy_from_body opts)
                body "policy" in
  let aid := agent_id_of request None body pfb in
  let op := OpGetPassportView aid in
  should_skip_request request (AgentPassportMiddlewareOptions.skip_paths opts) = false →
  body_json_of json_loads opts request = Ok (PDict body) →
  truthy aid = true → truthy bp = false →
  truthy_opt_str policy_id = false → truthy bpol = false →
  mediate json_loads py_repr error_message transport latency opts cl request w
  = (match http_result json_loads (transport (op_wire py_repr cl op)) with
     | Ok passport_view =>
         match py_splat passport_view with
         | Ok view => Ok (CallNext (set_state_agent request (view ∪ {[ "agent_id" := aid ]})))
         | Raise e => Raise e
         end
     | Raise (AportErr error) =>
         match error_message error with
         | Ok message =>
             Ok (create_error_response (AportError.status error)
                   "agent_verification_failed" message (Some {[ "agent_id" := aid ]}))
         | Raise e => Raise e
         end
     | Raise (PyExn n) => Raise (PyExn n)
     end,
     after_call latency (op_wire py_repr cl op)
       (after_emit (EvClientOp op) (after_read opts request w))).
Proof.
  intros policy_id pfb bp bpol aid op Hskip Hbody Hid Hbp Hpid Hbpol.
  subst policy_id pfb bp bpol aid op.
  unfold mediate. rewrite Hskip.
  rewrite bind_run, (read_step _ _ _ _ Hbody). cbv beta iota zeta.
  rewrite bind_run. unfold lift_res at 1. rewrite body_dict_field_dict. cbv beta iota zeta.
  rewrite bind_run. unfold lift_res at 1. rewrite body_dict_field_dict. cbv beta iota zeta.
  rewrite bind_run. unfold lift_res at 1. rewrite extract_agent_id_dict. cbv beta iota zeta.
  rewrite Hid, Hbp, Hpid, Hbpol. cbn [negb andb].
  rewrite bind_run. unfold mret at 1, M_ret at 1. cbv beta iota zeta.
  unfold try_except. rewrite bind_run, get_passport_view_run.
  destruct (http_result _ _) as [pv|[e|n]]; try reflexivity.
  - rewrite bind_run. unfold lift_res at 1.
    destruct pv; reflexivity.
  - rewrite bind_run. unfold lift_res at 1.
    destruct (error_message e); reflexivity.
Qed.

(** ** Transport failures *)

(** C6 at a transport failure.  The client converts every transport-level
    failure of a remote call into an [AportError] with a synthetic reason
    code and no decision identifier: a connection error gives status 0 with
    reason code [NETWORK_ERROR], a timeout gives status 408 with reason code
    [TIMEOUT].  The middleware then fails to build the rejection it sets out
    to build: its handlers read [error.message], which the error does not
    have.  For a request that is not bypassed, whose body is a mapping and
    for which an identity or a body passport is resolved: on the policy
    verification path the [AttributeError] of that read leaves [dispatch]
    (no 408 [api_error] rejection is answered); on the identity-view path it
    is caught by the outer handler and answered 500 [internal_error]. *)
Theorem transport_failure_is_decision_failure (self : AgentPassportMiddleware)
    (request : Request) (body : gmap string pyval) (w : World) :
  let opts := options self in
  let policy_id := AgentPassportMiddlewareOptions.policy_id opts in
  let pfb := AgentPassportMiddlewareOptions.passport_from_body opts in
  let bp := dict_field pfb body "passport" in
  let bpol := dict_field (AgentPassportMiddlewareOptions.policy_from_body opts)
                body "policy" in
  let aid := agent_id_of request None body pfb in
  let eff := effective_agent_id_of aid bp in
  let op := selected_op bpol bp eff (of_opt_str policy_id) (context_of_body body) in
  let wr := op_wire py_repr (client self) op in
  let view_wr := op_wire py_repr (client self) (OpGetPassportView aid) in
  let out := dispatch json_loads py_repr error_message transport latency
               self request w in
  let timeout_code := PList [PDict (<["code" := PStr "TIMEOUT"]>
                                      (<["message" := PStr "Request timeout"]> ∅))] in
  no_message error_message →
  should_skip_request request (AgentPassportMiddlewareOptions.skip_paths opts) = false →
  body_json_of json_loads opts request = Ok (PDict body) →
  truthy aid || truthy bp = true →
  (∀ cl method path data idempotency_key w0,
     let wr0 := wire_of cl method path data idempotency_key in
     let call := _make_request json_loads transport latency cl method path data
                   idempotency_key w0 in
     (∀ msg, transport wr0 = ClientError msg →
        call.1 = Raise (AportErr (AportError.mk 0
                   (PList [PDict (<["code" := PStr "NETWORK_ERROR"]>
                                    (<["message" := PStr msg]> ∅))])
                   PNone None None)))
     ∧ (transport wr0 = TimeoutError →
        call.1 = Raise (AportErr (AportError.mk 408 timeout_code PNone None None))))
  ∧ (truthy_opt_str policy_id || truthy bpol = true →
     (transport wr = TimeoutError ∨ ∃ msg, transport wr = ClientError msg) →
     out.1 = Raise (PyExn "AttributeError")
     ∧ wire_requests (events out.2) = wire_requests (events w) ++ [wr])
  ∧ (truthy_opt_str policy_id = false → truthy bpol = false → truthy bp = false →
     (transport view_wr = TimeoutError ∨ ∃ msg, transport view_wr = ClientError msg) →
     ∃ content, out.1 = Ok (JSONResponse 500 content)
                ∧ content !! "error" = Some (PStr "internal_error")).
Proof.
  intros opts policy_id pfb bp bpol aid eff op wr view_wr out timeout_code
    Hmsg Hskip Hbody Hid.
  split_and!.
  - intros cl method path data idem w0 wr0 call. subst call.
    rewrite make_request_run. cbn [fst]. fold wr0.
    split; [intros msg ->|intros ->]; reflexivity.
  - intros Hpol Ht.
    assert (Hr : http_result json_loads (transport wr) ≫= from_api_response
                 = Raise (AportErr (AportError.mk 408 timeout_reasons PNone None None))
                 ∨ ∃ msg, http_result json_loads (transport wr) ≫= from_api_response
                          = Raise (AportErr (AportError.mk 0 (network_error_reasons msg)
                                               PNone None None))).
    { destruct Ht as [->|[msg ->]]; [by left|right; by exists msg]. }
    subst out. rewrite dispatch_run.
    rewrite (mediate_policy_path _ _ _ _ _ Hskip Hbody Hid Hpol).
    cbn [fst snd]. fold opts policy_id pfb bp bpol aid eff op wr.
    split.
    + destruct Hr as [->|[msg ->]]; cbn [rejection_of]; by rewrite Hmsg.
    + cbn [after_call after_emit events]. rewrite events_after_read.
      rewrite !wire_requests_app. cbn.
      destruct (reads_body _ _); cbn; by rewrite ?app_nil_r.
  - intros Hpid Hbpol Hbp Ht.
    assert (Haid : truthy aid = true) by (by rewrite Hbp, orb_false_r in Hid).
    subst out. rewrite dispatch_run.
    rewrite (mediate_identity_view_path _ _ _ _ _ Hskip Hbody Haid Hbp Hpid Hbpol).
    cbn [fst snd]. fold opts pfb aid view_wr.
    assert (Hr : ∃ error, http_result json_loads (transport view_wr)
                          = Raise (AportErr error)).
    { destruct Ht as [->|[msg ->]]; by eexists. }
    destruct Hr as [error ->]. rewrite Hmsg. cbn [rejection_of].
    eexists. split; [reflexivity|vm_compute; reflexivity].
Qed.

(** ** The keyset cache *)


Lemma get_jwks_hit (opts : APortClientOptions.t) (w : World) (j : Jwks.t) :
  jwks_cached (jwks_cache w) (jwks_cache_expiry w) (now w) = Some j →
  get_jwks json_loads transport latency opts w
  = (Ok j, after_emit (EvClientOp OpGetJwks) w).
Proof.
  intros H. unfold get_jwks.
  rewrite bind_run. unfold emit at 1. cbv beta iota zeta.
  rewrite bind_run. unfold get_cache at 1. cbv beta iota zeta.
  rewrite bind_run. unfold time_time at 1. cbv beta iota zeta.
  cbn [now jwks_cache jwks_cache_expiry]. by rewrite H.
Qed.

Lemma get_jwks_miss (opts : APortClientOptions.t) (w : World) :
  let wr := wire_of opts "GET" "/jwks.json" None None in
  let w1 := after_call latency wr (after_emit (EvClientOp OpGetJwks) w) in
  jwks_cached (jwks_cache w) (jwks_cache_expiry w) (now w) = None →
  get_jwks json_loads transport latency opts w
  = match http_result json_loads (transport wr) ≫= Jwks_init with
    | Ok j => (Ok j, mkWorld (now w1) (events w1) (Some j) (Some (now w1 + JWKS_TTL)%N))
    | Raise _ => (Raise (AportErr jwks_fetch_failed), w1)
    end.
Proof.
  intros wr w1 H. unfold get_jwks.
  rewrite bind_run. unfold emit at 1. cbv beta iota zeta.
  rewrite bind_run. unfold get_cache at 1. cbv beta iota zeta.
  rewrite bind_run. unfold time_time at 1. cbv beta iota zeta.
  cbn [now jwks_cache jwks_cache_expiry]. rewrite H.
  unfold try_except. rewrite bind_run, make_request_run. fold wr.
  change (after_call latency wr _) with w1.
  destruct (http_result json_loads (transport wr)) as [d|e]; [|reflexivity].
  rewrite bind_run. unfold lift_res at 1. cbn [mbind res_bind].
  destruct (Jwks_init d) as [j|e]; reflexivity.
Qed.


(** ** The verification request body *)

Lemma set_if_not_none_lookup (k : string) (v : pyval) (ctx : gmap string pyval)
    (k' : string) :
  set_if_not_none k v ctx !! k'
  = if decide (k = k') then owned_entry v ctx k else ctx !! k'.
Proof.
  unfold set_if_not_none, owned_entry.
  destruct (is_not_none v).
  - rewrite lookup_insert. by destruct (decide (k = k')).
  - by destruct (decide (k = k')) as [->|].
Qed.

Lemma build_policy_request_body_frame (agent_id policy_id : pyval)
    (idempotency_key : option string) (context : option (gmap string pyval))
    (passport policy : option (gmap string pyval)) :
  wire_frame agent_id policy_id idempotency_key (default ∅ context) passport policy
    (_build_policy_request_body agent_id policy_id idempotency_key context
       passport policy).
Proof.
  unfold wire_frame, _build_policy_request_body.
  set (c0 := default ∅ context).
  eexists. split_and!.
  - destruct passport, policy; simpl;
      repeat (rewrite lookup_insert_ne by done); apply lookup_insert_eq.
  - rewrite !set_if_not_none_lookup.
    by repeat (destruct (decide _) as [?|?]; try done).
  - rewrite !set_if_not_none_lookup.
    repeat (destruct (decide _) as [?|?]; try done).
    unfold owned_entry. destruct (is_not_none policy_id); [done|].
    rewrite set_if_not_none_lookup. by destruct (decide _).
  - rewrite set_if_not_none_lookup. destruct (decide _); [|done].
    unfold owned_entry. destruct (is_not_none _); [done|].
    rewrite !set_if_not_none_lookup. by repeat destruct (decide _).
  - intros k H1 H2 H3. rewrite !set_if_not_none_lookup.
    by repeat (destruct (decide _) as [?|?]; try done).
  - destruct passport, policy; simpl;
      repeat (rewrite lookup_insert_ne by done);
      first [apply lookup_insert_eq | apply lookup_empty].
  - destruct passport, policy; simpl;
      repeat (rewrite lookup_insert_ne by done);
      first [apply lookup_insert_eq | apply lookup_empty].
Qed.

(** C10.  Each of the three verification operations sends one request whose
    body carries, under [context], the caller-supplied context with exactly
    the keys [agent_id], [policy_id] and [idempotency_key] overwritten by the
    call's own agent identity, policy identifier and idempotency key, each
    only when that value is not [None]; every other key of the caller's
    context is sent unchanged; and the body has a [passport] and a [policy]
    field exactly when one is supplied. *)
Theorem verification_request_frame (cl : APortClientOptions.t) (w : World)
    (context : option (gmap string pyval)) (idempotency_key : option string) :
  (∀ agent_id policy_id passport policy,
     let out := verify_policy json_loads py_repr transport latency cl agent_id
                  policy_id context idempotency_key passport policy w in
     ∃ wr body,
       wire_requests (events out.2) = wire_requests (events w) ++ [wr]
       ∧ w_json wr = Some (PDict body)
       ∧ wire_frame agent_id policy_id idempotency_key (default ∅ context)
           passport policy body)
  ∧ (∀ passport policy_id,
     let out := verify_policy_with_passport json_loads py_repr transport latency cl
                  passport policy_id context idempotency_key w in
     ∃ wr body,
       wire_requests (events out.2) = wire_requests (events w) ++ [wr]
       ∧ w_json wr = Some (PDict body)
       ∧ wire_frame (dict_get passport "agent_id") policy_id idempotency_key
           (default ∅ context) (Some passport) None body)
  ∧ (∀ agent_id_or_passport policy,
     let out := verify_policy_with_policy_in_body json_loads transport latency cl
                  agent_id_or_passport policy context idempotency_key w in
     ∃ wr body,
       wire_requests (events out.2) = wire_requests (events w) ++ [wr]
       ∧ w_json wr = Some (PDict body)
       ∧ wire_frame
           (match agent_id_or_passport with PDict p => dict_get p "agent_id" | a => a end)
           (dict_get policy "id") idempotency_key (default ∅ context)
           (match agent_id_or_passport with PDict p => Some p | _ => None end)
           (Some policy) body).
Proof.
  assert (Hw : ∀ op wr, wire_requests ((events w ++ [EvClientOp op]) ++ [EvWire wr])
                        = wire_requests (events w) ++ [wr]).
  { intros. rewrite !wire_requests_app. cbn. by rewrite app_nil_r. }
  split_and!.
  - intros agent_id policy_id passport policy out. subst out.
    unfold verify_policy. rewrite bind_run. unfold emit at 1. cbv beta iota zeta.
    rewrite bind_run, make_request_run.
    eexists (wire_of _ _ _ (Some (PDict _)) _), _. split_and!; [|reflexivity|apply build_policy_request_body_frame].
    destruct (http_result _ _); cbn [fst snd after_call events]; apply Hw.
  - intros passport policy_id out. subst out.
    unfold verify_policy_with_passport. rewrite bind_run. unfold emit at 1.
    cbv beta iota zeta. rewrite bind_run, make_request_run.
    eexists (wire_of _ _ _ (Some (PDict _)) _), _. split_and!; [|reflexivity|].
    + destruct (http_result _ _); cbn [fst snd after_call events]; apply Hw.
    + apply (build_policy_request_body_frame _ _ _ (Some (default ∅ context))).
  - intros a policy out. subst out.
    unfold verify_policy_with_policy_in_body. rewrite bind_run. unfold emit at 1.
    cbv beta iota zeta.
    destruct a; cbv beta iota zeta; rewrite bind_run, make_request_run;
      (eexists (wire_of _ _ _ (Some (PDict _)) _), _; split_and!;
       [ destruct (http_result _ _); cbn [fst snd after_call events]; apply Hw
       | reflexivity
       | apply (build_policy_request_body_frame _ _ _ (Some (default ∅ context))) ]).
Qed.

(** ** The verification context *)

Lemma merged_context_lookup (context body : gmap string pyval) (k : string) :
  (context ∪ context_of_body body) !! k
  = match context !! k with
    | Some v => Some v
    | None => if bool_decide (k = "passport" ∨ k = "policy") then None else body !! k
    end.
Proof.
  rewrite lookup_union. unfold context_of_body.
  destruct (context !! k) as [v|] eqn:Hc.
  - by destruct (filter _ body !! k).
  - rewrite left_id by apply _.
    case_bool_decide as Hk.
    + apply map_lookup_filter_None. right. intros x _ [H1 H2]. simpl in *. tauto.
    + destruct (body !! k) as [x|] eqn:Hb.
      * apply map_lookup_filter_Some. simpl. tauto.
      * apply map_lookup_filter_None. by left.
Qed.

Lemma route_policy_path (cl : APortClientOptions.t) (policy_id : string)
    (context : gmap string pyval) (agent_id : option string) (request : Request)
    (body : gmap string pyval) (w : World) :
  let bp := dict_field true body "passport" in
  let bpol := dict_field true body "policy" in
  let aid := agent_id_of request agent_id body true in
  let eff := effective_agent_id_of aid bp in
  let op := selected_op bpol bp eff (PStr policy_id) (context ∪ context_of_body body) in
  route_body_json_of json_loads request = Ok (PDict body) →
  truthy aid || truthy bp = true →
  require_policy_with_context_try json_loads py_repr transport latency cl policy_id
    context agent_id request w
  = (match http_result json_loads (transport (op_wire py_repr cl op))
           ≫= from_api_response with
     | Ok d => Ok (decided request eff (PStr policy_id) (DObj d))
     | Raise e => Raise e
     end,
     after_call latency (op_wire py_repr cl op)
       (after_emit (EvClientOp op) (after_route_read request w))).
Proof.
  intros bp bpol aid eff op Hbody Hid. subst bp bpol aid eff op.
  unfold require_policy_with_context_try.
  assert (Hread : (if String.eqb (method request) "POST"
                   then _read_and_replay_body json_loads request
                   else mret (PDict ∅, request)) w
                  = (Ok (PDict body, request), after_route_read request w)).
  { unfold route_body_json_of, after_route_read, _read_and_replay_body in *.
    destruct (String.eqb (method request) "POST"); [|by injection Hbody as <-].
    rewrite bind_run. unfold emit at 1. cbv beta iota zeta.
    rewrite bind_run. unfold lift_res at 1. rewrite Hbody.
    by rewrite set_receive_replay. }
  rewrite bind_run, Hread. cbv beta iota zeta.
  rewrite bind_run. unfold lift_res at 1. rewrite body_dict_field_dict. cbv beta iota zeta.
  rewrite bind_run. unfold lift_res at 1. rewrite body_dict_field_dict. cbv beta iota zeta.
  rewrite bind_run. unfold lift_res at 1. rewrite extract_agent_id_dict. cbv beta iota zeta.
  set (bp := dict_field _ body "passport") in *.
  set (bpol := dict_field _ body "policy") in *.
  set (aid := agent_id_of _ _ _ _) in *.
  replace (negb (truthy aid) && negb (truthy bp)) with false
    by (rewrite <- negb_orb, Hid; reflexivity).
  rewrite bind_run, effective_agent_id_step by apply dict_field_cases.
  cbv beta iota zeta.
  rewrite bind_run. unfold lift_res at 1, py_items. cbv beta iota zeta.
  rewrite bind_run, verify_selected_run.
  destruct (http_result _ _ ≫= from_api_response) as [d|e]; [|reflexivity].
  unfold decided, policy_violation_response, enriched_request.
  by destruct (negb (_decision_allow (DObj d))).
Qed.

(** The handlers that close the [try] block log nothing. *)
Lemma mediate_handlers_world (e : exn) (h : M response) (w : World) :
  mediate_handlers error_message e = Some h → (h w).2 = w.
Proof.
  destruct e as [error|n]; intros [= <-]; [|reflexivity].
  rewrite bind_run. unfold lift_res at 1. by destruct (error_message error).
Qed.

(** C9, amended.  The verification context that
    [require_policy_with_context] hands to the decision client is the request
    body mapping without its [passport] and [policy] entries, merged with the
    caller's override context, the override's value winning on every key in
    both.  The context sent on the wire is that mapping except for the keys
    [agent_id], [policy_id] and [idempotency_key], which the client
    overwrites with the call's own values when they are not [None]: the
    agent identity of the selected operation (the resolved identity, or the
    body passport's [agent_id]) and its policy id (the route's, or the body
    policy pack's [id]); the middleware passes no idempotency key, so that
    entry goes out as merged, like every other key. *)
Theorem verification_context_is_merge (policy_id : string)
    (context : gmap string pyval) (agent_id : option string) (request : Request)
    (body : gmap string pyval) (w : World) :
  let merged := context ∪ context_of_body body in
  let out := require_policy_with_context getenv json_loads py_repr error_message
               transport latency policy_id context agent_id request w in
  let bp := dict_field true body "passport" in
  let bpol := dict_field true body "policy" in
  let eff := effective_agent_id_of (agent_id_of request agent_id body true) bp in
  route_body_json_of json_loads request = Ok (PDict body) →
  truthy (agent_id_of request agent_id body true)
  || truthy (dict_field true body "passport") = true →
  (∀ k, merged !! k
        = match context !! k with
          | Some v => Some v
          | None =>
              if bool_decide (k = "passport" ∨ k = "policy") then None else body !! k
          end)
  ∧ ∃ op wr sent_body sent,
      client_ops (events out.2) = client_ops (events w) ++ [op]
      ∧ op = selected_op bpol bp eff (PStr policy_id) merged
      ∧ op_context op = merged
      ∧ wire_requests (events out.2) = wire_requests (events w) ++ [wr]
      ∧ w_json wr = Some (PDict sent_body)
      ∧ sent_body !! "context" = Some (PDict sent)
      ∧ sent !! "agent_id"
        = (if is_not_none (op_agent_id op) then Some (op_agent_id op)
           else merged !! "agent_id")
      ∧ sent !! "policy_id"
        = (if is_not_none (op_policy_id op) then Some (op_policy_id op)
           else merged !! "policy_id")
      ∧ sent !! "idempotency_key" = merged !! "idempotency_key"
      ∧ ∀ k, k ≠ "agent_id" → k ≠ "policy_id" → k ≠ "idempotency_key" →
             sent !! k = merged !! k.
Proof.
  intros merged out bp bpol eff Hbody Hid. split; [apply merged_context_lookup|].
  set (op := selected_op bpol bp eff (PStr policy_id) merged).
  set (cl := create_client getenv None None None).
  assert (Hev : events out.2
                = events (after_route_read request w)
                  ++ [EvClientOp op; EvWire (op_wire py_repr cl op)]).
  { subst out. unfold require_policy_with_context, try_except.
    rewrite (route_policy_path _ _ _ _ _ _ _ Hbody Hid).
    fold bp bpol eff merged op cl.
    destruct (_ ≫= from_api_response) as [d|e].
    - cbn [fst snd after_call after_emit events]. by rewrite <- app_assoc.
    - destruct (mediate_handlers error_message e) as [h|] eqn:Hh.
      + rewrite (mediate_handlers_world _ _ _ Hh).
        cbn [after_call after_emit events]. by rewrite <- app_assoc.
      + cbn [fst snd after_call after_emit events]. by rewrite <- app_assoc. }
  assert (Hrd : events (after_route_read request w)
                = events w ++ (if String.eqb (method request) "POST"
                               then [EvBodyRead] else [])).
  { unfold after_route_read. destruct (String.eqb _ _); simpl; by rewrite ?app_nil_r. }
  assert (Hctx : op_context op = merged).
  { subst op. unfold selected_op.
    destruct (truthy bpol); [done|]. by destruct (truthy bp). }
  assert (Hwire : ∃ passport policy sent_body,
             w_json (op_wire py_repr cl op) = Some (PDict sent_body)
             ∧ wire_frame (op_agent_id op) (op_policy_id op) None merged
                 passport policy sent_body).
  { subst op. unfold selected_op.
    destruct (truthy bpol); [|destruct (truthy bp)].
    - set (ap := if truthy bp then bp else eff).
      destruct ap; cbn [op_wire wire_of w_json op_agent_id op_policy_id];
        eexists _, _, _; (split; [reflexivity|]);
        apply (build_policy_request_body_frame _ _ None (Some merged)).
    - cbn [op_wire wire_of w_json op_agent_id op_policy_id].
      eexists _, _, _. split; [reflexivity|].
      apply (build_policy_request_body_frame _ _ None (Some merged)).
    - cbn [op_wire wire_of w_json op_agent_id op_policy_id].
      eexists _, _, _. split; [reflexivity|].
      apply (build_policy_request_body_frame _ _ None (Some merged)). }
  destruct Hwire as (pp & pol & sent_body & Hjson & sent & Hs & Ha & Hp & Hi & Hk & _).
  exists op, (op_wire py_repr cl op), sent_body, sent.
  rewrite Hev, Hrd, !client_ops_app, !wire_requests_app.
  split_and!; try done.
  - destruct (String.eqb _ _); cbn; by rewrite ?app_nil_r.
  - destruct (String.eqb _ _); cbn; by rewrite ?app_nil_r.
Qed.

(** ** Resolved decisions *)

Lemma policy_violation_content (eff reported : pyval) (d : PolicyVerificationResponse.t) :
  ∃ content,
    policy_violation_response eff reported (DObj d) = JSONResponse 403 content
    ∧ content !! "error" = Some (PStr "policy_violation")
    ∧ content !! "agent_id" = Some eff
    ∧ content !! "policy_id" = Some reported
    ∧ content !! "decision_id" = Some (PolicyVerificationResponse.decision_id d)
    ∧ content !! "reasons"
      = Some (py_or (PolicyVerificationResponse.reasons d) (PList [])).
Proof.
  eexists. split; [reflexivity|]. split_and!; vm_compute; reflexivity.
Qed.

Lemma dispatch_resolved (self : AgentPassportMiddleware)
    (request : Request) (body : gmap string pyval) (w : World)
    (d : PolicyVerificationResponse.t) :
  let opts := options self in
  let policy_id := AgentPassportMiddlewareOptions.policy_id opts in
  let pfb := AgentPassportMiddlewareOptions.passport_from_body opts in
  let bp := dict_field pfb body "passport" in
  let bpol := dict_field (AgentPassportMiddlewareOptions.policy_from_body opts)
                body "policy" in
  let aid := agent_id_of request None body pfb in
  let eff := effective_agent_id_of aid bp in
  let op := selected_op bpol bp eff (of_opt_str policy_id) (context_of_body body) in
  let out := dispatch json_loads py_repr error_message transport latency
               self request w in
  should_skip_request request (AgentPassportMiddlewareOptions.skip_paths opts) = false →
  body_json_of json_loads opts request = Ok (PDict body) →
  truthy aid || truthy bp = true →
  truthy_opt_str policy_id || truthy bpol = true →
  http_result json_loads (transport (op_wire py_repr (client self) op))
    ≫= from_api_response = Ok d →
  out.1 = Ok (decided request eff (reported_policy_id policy_id bpol) (DObj d)).
Proof.
  intros opts policy_id pfb bp bpol aid eff op out Hskip Hbody Hid Hpol Hd.
  subst out. rewrite dispatch_run.
  rewrite (mediate_policy_path _ _ _ _ _ Hskip Hbody Hid Hpol).
  cbn [fst snd]. fold opts policy_id pfb bp bpol aid eff op.
  by rewrite Hd.
Qed.

(** C3, amended.  For every successfully resolved decision whose [allow] is
    false, [dispatch] answers 403 with error code [policy_violation], and the
    additional fields are the agent identity, the decision identifier, the
    reasons list and, as policy identifier, the configured policy id when one
    is set and the body policy pack's [id] only when none is configured. *)
Theorem dispatch_denied_decision (self : AgentPassportMiddleware)
    (request : Request) (body : gmap string pyval) (w : World)
    (d : PolicyVerificationResponse.t) :
  let opts := options self in
  let policy_id := AgentPassportMiddlewareOptions.policy_id opts in
  let pfb := AgentPassportMiddlewareOptions.passport_from_body opts in
  let bp := dict_field pfb body "passport" in
  let bpol := dict_field (AgentPassportMiddlewareOptions.policy_from_body opts)
                body "policy" in
  let aid := agent_id_of request None body pfb in
  let eff := effective_agent_id_of aid bp in
  let op := selected_op bpol bp eff (of_opt_str policy_id) (context_of_body body) in
  let out := dispatch json_loads py_repr error_message transport latency
               self request w in
  should_skip_request request (AgentPassportMiddlewareOptions.skip_paths opts) = false →
  body_json_of json_loads opts request = Ok (PDict body) →
  truthy aid || truthy bp = true →
  truthy_opt_str policy_id || truthy bpol = true →
  http_result json_loads (transport (op_wire py_repr (client self) op))
    ≫= from_api_response = Ok d →
  truthy (PolicyVerificationResponse.allow d) = false →
  ∃ content,
    out.1 = Ok (JSONResponse 403 content)
    ∧ content !! "error" = Some (PStr "policy_violation")
    ∧ content !! "agent_id" = Some eff
    ∧ content !! "policy_id"
      = Some (if truthy_opt_str policy_id then of_opt_str policy_id
              else dict_get (as_dict bpol) "id")
    ∧ content !! "decision_id" = Some (PolicyVerificationResponse.decision_id d)
    ∧ content !! "reasons"
      = Some (py_or (PolicyVerificationResponse.reasons d) (PList [])).
Proof.
  intros opts policy_id pfb bp bpol aid eff op out Hskip Hbody Hid Hpol Hd Hallow.
  subst out. rewrite (dispatch_resolved _ _ _ _ _ Hskip Hbody Hid Hpol Hd).
  subst opts policy_id pfb bp bpol aid eff op.
  unfold decided. cbn [_decision_allow]. rewrite Hallow. cbn [negb].
  match goal with
  | |- context [policy_violation_response ?e ?r (DObj d)] =>
      destruct (policy_violation_content e r d)
        as (content & -> & H1 & H2 & H3 & H4 & H5)
  end.
  exists content. by split_and!.
Qed.

(** C4, amended.  For every successfully resolved decision whose [allow] is
    true, [dispatch] hands the request on, and the request state carries the
    resolved agent identity and, of the decision, exactly the entries
    [decision_id], [allow] and [reasons]: the reasons list is kept even when
    it is empty (an absent one becomes the empty list), and no other field of
    the decision, such as the assurance level or the expiry, is carried.  The
    body bytes stay available downstream. *)
Theorem dispatch_allowed_decision (self : AgentPassportMiddleware)
    (request : Request) (body : gmap string pyval) (w : World)
    (d : PolicyVerificationResponse.t) :
  let opts := options self in
  let policy_id := AgentPassportMiddlewareOptions.policy_id opts in
  let pfb := AgentPassportMiddlewareOptions.passport_from_body opts in
  let bp := dict_field pfb body "passport" in
  let bpol := dict_field (AgentPassportMiddlewareOptions.policy_from_body opts)
                body "policy" in
  let aid := agent_id_of request None body pfb in
  let eff := effective_agent_id_of aid bp in
  let op := selected_op bpol bp eff (of_opt_str policy_id) (context_of_body body) in
  let out := dispatch json_loads py_repr error_message transport latency
               self request w in
  should_skip_request request (AgentPassportMiddlewareOptions.skip_paths opts) = false →
  body_json_of json_loads opts request = Ok (PDict body) →
  truthy aid || truthy bp = true →
  truthy_opt_str policy_id || truthy bpol = true →
  http_result json_loads (transport (op_wire py_repr (client self) op))
    ≫= from_api_response = Ok d →
  truthy (PolicyVerificationResponse.allow d) = true →
  ∃ downstream policy_result,
    out.1 = Ok (CallNext downstream)
    ∧ state_agent downstream = Some {[ "agent_id" := eff ]}
    ∧ state_policy_result downstream = Some (PDict policy_result)
    ∧ policy_result !! "decision_id" = Some (PolicyVerificationResponse.decision_id d)
    ∧ policy_result !! "allow" = Some (PolicyVerificationResponse.allow d)
    ∧ policy_result !! "reasons"
      = Some (py_or (PolicyVerificationResponse.reasons d) (PList []))
    ∧ (∀ k, k ≠ "decision_id" → k ≠ "allow" → k ≠ "reasons" → policy_result !! k = None)
    ∧ receive downstream = receive request.
Proof.
  intros opts policy_id pfb bp bpol aid eff op out Hskip Hbody Hid Hpol Hd Hallow.
  subst out. rewrite (dispatch_resolved _ _ _ _ _ Hskip Hbody Hid Hpol Hd).
  unfold decided. cbn [_decision_allow]. rewrite Hallow. cbn [negb].
  exists (enriched_request request eff (DObj d)),
    (<["reasons" := py_or (PolicyVerificationResponse.reasons d) (PList [])]>
       (<["allow" := PolicyVerificationResponse.allow d]>
          (<["decision_id" := PolicyVerificationResponse.decision_id d]> ∅))).
  do 3 (split; [reflexivity|]).
  split; [by rewrite 2!lookup_insert_ne, lookup_insert_eq|].
  split; [by rewrite lookup_insert_ne, lookup_insert_eq|].
  split; [by rewrite lookup_insert_eq|].
  split; [|reflexivity].
  intros k H1 H2 H3. by rewrite 3!lookup_insert_ne, lookup_empty.
Qed.

End Facts.

(** * Examples on concrete requests *)

(** A POST with a body passport and a body policy pack, under a configured
    policy id: the one operation invoked is the inline-policy one. *)
Lemma dispatch_selects_one_operation_witness :
  client_ops
    (events (dispatch loads0 repr0 message0 (respond "decision_deny") latency0
               (middleware0 (Some "p1") true)
               (request0 "POST" "/pay" ∅ "body_passport_and_policy") (world0 0)).2)
  = [OpVerifyPolicyWithPolicyInBody (PDict passport_x) policy_custom
       {[ "amount" := PInt 5 ]}].
Proof.
  pose proof (dispatch_selects_one_operation loads0 repr0 message0
                (respond "decision_deny") latency0 (middleware0 (Some "p1") true)
                (request0 "POST" "/pay" ∅ "body_passport_and_policy")
                (<["passport" := PDict passport_x]>
                   (<["policy" := PDict policy_custom]> {[ "amount" := PInt 5 ]}))
                (world0 0)) as H.
  cbv zeta in H.
  destruct H as (_ & H & _); [vm_compute; reflexivity..|].
  etransitivity; [apply H; vm_compute; reflexivity|].
  vm_compute. reflexivity.
Defined.

(** ** Missing identity (C1) *)

(** A GET without identity headers, outside the skip paths: rejected 401
    under [fail_closed]. *)
Lemma dispatch_missing_identity_witness :
  should_skip_request (request0 "GET" "/orders" ∅ EmptyString)
    (AgentPassportMiddlewareOptions.skip_paths (options (middleware0 None true))) = false
  ∧ (dispatch loads0 repr0 message0 (respond "decision_allow") latency0
       (middleware0 None true) (request0 "GET" "/orders" ∅ EmptyString) (world0 0)).1
    = Ok (JSONResponse 401
            (<["message" := PStr MISSING_AGENT_ID_MESSAGE]>
               (<["error" := PStr "missing_agent_id"]> ∅))).
Proof.
  split; [vm_compute; reflexivity|].
  pose proof (dispatch_missing_identity loads0 repr0 message0
                (respond "decision_allow") latency0 (middleware0 None true)
                (request0 "GET" "/orders" ∅ EmptyString) ∅ (world0 0)) as H.
  cbv zeta in H. destruct H as (_ & H).
  destruct H as (H & _); [vm_compute; reflexivity..|].
  etransitivity; [exact H|]. vm_compute. reflexivity.
Defined.

(** The same request on a skip path is handed on, [fail_closed] or not:
    the bypass check comes first. *)
Lemma missing_identity_bypassed_on_skip_path : ¬ missing_identity_always_rejected.
Proof.
  intros H.
  destruct (H loads0 repr0 message0 (respond "decision_allow") latency0
              (middleware0 None true) (request0 "GET" "/health" ∅ EmptyString)
              ∅ (world0 0)) as (content & Hc & _); try (vm_compute; reflexivity).
  vm_compute in Hc. discriminate Hc.
Qed.

(** A POST whose body is a JSON array carries no identity either, and is
    answered 500: the body-passport lookup assumes a mapping. *)
Example dispatch_array_body :
  ∃ content,
    (dispatch loads0 repr0 message0 (respond "decision_allow") latency0
       (middleware0 None true) (request0 "POST" "/orders" ∅ "body_array") (world0 0)).1
    = Ok (JSONResponse 500 content)
    ∧ content !! "error" = Some (PStr "internal_error").
Proof. eexists. split; vm_compute; reflexivity. Qed.

(** ** Body reads (C5) *)

Lemma dispatch_reads_post_body_once_witness :
  body_reads
    (events (dispatch loads0 repr0 message0 (respond "decision_allow") latency0
               (middleware0 (Some "p1") true)
               (request0 "POST" "/pay" ∅ "not json") (world0 0)).2) = 1%nat
  ∧ _read_and_replay_body loads0 (request0 "POST" "/pay" ∅ "not json") (world0 0)
    = (Ok (PDict ∅, request0 "POST" "/pay" ∅ "not json"),
       after_emit EvBodyRead (world0 0)).
Proof.
  pose proof (dispatch_reads_post_body_once loads0 repr0 message0
                (respond "decision_allow") latency0 (middleware0 (Some "p1") true)
                (request0 "POST" "/pay" ∅ "not json") (world0 0)) as H.
  cbv zeta in H. destruct H as (H1 & _ & H2).
  split.
  - etransitivity; [exact H1|]. vm_compute. reflexivity.
  - apply H2. right. split; [discriminate|]. vm_compute. reflexivity.
Defined.

(** A PUT carries a body and changes state, yet its body is never read. *)
Lemma put_body_is_not_read : ¬ state_changing_body_read_once.
Proof.
  intros H.
  specialize (H loads0 repr0 message0 (respond "decision_allow") latency0
                (middleware0 (Some "p1") true)
                (request0 "PUT" "/pay" ∅ "body_passport_and_policy") (world0 0)).
  vm_compute in H. specialize (H eq_refl eq_refl). discriminate H.
Qed.

(** ** Transport failures (C6) *)

(** The decision call of a POST with identity header times out: the
    handler's read of [error.message] raises, and the [AttributeError]
    leaves [dispatch] after the one network call. *)
Lemma transport_failure_is_decision_failure_witness :
  (dispatch loads0 repr0 message0 times_out latency0 (middleware0 (Some "p1") true)
     (request0 "POST" "/pay" {[ "x-agent-id" := "abc" ]} "body_context") (world0 0)).1
  = Raise (PyExn "AttributeError")
  ∧ List.length
      (wire_requests
         (events (dispatch loads0 repr0 message0 times_out latency0
                    (middleware0 (Some "p1") true)
                    (request0 "POST" "/pay" {[ "x-agent-id" := "abc" ]} "body_context")
                    (world0 0)).2))
    = 1%nat.
Proof.
  pose proof (transport_failure_is_decision_failure loads0 repr0 message0 times_out
                latency0 (middleware0 (Some "p1") true)
                (request0 "POST" "/pay" {[ "x-agent-id" := "abc" ]} "body_context")
                (<["agent_id" := PStr "body"]> {[ "amount" := PInt 5 ]})
                (world0 0)) as H.
  cbv zeta in H.
  destruct H as (_ & H & _); [by intros ?|vm_compute; reflexivity..|].
  destruct H as (H & Hw); [vm_compute; reflexivity|by left|].
  split; [exact H|]. rewrite Hw. reflexivity.
Defined.

(** ** Resolved decisions (C3, C4) *)

(** A denial under configured policy id [p1], with a body passport and the
    body policy pack [custom]: 403 [policy_violation] reporting [p1]. *)
Lemma dispatch_denied_decision_witness :
  ∃ content,
    (dispatch loads0 repr0 message0 (respond "decision_deny") latency0
       (middleware0 (Some "p1") true)
       (request0 "POST" "/pay" ∅ "body_passport_and_policy") (world0 0)).1
    = Ok (JSONResponse 403 content)
    ∧ content !! "error" = Some (PStr "policy_violation")
    ∧ content !! "agent_id" = Some (PStr "x")
    ∧ content !! "policy_id" = Some (PStr "p1")
    ∧ content !! "decision_id" = Some (PStr "d1")
    ∧ content !! "reasons" = Some (PList [reason_cap_missing]).
Proof.
  destruct (dispatch_denied_decision loads0 repr0 message0 (respond "decision_deny")
              latency0 (middleware0 (Some "p1") true)
              (request0 "POST" "/pay" ∅ "body_passport_and_policy")
              (<["passport" := PDict passport_x]>
                 (<["policy" := PDict policy_custom]> {[ "amount" := PInt 5 ]}))
              (world0 0)
              (PolicyVerificationResponse.mk (PStr "d1") (PBool false)
                 (PList [reason_cap_missing]) PNone PNone PNone PNone PNone PNone))
    as (content & H0 & H1 & H2 & H3 & H4 & H5); [vm_compute; reflexivity..|].
  exists content. split_and!; [exact H0|exact H1| | | |].
  - etransitivity; [exact H2|]. vm_compute. reflexivity.
  - etransitivity; [exact H3|]. vm_compute. reflexivity.
  - exact H4.
  - etransitivity; [exact H5|]. vm_compute. reflexivity.
Defined.

(** In that request the pack [custom] is the one applied (see the witness of
    the selection rule above), yet the denial reports [p1]. *)
Lemma denial_reports_configured_policy_id : ¬ denial_reports_applied_policy.
Proof.
  intros H.
  destruct (H loads0 repr0 message0 (respond "decision_deny") latency0
              (middleware0 (Some "p1") true)
              (request0 "POST" "/pay" ∅ "body_passport_and_policy")
              (<["passport" := PDict passport_x]>
                 (<["policy" := PDict policy_custom]> {[ "amount" := PInt 5 ]}))
              (world0 0)
              (PolicyVerificationResponse.mk (PStr "d1") (PBool false)
                 (PList [reason_cap_missing]) PNone PNone PNone PNone PNone PNone))
    as (content & Hc & _ & Hp); try (vm_compute; reflexivity).
  vm_compute in Hc. injection Hc as <-.
  vm_compute in Hp. discriminate Hp.
Qed.

(** An allowing decision that carries an assurance level and an expiry: the
    request state gets the identity and the three entries. *)
Lemma dispatch_allowed_decision_witness :
  ∃ downstream,
    (dispatch loads0 repr0 message0 (respond "decision_allow") latency0
       (middleware0 (Some "p1") true)
       (request0 "GET" "/pay" {[ "x-agent-id" := "abc" ]} EmptyString) (world0 0)).1
    = Ok (CallNext downstream)
    ∧ state_agent downstream = Some {[ "agent_id" := PStr "abc" ]}
    ∧ state_policy_result downstream
      = Some (PDict (<["decision_id" := PStr "d1"]>
                       (<["allow" := PBool true]> {[ "reasons" := PList [] ]}))).
Proof.
  destruct (dispatch_allowed_decision loads0 repr0 message0 (respond "decision_allow")
              latency0 (middleware0 (Some "p1") true)
              (request0 "GET" "/pay" {[ "x-agent-id" := "abc" ]} EmptyString)
              ∅ (world0 0)
              (PolicyVerificationResponse.mk (PStr "d1") (PBool true)
                 (PList []) (PStr "L2") (PInt 60) PNone PNone PNone PNone))
    as (downstream & pr & H0 & H1 & H2 & H3 & H4 & H5 & H6 & _);
    [vm_compute; reflexivity..|].
  exists downstream. split_and!; [exact H0| |].
  - etransitivity; [exact H1|]. vm_compute. reflexivity.
  - rewrite H2. do 2 f_equal. apply map_eq. intros k.
    destruct (decide (k = "decision_id")) as [->|N1];
      [etransitivity; [exact H3|]; vm_compute; reflexivity|].
    destruct (decide (k = "allow")) as [->|N2];
      [etransitivity; [exact H4|]; vm_compute; reflexivity|].
    destruct (decide (k = "reasons")) as [->|N3];
      [etransitivity; [exact H5|]; vm_compute; reflexivity|].
    rewrite (H6 k N1 N2 N3).
    by rewrite !lookup_insert_ne, lookup_singleton_ne.
Defined.

(** The decision of that request has assurance level [L2] and expiry 60;
    neither reaches the request state. *)
Lemma allowed_state_drops_decision_fields : ¬ allowed_state_carries_every_field.
Proof.
  intros H.
  destruct (H loads0 repr0 message0 (respond "decision_allow") latency0
              (middleware0 (Some "p1") true)
              (request0 "GET" "/pay" {[ "x-agent-id" := "abc" ]} EmptyString)
              ∅ (world0 0)
              (PolicyVerificationResponse.mk (PStr "d1") (PBool true)
                 (PList []) (PStr "L2") (PInt 60) PNone PNone PNone PNone))
    as (downstream & pr & Hc & Hs & Ha & _); try (vm_compute; reflexivity).
  vm_compute in Hc. injection Hc as <-.
  vm_compute in Hs. injection Hs as <-.
  vm_compute in Ha. discriminate Ha.
Qed.

(** ** The keyset cache (C7) *)


(** ** The verification context (C9) *)

(** Body [{agent_id: body, amount: 5}], override [{agent_id: override}],
    header identity [abc]: the client is handed the merge, in which the
    override wins, and sends the context with its own [agent_id] and
    [policy_id]. *)
Lemma verification_context_is_merge_witness :
  let out := require_policy_with_context getenv0 loads0 repr0 message0
               (respond "decision_allow") latency0 "p1"
               {[ "agent_id" := PStr "override" ]} None
               (request0 "POST" "/pay" {[ "x-agent-id" := "abc" ]} "body_context")
               (world0 0) in
  ∃ (op : client_op) (sent : gmap string pyval),
    client_ops (events out.2) = [op]
    ∧ op_context op = <["agent_id" := PStr "override"]> {[ "amount" := PInt 5 ]}
    ∧ sent !! "agent_id" = Some (PStr "abc")
    ∧ sent !! "policy_id" = Some (PStr "p1")
    ∧ sent !! "amount" = Some (PInt 5).
Proof.
  cbv zeta.
  pose proof (verification_context_is_merge getenv0 loads0 repr0 message0
                (respond "decision_allow") latency0 "p1"
                {[ "agent_id" := PStr "override" ]} None
                (request0 "POST" "/pay" {[ "x-agent-id" := "abc" ]} "body_context")
                (<["agent_id" := PStr "body"]> {[ "amount" := PInt 5 ]})
                (world0 0)) as H.
  cbv zeta in H.
  destruct H as (_ & op & wr & sb & sent & Hops & Hop & Hctx & _ & _ & _ & Ha & Hp & _ & Hk);
    [vm_compute; reflexivity..|].
  exists op, sent. split_and!.
  - exact Hops.
  - etransitivity; [exact Hctx|]. vm_compute. reflexivity.
  - rewrite Ha, Hop. vm_compute. reflexivity.
  - rewrite Hp, Hop. vm_compute. reflexivity.
  - rewrite Hk by discriminate. vm_compute. reflexivity.
Defined.

(** On the wire the same request carries [agent_id = abc]: neither the
    override's value nor the body's. *)
Lemma context_on_the_wire_is_overwritten : ¬ context_sent_is_merge.
Proof.
  intros H.
  pose proof (H getenv0 loads0 repr0 message0 (respond "decision_allow") latency0 "p1"
                {[ "agent_id" := PStr "override" ]} None
                (request0 "POST" "/pay" {[ "x-agent-id" := "abc" ]} "body_context")
                (<["agent_id" := PStr "body"]> {[ "amount" := PInt 5 ]})
                (world0 0)
                (op_wire repr0 (create_client getenv0 None None None)
                   (OpVerifyPolicy (PStr "abc") (PStr "p1")
                      (<["agent_id" := PStr "override"]> {[ "amount" := PInt 5 ]})))
                (_build_policy_request_body (PStr "abc") (PStr "p1") None
                   (Some (<["agent_id" := PStr "override"]> {[ "amount" := PInt 5 ]}))
                   None None)
                (<["agent_id" := PStr "abc"]>
                   (<["policy_id" := PStr "p1"]> {[ "amount" := PInt 5 ]}))) as Hc.
  assert (Heq : (<["agent_id" := PStr "abc"]>
                   (<["policy_id" := PStr "p1"]> {[ "amount" := PInt 5 ]})
                 : gmap string pyval)
                = {[ "agent_id" := PStr "override" ]}
                  ∪ context_of_body (<["agent_id" := PStr "body"]> {[ "amount" := PInt 5 ]}))
    by (apply Hc; vm_compute; reflexivity).
  apply (f_equal (λ m : gmap string pyval, m !! "agent_id")) in Heq.
  vm_compute in Heq. discriminate Heq.
Qed.


(** * More of the code *)

(** ** Identity extraction *)

(** The identity the two headers give: [x-agent-passport-id] when it is set
    and non-empty, else [x-agent-id] when it is set and non-empty, else
    [None]; never an empty string. *)
Lemma header_identity_cases (request : Request) :
  let v := py_or (header_get request "x-agent-passport-id")
             (py_or (header_get request "x-agent-id") PNone) in
  (∀ h, headers request !! "x-agent-passport-id" = Some h → str_nonempty h = true →
        v = PStr h)
  ∧ (truthy (header_get request "x-agent-passport-id") = false →
     ∀ h, headers request !! "x-agent-id" = Some h → str_nonempty h = true → v = PStr h)
  ∧ (truthy (header_get request "x-agent-passport-id") = false →
     truthy (header_get request "x-agent-id") = false → v = PNone).
Proof.
  unfold header_get, py_or. split_and!.
  - intros h -> Hh. simpl. by rewrite Hh.
  - intros -> h -> Hh. simpl. by rewrite Hh.
  - by intros -> ->.
Qed.

(** X1.  [extract_agent_id] resolves the identity by a fixed precedence.  A
    non-empty caller-supplied id wins over everything and is returned
    whatever the body is.  Without it, when body passports are honoured and
    the body is a mapping whose [passport] is a dict with a truthy
    [agent_id], that value is the identity.  Otherwise the identity comes from
    the headers, [x-agent-passport-id] before [x-agent-id], an empty header
    counting as absent.  The function raises only when no id is supplied,
    body passports are honoured and the body is a truthy value that is not a
    mapping. *)
Theorem extract_agent_id_precedence (request : Request) (provided : option string)
    (body_json : pyval) (pfb : bool) :
  let from_headers := py_or (header_get request "x-agent-passport-id")
                        (py_or (header_get request "x-agent-id") PNone) in
  (truthy_opt_str provided = true →
   extract_agent_id request provided body_json pfb = Ok (of_opt_str provided))
  ∧ (truthy_opt_str provided = false → pfb = true →
     ∀ body passport, body_json = PDict body →
       body !! "passport" = Some (PDict passport) →
       truthy (dict_get passport "agent_id") = true →
       extract_agent_id request provided body_json pfb
       = Ok (dict_get passport "agent_id"))
  ∧ (truthy_opt_str provided = false →
     pfb = false ∨ truthy body_json = false
     ∨ (∃ body, body_json = PDict body
                ∧ (is_dict (dict_get body "passport") = false
                   ∨ truthy (dict_get (as_dict (dict_get body "passport")) "agent_id")
                     = false)) →
     extract_agent_id request provided body_json pfb = Ok from_headers)
  ∧ (truthy_opt_str provided = false → pfb = true →
     truthy body_json = true → is_dict body_json = false →
     extract_agent_id request provided body_json pfb = Raise (PyExn "AttributeError"))
  ∧ (∀ h, headers request !! "x-agent-passport-id" = Some h → str_nonempty h = true →
          from_headers = PStr h)
  ∧ (truthy (header_get request "x-agent-passport-id") = false →
     ∀ h, headers request !! "x-agent-id" = Some h → str_nonempty h = true →
          from_headers = PStr h)
  ∧ (truthy (header_get request "x-agent-passport-id") = false →
     truthy (header_get request "x-agent-id") = false → from_headers = PNone).
Proof.
  intros from_headers.
  split_and!; try apply header_identity_cases;
    unfold extract_agent_id; fold from_headers.
  - by intros ->.
  - intros -> -> body passport -> Hp Ha.
    assert (Ht : truthy (PDict body) = true).
    { simpl. apply negb_true_iff, Nat.eqb_neq. intros Hz.
      apply map_size_empty_iff in Hz. subst. by rewrite lookup_empty in Hp. }
    rewrite Ht. simpl. unfold dict_get at 1. rewrite Hp. simpl. by rewrite Ha.
  - intros -> [-> | [Hb | (body & -> & Hc)]]; [done| |].
    + rewrite Hb. by rewrite andb_false_r.
    + destruct (pfb && truthy (PDict body)); [|done]. simpl.
      destruct (dict_get body "passport") as [| | | | |p]; try done.
      destruct Hc as [Hc|Hc]; [done|]. simpl in Hc. by rewrite Hc.
  - intros -> -> Ht Hd. rewrite Ht. simpl. by destruct body_json.
Qed.

(** The caller's id beats a body passport and both headers; without it the
    passport beats the headers. *)
Lemma extract_agent_id_precedence_witness :
  extract_agent_id
    (request0 "POST" "/pay" (<["x-agent-id" := "hdr"]> {[ "x-agent-passport-id" := "pid" ]})
       EmptyString)
    (Some "given") (PDict {[ "passport" := PDict passport_x ]}) true
  = Ok (PStr "given")
  ∧ extract_agent_id
      (request0 "POST" "/pay" (<["x-agent-id" := "hdr"]> {[ "x-agent-passport-id" := "pid" ]})
         EmptyString)
      None (PDict {[ "passport" := PDict passport_x ]}) true
    = Ok (PStr "x").
Proof.
  split.
  - destruct (extract_agent_id_precedence
                (request0 "POST" "/pay"
                   (<["x-agent-id" := "hdr"]> {[ "x-agent-passport-id" := "pid" ]})
                   EmptyString)
                (Some "given") (PDict {[ "passport" := PDict passport_x ]}) true)
      as (H & _).
    apply H. reflexivity.
  - destruct (extract_agent_id_precedence
                (request0 "POST" "/pay"
                   (<["x-agent-id" := "hdr"]> {[ "x-agent-passport-id" := "pid" ]})
                   EmptyString)
                None (PDict {[ "passport" := PDict passport_x ]}) true)
      as (_ & H & _).
    apply (H eq_refl eq_refl _ passport_x eq_refl); vm_compute; reflexivity.
Defined.

(** ** Skip paths *)

Lemma should_skip_request_iff (request : Request) (skip_paths : list string) :
  should_skip_request request skip_paths = true
  ↔ ∃ p, p ∈ skip_paths ∧ String.prefix p (url_path request) = true.
Proof.
  unfold should_skip_request. rewrite existsb_exists.
  split; intros (p & Hin & Hp); exists p; (split; [|done]); by apply list_elem_of_In.
Qed.

Section MoreFacts.

Variable getenv : string → option string.
Variable json_loads : string → loads_result.
Variable py_repr : pyval → string.
Variable error_message : AportError.t → res string.
Variable transport : wire_request → transport_outcome.
Variable latency : wire_request → N.

(** X2.  Options built with no skip list, or with the empty list, carry the
    three default skip paths ([/health], [/metrics], [/status]): an empty list
    does not switch skipping off.  A request whose path has one of the
    options' skip paths as a string prefix (so [/healthz] too) is handed on by
    [dispatch] as it came, the world untouched: no body read, no client
    operation, no network call, whatever the other options say. *)
Theorem skip_paths_default_and_bypass (base_url api_key : option string)
    (timeout_ms : Z) (fail_closed : bool) (policy_id : option string)
    (pfb polfb : bool) (self : AgentPassportMiddleware) (request : Request)
    (w : World) (p : string) :
  AgentPassportMiddlewareOptions.skip_paths
    (AgentPassportMiddlewareOptions_init getenv base_url api_key timeout_ms fail_closed
       (Some []) policy_id pfb polfb) = ["/health"; "/metrics"; "/status"]
  ∧ AgentPassportMiddlewareOptions.skip_paths
      (AgentPassportMiddlewareOptions_init getenv base_url api_key timeout_ms fail_closed
         None policy_id pfb polfb) = ["/health"; "/metrics"; "/status"]
  ∧ (p ∈ AgentPassportMiddlewareOptions.skip_paths (options self) →
     String.prefix p (url_path request) = true →
     dispatch json_loads py_repr error_message transport latency self request w
     = (Ok (CallNext request), w)).
Proof.
  split_and!; [reflexivity..|].
  intros Hin Hp.
  assert (Hskip : should_skip_request request
                    (AgentPassportMiddlewareOptions.skip_paths (options self)) = true)
    by (apply should_skip_request_iff; eauto).
  rewrite dispatch_run. unfold mediate. by rewrite Hskip.
Qed.

End MoreFacts.

(** [POST /healthz] with a body passport and a failing network, under the
    default options: handed on untouched. *)
Lemma skip_paths_default_and_bypass_witness :
  dispatch loads0 repr0 message0 connection_refused latency0 (middleware0 (Some "p1") true)
    (request0 "POST" "/healthz" ∅ "body_passport_and_policy") (world0 0)
  = (Ok (CallNext (request0 "POST" "/healthz" ∅ "body_passport_and_policy")), world0 0).
Proof.
  eapply (skip_paths_default_and_bypass getenv0 loads0 repr0 message0 connection_refused
            latency0 None None 5000 true None true true
            (middleware0 (Some "p1") true) _ _ "/health").
  - vm_compute. apply list_elem_of_here.
  - reflexivity.
Defined.

(** ** Every run of the pipeline *)

Lemma post_ret {A} (Q : A → Prop) (E : exn → Prop) (a : A) : Q a → post Q E (mret a).
Proof. intros H w. exact H. Qed.

Lemma post_lift_res {A} (Q : A → Prop) (E : exn → Prop) (r : res A) :
  match r with Ok a => Q a | Raise e => E e end → post Q E (lift_res r).
Proof. intros H w. exact H. Qed.

Lemma post_bind {A B} (Q1 : A → Prop) (Q : B → Prop) (E : exn → Prop)
    (m : M A) (f : A → M B) :
  post Q1 E m → (∀ a, Q1 a → post Q E (f a)) → post Q E (m ≫= f).
Proof.
  intros Hm Hf w. rewrite bind_run. specialize (Hm w).
  destruct (m w) as [[a|e] w1]; simpl in *; [|exact Hm].
  apply (Hf a Hm w1).
Qed.

Lemma post_bind_true {A B} (Q : B → Prop) (E : exn → Prop) (m : M A) (f : A → M B) :
  post (λ _, True) E m → (∀ a, post Q E (f a)) → post Q E (m ≫= f).
Proof. intros Hm Hf. apply (post_bind (λ _, True)); [done|]. intros a _. apply Hf. Qed.

Lemma post_try_except {A} (Q : A → Prop) (E' E : exn → Prop) (body : M A)
    (handler : exn → option (M A)) :
  post Q E' body →
  (∀ e, E' e → match handler e with Some h => post Q E h | None => E e end) →
  post Q E (try_except body handler).
Proof.
  intros Hb Hh w. unfold try_except. specialize (Hb w).
  destruct (body w) as [[a|e] w1]; simpl in *; [exact Hb|].
  specialize (Hh e Hb). destruct (handler e) as [h|]; [apply Hh|exact Hh].
Qed.

Lemma post_weaken {A} (Q : A → Prop) (E E' : exn → Prop) (m : M A) :
  post Q E m → (∀ e, E e → E' e) → post Q E' m.
Proof. intros H HE w. specialize (H w). destruct (_.1); [exact H|by apply HE]. Qed.

Lemma post_any {A} (m : M A) : post (λ _, True) (λ _, True) m.
Proof. intros w. by destruct (_.1). Qed.

Lemma post_pure {A} (r : res A) : no_aport r → post (λ _, True) client_exn (lift_res r).
Proof. intros H. apply post_lift_res. by destruct r as [a|[e|n]]. Qed.

Create HintDb no_aport.

Lemma py_get_no_aport (v : pyval) (k : string) : no_aport (py_get v k).
Proof. by destruct v. Qed.

Lemma py_items_no_aport (v : pyval) : no_aport (py_items v).
Proof. by destruct v. Qed.

Lemma py_splat_no_aport (v : pyval) : no_aport (py_splat v).
Proof. by destruct v. Qed.

Lemma py_getitem_no_aport (v : pyval) (k : string) : no_aport (py_getitem v k).
Proof. destruct v as [| | | | |d]; try done. simpl. by destruct (d !! k). Qed.

Lemma body_dict_field_no_aport (flag : bool) (v : pyval) (k : string) :
  no_aport (body_dict_field flag v k).
Proof.
  unfold body_dict_field. destruct flag; [|done].
  destruct v as [| | | | |d]; try done. simpl. by destruct (is_dict _).
Qed.

Lemma get_if_truthy_no_aport (v : pyval) (k : string) : no_aport (get_if_truthy v k).
Proof. unfold get_if_truthy. destruct (truthy v); [by destruct v|done]. Qed.

Lemma extract_agent_id_no_aport (request : Request) (provided : option string)
    (v : pyval) (pfb : bool) :
  no_aport (extract_agent_id request provided v pfb).
Proof.
  unfold extract_agent_id. destruct (truthy_opt_str provided); [done|].
  destruct (pfb && truthy v); [|done].
  destruct v as [| | | | |d]; try done. simpl.
  destruct (dict_get d "passport"); try done. by destruct (truthy _).
Qed.

Lemma py_dict_item_no_aport (item : pyval) (acc : gmap string pyval) :
  no_aport (py_dict_item item acc).
Proof.
  destruct item as [| | |s|l|d]; try done.
  - destruct s as [|c1 [|c2 [|c3 s]]]; done.
  - destruct l as [|k [|x [|y l]]]; try done. by destruct k.
Qed.

Lemma py_dict_items_no_aport (items : list pyval) (acc : gmap string pyval) :
  no_aport (py_dict_items items acc).
Proof.
  revert acc. induction items as [|item items IH]; intros acc; [done|].
  cbn [py_dict_items].
  pose proof (py_dict_item_no_aport item acc) as H.
  destruct (py_dict_item item acc) as [acc'|[e|n]]; [apply IH|done|done].
Qed.

Lemma py_dict_no_aport (v : pyval) : no_aport (py_dict v).
Proof.
  destruct v as [| | |s|l|d]; try done.
  - by destruct s.
  - apply py_dict_items_no_aport.
Qed.

Lemma from_api_response_no_aport (v : pyval) : no_aport (from_api_response v).
Proof.
  unfold from_api_response.
  destruct v as [| | | | |d]; try done. cbn [py_get].
  assert (H : ∀ r : res (gmap string pyval), no_aport r →
            no_aport
              match r with
              | Ok payload =>
                  let payload :=
                    match d !! "_meta", payload !! "_meta" with
                    | Some m, None => <["_meta" := m]> payload
                    | _, _ => payload
                    end in
                  match payload !! "decision_id", payload !! "allow" with
                  | Some decision_id, Some allow =>
                      Ok (PolicyVerificationResponse.mk decision_id allow
                            (dict_get payload "reasons")
                            (dict_get payload "assurance_level")
                            (dict_get payload "expires_in")
                            (dict_get payload "passport_digest")
                            (dict_get payload "signature")
                            (dict_get payload "created_at")
                            (dict_get payload "_meta"))
                  | _, _ => Raise (PyExn "TypeError")
                  end
              | Raise e => Raise e
              end).
  { intros [payload|[e|n]] Hr; try done. cbv zeta.
    match goal with
    | |- context [match ?q !! "decision_id" with _ => _ end] =>
        destruct (q !! "decision_id"); [destruct (q !! "allow")|]; done
    end. }
  apply H. destruct (is_not_none _); [apply py_dict_no_aport|done].
Qed.

#[local] Hint Resolve py_get_no_aport py_items_no_aport py_splat_no_aport
  py_getitem_no_aport body_dict_field_no_aport get_if_truthy_no_aport
  extract_agent_id_no_aport from_api_response_no_aport : no_aport.

(** The construction of an [AportError] stores its arguments, or raises
    an exception that is no [AportError]. *)
Lemma AportError_init_cases (status : Z) (reasons decision_id : pyval)
    (server_timing raw_response : option string) :
  AportError_init status reasons decision_id server_timing raw_response
  = Ok (AportError.mk status reasons decision_id server_timing raw_response)
  ∨ ∃ n, AportError_init status reasons decision_id server_timing raw_response
         = Raise (PyExn n).
Proof.
  unfold AportError_init. destruct (truthy reasons); [|by left].
  destruct reasons as [| | | |items|]; eauto.
  destruct (forallb is_dict items); eauto.
Qed.

Section Runs.

Variable json_loads : string → loads_result.
Variable py_repr : pyval → string.
Variable error_message : AportError.t → res string.
Variable transport : wire_request → transport_outcome.
Variable latency : wire_request → N.

Lemma loads_or_empty_no_aport (text : string) : no_aport (loads_or_empty json_loads text).
Proof.
  unfold loads_or_empty. destruct (str_nonempty text); [|done].
  by destruct (json_loads text).
Qed.

Lemma http_result_exn (o : transport_outcome) :
  match http_result json_loads o with Ok _ => True | Raise e => client_exn e end.
Proof.
  destruct o as [status st text|msg|]; [|by left|by right; left].
  cbn [http_result].
  pose proof (loads_or_empty_no_aport text) as Hl.
  destruct (loads_or_empty json_loads text) as [jd|[e|n]]; simpl; try done.
  destruct (negb (response_ok status)) eqn:Hok.
  - destruct jd as [| | | | |d]; simpl; try done.
    destruct (AportError_init_cases status (dict_get d "reasons")
                (dict_get d "decision_id") st (Some text)) as [->|[n ->]]; [|done].
    right; right. apply negb_true_iff, Z.ltb_ge in Hok. simpl. lia.
  - destruct (truthy_opt_str st); [|done]. by destruct jd.
Qed.

Lemma post_verify_selected (cl : APortClientOptions.t)
    (body_policy body_passport effective_agent_id policy_id : pyval)
    (context : gmap string pyval) :
  post (λ _, True) client_exn
    (verify_selected json_loads py_repr transport latency cl body_policy body_passport
       effective_agent_id policy_id context).
Proof.
  intros w. rewrite verify_selected_run. cbn [fst].
  pose proof (http_result_exn (transport (op_wire py_repr cl
    (selected_op body_policy body_passport effective_agent_id policy_id context)))) as H.
  destruct (http_result _ _) as [d|e]; cbn [mbind res_bind]; [|exact H].
  pose proof (from_api_response_no_aport d) as Hd.
  by destruct (from_api_response d) as [r|[e|n]].
Qed.

Lemma post_get_passport_view (cl : APortClientOptions.t) (agent_id : pyval) :
  post (λ _, True) client_exn
    (get_passport_view json_loads py_repr transport latency cl agent_id).
Proof.
  intros w. rewrite get_passport_view_run. cbn [fst].
  pose proof (http_result_exn (transport (op_wire py_repr cl (OpGetPassportView agent_id))))
    as H.
  by destruct (http_result _ _).
Qed.

Lemma post_read_and_replay_body (request : Request) :
  post (λ p, p.2 = request) client_exn (_read_and_replay_body json_loads request).
Proof.
  intros w. unfold _read_and_replay_body.
  rewrite bind_run. unfold emit at 1. cbv beta iota zeta.
  rewrite bind_run. unfold lift_res at 1.
  pose proof (loads_or_empty_no_aport (receive request)) as H.
  destruct (loads_or_empty json_loads (receive request)) as [v|[e|n]]; try done.
  simpl. apply set_receive_replay.
Qed.

End Runs.

Lemma create_error_response_wf (s : Z) (code message : string)
    (additional : option (gmap string pyval)) :
  match additional with
  | Some a => a !! "error" = None ∧ a !! "message" = None
  | None => True
  end →
  (code = "missing_agent_id" ∧ s = 401) ∨ (code = "policy_violation" ∧ s = 403)
  ∨ (code = "internal_error" ∧ s = 500) →
  rejection_wf (create_error_response s code message additional).
Proof.
  intros Ha Hc. unfold create_error_response, rejection_wf.
  exists code, message.
  assert (Hb : (<["message" := PStr message]> (<["error" := PStr code]> ∅)
                : gmap string pyval) !! "error" = Some (PStr code)
               ∧ (<["message" := PStr message]> (<["error" := PStr code]> ∅)
                  : gmap string pyval) !! "message" = Some (PStr message)).
  { split; [by rewrite lookup_insert_ne, lookup_insert_eq|by rewrite lookup_insert_eq]. }
  destruct Hb as [He Hm].
  destruct additional as [a|]; [|done].
  destruct Ha as [Ha1 Ha2].
  destruct (truthy (PDict a)); [|done].
  split_and!; [| |done]; rewrite lookup_union_r; done.
Qed.

Section Invariants.

Variable json_loads : string → loads_result.
Variable py_repr : pyval → string.
Variable error_message : AportError.t → res string.
Variable transport : wire_request → transport_outcome.
Variable latency : wire_request → N.

Hypothesis Hmsg : no_message error_message.

Ltac pure_bind :=
  apply post_bind_true; [apply post_pure; auto with no_aport | intros ?].

Lemma mediate_rejection_wf (opts : AgentPassportMiddlewareOptions.t)
    (cl : APortClientOptions.t) (request : Request) :
  post rejection_wf client_exn
    (mediate json_loads py_repr error_message transport latency opts cl request).
Proof.
  unfold mediate. destruct (should_skip_request _ _); [by apply post_ret|].
  apply post_bind_true.
  { destruct (reads_body opts request); [|by apply post_ret].
    intros w. pose proof (post_read_and_replay_body json_loads request w) as H.
    by destruct (_.1). }
  intros [body_json rq].
  do 3 pure_bind.
  destruct (_ && _).
  { destruct (AgentPassportMiddlewareOptions.fail_closed opts); apply post_ret; [|done].
    apply create_error_response_wf; [done|by left]. }
  apply post_bind_true.
  { destruct (truthy _); [by apply post_ret|]. apply post_pure; auto with no_aport. }
  intros eff.
  destruct (_ && _).
  - destruct (truthy _).
    + do 2 pure_bind. by apply post_ret.
    + apply (post_try_except _ client_exn).
      * apply post_bind_true; [apply post_get_passport_view|intros ?].
        pure_bind. by apply post_ret.
      * intros [error|n] He; [|exact I].
        intros w. rewrite bind_run. unfold lift_res at 1. by rewrite Hmsg.
  - pure_bind.
    apply post_bind_true; [apply post_verify_selected|intros d].
    cbv zeta. destruct (negb _); [|by apply post_ret].
    apply post_bind_true.
    { destruct (truthy_opt_str _); [by apply post_ret|].
      apply post_pure; auto with no_aport. }
    intros reported. apply post_ret. apply create_error_response_wf.
    + split; vm_compute; reflexivity.
    + right; left. done.
Qed.

(** What [dispatch] can do: hand the request on, answer one of the three
    rejections, or let the [AttributeError] of the [api_error] handler
    out. *)
Lemma dispatch_outcomes (self : AgentPassportMiddleware) (request : Request) :
  post rejection_wf (λ e, e = PyExn "AttributeError")
    (dispatch json_loads py_repr error_message transport latency self request).
Proof.
  unfold dispatch. apply (post_try_except _ client_exn); [apply mediate_rejection_wf|].
  intros [error|n] He; cbn [mediate_handlers].
  - intros w. rewrite bind_run. unfold lift_res at 1. by rewrite Hmsg.
  - apply post_ret. apply create_error_response_wf; [done|]. right; right. done.
Qed.


(** X3.  Whatever the request, the options and the service's behaviour,
    [dispatch] hands the request on, or answers a rejection of its own with
    an [error] code and a [message], the code fixing the status
    ([missing_agent_id] 401, [policy_violation] 403, [internal_error] 500),
    or raises; and the only exception that leaves it is the
    [AttributeError] of the handler that reads [error.message].  It never
    answers [api_error] or [agent_verification_failed], and never a success
    or redirect status of its own. *)
Theorem dispatch_rejection_taxonomy (self : AgentPassportMiddleware)
    (request : Request) (w : World) :
  match (dispatch json_loads py_repr error_message transport latency self request w).1 with
  | Ok (CallNext _) => True
  | Ok (JSONResponse s c) =>
      ∃ code message,
        c !! "error" = Some (PStr code)
        ∧ c !! "message" = Some (PStr message)
        ∧ ((code = "missing_agent_id" ∧ s = 401)
           ∨ (code = "policy_violation" ∧ s = 403)
           ∨ (code = "internal_error" ∧ s = 500))
  | Raise e => e = PyExn "AttributeError"
  end.
Proof.
  pose proof (dispatch_outcomes self request w) as H.
  destruct (_.1) as [[rq|s c]|e]; [done|exact H|exact H].
Qed.

End Invariants.


(** A timeout on the policy verification path: the [AttributeError] leaves
    [dispatch]. *)
Lemma dispatch_rejection_taxonomy_witness :
  (dispatch loads0 repr0 message0 times_out latency0 (middleware0 (Some "p1") true)
     (request0 "GET" "/pay" {[ "x-agent-id" := "abc" ]} EmptyString) (world0 0)).1
  = Raise (PyExn "AttributeError").
Proof.
  pose proof (dispatch_rejection_taxonomy loads0 repr0 message0 times_out latency0
                (λ _, eq_refl) (middleware0 (Some "p1") true)
                (request0 "GET" "/pay" {[ "x-agent-id" := "abc" ]} EmptyString)
                (world0 0)) as H.
  assert (E : ∃ e,
             (dispatch loads0 repr0 message0 times_out latency0
                (middleware0 (Some "p1") true)
                (request0 "GET" "/pay" {[ "x-agent-id" := "abc" ]} EmptyString)
                (world0 0)).1 = Raise e)
    by (vm_compute; eexists; reflexivity).
  destruct E as [e E]. rewrite E in H. rewrite E. by rewrite H.
Defined.

(** ** Calls per request *)

Lemma calls_ret {A} (n : nat) (a : A) : calls n (mret a).
Proof. intros w. exists []. rewrite app_nil_r. split_and!; simpl; [done|lia..]. Qed.

Lemma calls_lift_res {A} (n : nat) (r : res A) : calls n (lift_res r).
Proof. intros w. exists []. rewrite app_nil_r. split_and!; simpl; [done|lia..]. Qed.

Lemma calls_bind {A B} (a b : nat) (m : M A) (f : A → M B) :
  calls a m → (∀ x, calls b (f x)) → calls (a + b) (m ≫= f).
Proof.
  intros Hm Hf w. rewrite bind_run.
  destruct (Hm w) as (evs & Hevs & Hw & Hc).
  destruct (m w) as [[x|e] w1]; simpl in *.
  - destruct (Hf x w1) as (evs' & Hevs' & Hw' & Hc').
    exists (evs ++ evs'). rewrite Hevs', Hevs, app_assoc.
    rewrite wire_requests_app, client_ops_app, !List.length_app.
    split_and!; [done|lia..].
  - exists evs. split_and!; [done|lia..].
Qed.

Lemma calls_try_except {A} (n : nat) (body : M A) (handler : exn → option (M A)) :
  calls n body → (∀ e h, handler e = Some h → calls 0 h) →
  calls n (try_except body handler).
Proof.
  intros Hb Hh w. unfold try_except.
  destruct (Hb w) as (evs & Hevs & Hw & Hc).
  destruct (body w) as [[x|e] w1]; simpl in *; [by exists evs|].
  destruct (handler e) as [h|] eqn:He; [|by exists evs].
  destruct (Hh e h He w1) as (evs' & Hevs' & Hw' & Hc').
  exists (evs ++ evs'). rewrite Hevs', Hevs, app_assoc.
  rewrite wire_requests_app, client_ops_app, !List.length_app.
  split_and!; [done|lia..].
Qed.

Section Calls.

Variable json_loads : string → loads_result.
Variable py_repr : pyval → string.
Variable error_message : AportError.t → res string.
Variable transport : wire_request → transport_outcome.
Variable latency : wire_request → N.

Lemma calls_verify_selected (cl : APortClientOptions.t)
    (body_policy body_passport effective_agent_id policy_id : pyval)
    (context : gmap string pyval) :
  calls 1 (verify_selected json_loads py_repr transport latency cl body_policy
             body_passport effective_agent_id policy_id context).
Proof.
  intros w. rewrite verify_selected_run. cbn [snd after_call after_emit events].
  eexists [_; _]. rewrite <- app_assoc. split_and!; [done|simpl; lia..].
Qed.

Lemma calls_get_passport_view (cl : APortClientOptions.t) (agent_id : pyval) :
  calls 1 (get_passport_view json_loads py_repr transport latency cl agent_id).
Proof.
  intros w. rewrite get_passport_view_run. cbn [snd after_call after_emit events].
  eexists [_; _]. rewrite <- app_assoc. split_and!; [done|simpl; lia..].
Qed.

Lemma calls_read_and_replay_body (request : Request) :
  calls 0 (_read_and_replay_body json_loads request).
Proof.
  intros w. unfold _read_and_replay_body.
  rewrite bind_run. unfold emit at 1. cbv beta iota zeta.
  rewrite bind_run. unfold lift_res at 1.
  destruct (loads_or_empty json_loads (receive request));
    exists [EvBodyRead]; split_and!; simpl; done || lia.
Qed.

Ltac quiet_bind :=
  apply (calls_bind 0); [first [apply calls_lift_res | apply calls_ret] | intros ?].

Lemma mediate_calls (opts : AgentPassportMiddlewareOptions.t)
    (cl : APortClientOptions.t) (request : Request) :
  calls 1 (mediate json_loads py_repr error_message transport latency opts cl request).
Proof.
  unfold mediate. destruct (should_skip_request _ _); [apply calls_ret|].
  apply (calls_bind 0 1).
  { destruct (reads_body opts request);
      [apply calls_read_and_replay_body|apply calls_ret]. }
  intros [body_json rq].
  do 3 quiet_bind.
  destruct (_ && _).
  { destruct (AgentPassportMiddlewareOptions.fail_closed opts); apply calls_ret. }
  apply (calls_bind 0 1).
  { destruct (truthy _); [apply calls_ret|apply calls_lift_res]. }
  intros eff.
  destruct (_ && _).
  - destruct (truthy _).
    + do 2 quiet_bind. apply calls_ret.
    + apply calls_try_except.
      * apply (calls_bind 1 0); [apply calls_get_passport_view|intros ?].
        quiet_bind. apply calls_ret.
      * intros [error|n] h [= <-].
        apply (calls_bind 0 0); [apply calls_lift_res|intros ?; apply calls_ret].
  - quiet_bind.
    apply (calls_bind 1 0); [apply calls_verify_selected|intros d].
    cbv zeta. destruct (negb _); [|apply calls_ret].
    apply (calls_bind 0 0); [|intros ?; apply calls_ret].
    destruct (truthy_opt_str _); [apply calls_ret|apply calls_lift_res].
Qed.

(** X4.  Whatever the request, the options and the service's behaviour, one
    run of [dispatch] invokes at most one client operation, issues at most
    one network call and reads the request body at most once. *)
Theorem dispatch_at_most_one_call (self : AgentPassportMiddleware)
    (request : Request) (w : World) :
  ∃ evs,
    events (dispatch json_loads py_repr error_message transport latency
              self request w).2 = events w ++ evs
    ∧ (List.length (client_ops evs) ≤ 1)%nat
    ∧ (List.length (wire_requests evs) ≤ 1)%nat
    ∧ (body_reads evs ≤ 1)%nat.
Proof.
  assert (Hc : calls 1 (dispatch json_loads py_repr error_message transport latency
                          self request)).
  { unfold dispatch. apply calls_try_except; [apply mediate_calls|].
    intros [error|n] h [= <-]; [|apply calls_ret].
    apply (calls_bind 0 0); [apply calls_lift_res|intros ?; apply calls_ret]. }
  destruct (Hc w) as (evs & Hevs & Hw & Ho).
  exists evs. split_and!; try done.
  pose proof (mediate_body_reads json_loads py_repr error_message transport latency
                (options self) (client self) request w) as Hr.
  rewrite dispatch_run in Hevs. cbn [snd] in Hevs.
  rewrite Hevs, body_reads_app in Hr.
  destruct (_ && _); lia.
Qed.

End Calls.

(** ** What is handed downstream *)

Section Downstream.

Variable json_loads : string → loads_result.
Variable py_repr : pyval → string.
Variable error_message : AportError.t → res string.
Variable transport : wire_request → transport_outcome.
Variable latency : wire_request → N.

Ltac pure_bind := apply post_bind_true; [apply post_any | intros ?].

Lemma post_read_step (opts : AgentPassportMiddlewareOptions.t) (request : Request) :
  post (λ p, p.2 = request) client_exn
    (if reads_body opts request then _read_and_replay_body json_loads request
     else mret (PDict ∅, request)).
Proof.
  destruct (reads_body opts request); [apply post_read_and_replay_body|by apply post_ret].
Qed.

Lemma mediate_same_inbound (opts : AgentPassportMiddlewareOptions.t)
    (cl : APortClientOptions.t) (request : Request) :
  post (same_inbound request) (λ _, True)
    (mediate json_loads py_repr error_message transport latency opts cl request).
Proof.
  unfold mediate. destruct (should_skip_request _ _); [by apply post_ret|].
  apply (post_bind (λ p, p.2 = request));
    [apply (post_weaken _ client_exn); [apply post_read_step|done]|].
  intros [body_json rq] Hrq. simpl in Hrq. subst rq.
  do 3 pure_bind.
  destruct (_ && _).
  { by destruct (AgentPassportMiddlewareOptions.fail_closed opts); apply post_ret. }
  pure_bind.
  destruct (_ && _).
  - destruct (truthy _).
    + do 2 pure_bind. by apply post_ret.
    + apply (post_try_except _ (λ _, True)).
      * pure_bind. pure_bind. by apply post_ret.
      * intros [error|n] _; [|exact I]. pure_bind. by apply post_ret.
  - pure_bind. pure_bind.
    cbv zeta. destruct (negb _); [|by apply post_ret].
    pure_bind. by apply post_ret.
Qed.

(** X5.  Whenever [dispatch] hands a request downstream, it is the inbound
    request with the same method, path and headers, and its body bytes are
    still there to be read: the body read is always replayed.  Only
    [request.state] may differ. *)
Theorem dispatch_downstream_request (self : AgentPassportMiddleware)
    (request downstream : Request) (w : World) :
  (dispatch json_loads py_repr error_message transport latency self request w).1
  = Ok (CallNext downstream) →
  method downstream = method request
  ∧ url_path downstream = url_path request
  ∧ headers downstream = headers request
  ∧ receive downstream = receive request.
Proof.
  intros Hout. rewrite dispatch_run in Hout. cbn [fst] in Hout.
  pose proof (mediate_same_inbound (options self) (client self) request w) as H.
  destruct (_.1) as [r|e].
  - injection Hout as ->. exact H.
  - destruct e as [error|n]; cbn [rejection_of mbind res_bind] in Hout;
      [destruct (error_message error)|]; discriminate Hout.
Qed.

Lemma mediate_carries_allow (opts : AgentPassportMiddlewareOptions.t)
    (cl : APortClientOptions.t) (request : Request) :
  should_skip_request request (AgentPassportMiddlewareOptions.skip_paths opts) = false →
  AgentPassportMiddlewareOptions.fail_closed opts = true →
  truthy_opt_str (AgentPassportMiddlewareOptions.policy_id opts) = true →
  post carries_allow (λ _, True)
    (mediate json_loads py_repr error_message transport latency opts cl request).
Proof.
  intros Hskip Hfc Hpid. unfold mediate. rewrite Hskip, Hfc, Hpid.
  apply post_bind_true; [apply post_any|].
  intros [body_json rq].
  do 3 pure_bind.
  destruct (_ && _); [by apply post_ret|].
  pure_bind. cbn [negb andb].
  pure_bind. pure_bind.
  cbv zeta. destruct (negb _) eqn:Hallow.
  - pure_bind. by apply post_ret.
  - apply post_ret. apply negb_false_iff in Hallow. simpl in Hallow.
    eexists _, _. split_and!; [reflexivity| |exact Hallow|by eexists].
    by rewrite lookup_insert_ne, lookup_insert_eq.
Qed.

(** X6.  Enforcement is sound.  With [fail_closed] set and a policy id
    configured, every request outside the skip paths that [dispatch] hands
    downstream carries an agent in its state and a policy result whose [allow]
    entry is truthy: no request gets through without an allowing decision,
    whatever the body, the headers and the service's behaviour. *)
Theorem dispatch_continues_only_when_allowed (self : AgentPassportMiddleware)
    (request downstream : Request) (w : World) :
  should_skip_request request
    (AgentPassportMiddlewareOptions.skip_paths (options self)) = false →
  AgentPassportMiddlewareOptions.fail_closed (options self) = true →
  truthy_opt_str (AgentPassportMiddlewareOptions.policy_id (options self)) = true →
  (dispatch json_loads py_repr error_message transport latency self request w).1
  = Ok (CallNext downstream) →
  ∃ policy_result allow,
    state_policy_result downstream = Some (PDict policy_result)
    ∧ policy_result !! "allow" = Some allow
    ∧ truthy allow = true
    ∧ is_Some (state_agent downstream).
Proof.
  intros Hskip Hfc Hpid Hout. rewrite dispatch_run in Hout. cbn [fst] in Hout.
  pose proof (mediate_carries_allow (options self) (client self) request
                Hskip Hfc Hpid w) as H.
  destruct (_.1) as [r|e].
  - injection Hout as ->. exact H.
  - destruct e as [error|n]; cbn [rejection_of mbind res_bind] in Hout;
      [destruct (error_message error)|]; discriminate Hout.
Qed.

End Downstream.

Lemma dispatch_downstream_request_witness :
  ∃ downstream,
    (dispatch loads0 repr0 message0 (respond "decision_allow") latency0
       (middleware0 (Some "p1") true)
       (request0 "POST" "/pay" {[ "x-agent-id" := "abc" ]} "body_context") (world0 0)).1
    = Ok (CallNext downstream)
    ∧ method downstream = "POST"
    ∧ url_path downstream = "/pay"
    ∧ headers downstream = {[ "x-agent-id" := "abc" ]}
    ∧ receive downstream = "body_context".
Proof.
  assert (H : ∃ downstream,
             (dispatch loads0 repr0 message0 (respond "decision_allow") latency0
                (middleware0 (Some "p1") true)
                (request0 "POST" "/pay" {[ "x-agent-id" := "abc" ]} "body_context")
                (world0 0)).1
             = Ok (CallNext downstream))
    by (vm_compute; eexists; reflexivity).
  destruct H as [downstream H]. exists downstream. split; [exact H|].
  exact (dispatch_downstream_request loads0 repr0 message0 (respond "decision_allow")
           latency0 _ _ downstream _ H).
Defined.

Lemma dispatch_continues_only_when_allowed_witness :
  ∃ downstream policy_result,
    (dispatch loads0 repr0 message0 (respond "decision_allow") latency0
       (middleware0 (Some "p1") true)
       (request0 "GET" "/pay" {[ "x-agent-id" := "abc" ]} EmptyString) (world0 0)).1
    = Ok (CallNext downstream)
    ∧ state_policy_result downstream = Some (PDict policy_result)
    ∧ policy_result !! "allow" = Some (PBool true).
Proof.
  assert (H : ∃ downstream,
             (dispatch loads0 repr0 message0 (respond "decision_allow") latency0
                (middleware0 (Some "p1") true)
                (request0 "GET" "/pay" {[ "x-agent-id" := "abc" ]} EmptyString)
                (world0 0)).1
             = Ok (CallNext downstream)
             ∧ ∀ d, state_policy_result downstream = Some (PDict d) →
                    d !! "allow" = Some (PBool true)).
  { vm_compute. eexists. split; [reflexivity|]. intros d [= <-]. reflexivity. }
  destruct H as (downstream & H & Hallow).
  destruct (dispatch_continues_only_when_allowed loads0 repr0 message0
              (respond "decision_allow") latency0 (middleware0 (Some "p1") true)
              (request0 "GET" "/pay" {[ "x-agent-id" := "abc" ]} EmptyString)
              downstream (world0 0))
    as (policy_result & allow & Hpr & _); [vm_compute; reflexivity..|exact H|].
  exists downstream, policy_result. split_and!; [exact H|exact Hpr|exact (Hallow _ Hpr)].
Defined.

(** ** The paths without a decision *)

Section Paths.

Variable json_loads : string → loads_result.
Variable py_repr : pyval → string.
Variable error_message : AportError.t → res string.
Variable transport : wire_request → transport_outcome.
Variable latency : wire_request → N.

(** X7.  When no policy applies (none configured, no body policy pack
    resolved) and a body passport is resolved, [dispatch] attaches the
    passport itself as [request.state.agent] and hands the request on without
    any client operation or network call, also when the headers carry an
    identity: on this path the passport overrides the header identity.  The
    attached mapping is the passport, with [agent_id] set to [None] when the
    passport has none. *)
Theorem dispatch_passport_without_policy (self : AgentPassportMiddleware)
    (request : Request) (body passport : gmap string pyval) (w : World) :
  let opts := options self in
  let out := dispatch json_loads py_repr error_message transport latency
               self request w in
  should_skip_request request (AgentPassportMiddlewareOptions.skip_paths opts) = false →
  body_json_of json_loads opts request = Ok (PDict body) →
  truthy_opt_str (AgentPassportMiddlewareOptions.policy_id opts) = false →
  truthy (dict_field (AgentPassportMiddlewareOptions.policy_from_body opts)
            body "policy") = false →
  dict_field (AgentPassportMiddlewareOptions.passport_from_body opts) body "passport"
  = PDict passport →
  passport ≠ ∅ →
  ∃ agent,
    out.1 = Ok (CallNext (set_state_agent request agent))
    ∧ (∀ k v, passport !! k = Some v → agent !! k = Some v)
    ∧ agent !! "agent_id" = Some (dict_get passport "agent_id")
    ∧ (∀ k, k ≠ "agent_id" → agent !! k = passport !! k)
    ∧ client_ops (events out.2) = client_ops (events w)
    ∧ wire_requests (events out.2) = wire_requests (events w).
Proof.
  intros opts out Hskip Hbody Hpid Hbpol Hbp Hne. subst out opts.
  assert (Htruthy : truthy (PDict passport) = true).
  { simpl. apply negb_true_iff, Nat.eqb_neq. by rewrite map_size_empty_iff. }
  assert (Hm : mediate json_loads py_repr error_message transport latency
                 (options self) (client self) request w
               = (Ok (CallNext (set_state_agent request
                        (passport ∪ {[ "agent_id" := dict_get passport "agent_id" ]}))),
                  after_read (options self) request w)).
  { unfold mediate. rewrite Hskip.
    rewrite bind_run, (read_step _ _ _ _ _ Hbody). cbv beta iota zeta.
    rewrite bind_run. unfold lift_res at 1. rewrite body_dict_field_dict, Hbp.
    cbv beta iota zeta.
    rewrite bind_run. unfold lift_res at 1. rewrite body_dict_field_dict.
    cbv beta iota zeta.
    rewrite bind_run. unfold lift_res at 1. rewrite extract_agent_id_dict.
    cbv beta iota zeta.
    rewrite Htruthy, andb_false_r.
    rewrite bind_run, effective_agent_id_step by (right; eauto).
    cbv beta iota zeta. rewrite Hpid, Hbpol. reflexivity. }
  rewrite dispatch_run, Hm. cbn [fst snd].
  eexists. split; [reflexivity|].
  rewrite events_after_read, client_ops_app, wire_requests_app.
  split_and!.
  - intros k v Hk. by apply lookup_union_Some_l.
  - rewrite lookup_union. unfold dict_get.
    destruct (passport !! "agent_id") as [v|]; [done|].
    by rewrite lookup_singleton_eq.
  - intros k Hk. rewrite lookup_union, lookup_singleton_ne by done.
    by destruct (passport !! k).
  - destruct (reads_body _ _); simpl; by rewrite app_nil_r.
  - destruct (reads_body _ _); simpl; by rewrite app_nil_r.
Qed.

(** X8.  On the identity-view path (no policy applies, no body passport, an
    identity resolved) [dispatch] fetches the identity view.  A mapping view
    is attached as [request.state.agent] together with the resolved identity
    under [agent_id], an [agent_id] entry of the view itself replacing it; a
    view that is not a mapping is answered 500 [internal_error].  An
    [AportError] of the call is answered 500 [internal_error] too, whatever
    its status: the handler that would answer [agent_verification_failed]
    reads [error.message], which the error does not have, and the outer
    handler catches the [AttributeError]. *)
Theorem dispatch_identity_view (self : AgentPassportMiddleware)
    (request : Request) (body : gmap string pyval) (w : World) :
  let opts := options self in
  let pfb := AgentPassportMiddlewareOptions.passport_from_body opts in
  let aid := agent_id_of request None body pfb in
  let wr := op_wire py_repr (client self) (OpGetPassportView aid) in
  let out := dispatch json_loads py_repr error_message transport latency
               self request w in
  no_message error_message →
  should_skip_request request (AgentPassportMiddlewareOptions.skip_paths opts) = false →
  body_json_of json_loads opts request = Ok (PDict body) →
  truthy aid = true →
  truthy (dict_field pfb body "passport") = false →
  truthy_opt_str (AgentPassportMiddlewareOptions.policy_id opts) = false →
  truthy (dict_field (AgentPassportMiddlewareOptions.policy_from_body opts)
            body "policy") = false →
  client_ops (events out.2) = client_ops (events w) ++ [OpGetPassportView aid]
  ∧ (∀ view, http_result json_loads (transport wr) = Ok (PDict view) →
       ∃ agent,
         out.1 = Ok (CallNext (set_state_agent request agent))
         ∧ agent !! "agent_id" = Some (default aid (view !! "agent_id"))
         ∧ ∀ k, k ≠ "agent_id" → agent !! k = view !! k)
  ∧ (∀ v, http_result json_loads (transport wr) = Ok v → is_dict v = false →
       ∃ content, out.1 = Ok (JSONResponse 500 content)
                  ∧ content !! "error" = Some (PStr "internal_error"))
  ∧ (∀ error, http_result json_loads (transport wr) = Raise (AportErr error) →
       ∃ content, out.1 = Ok (JSONResponse 500 content)
                  ∧ content !! "error" = Some (PStr "internal_error")).
Proof.
  intros opts pfb aid wr out Hmsg Hskip Hbody Hid Hbp Hpid Hbpol. subst out.
  rewrite dispatch_run.
  rewrite (mediate_identity_view_path _ _ _ _ _ _ _ _ _ _ Hskip Hbody Hid Hbp Hpid Hbpol).
  cbn [fst snd]. fold opts pfb aid wr.
  split_and!.
  - cbn [after_call after_emit events]. rewrite events_after_read.
    rewrite !client_ops_app. simpl.
    destruct (reads_body _ _); simpl; by rewrite !app_nil_r.
  - intros view ->. cbn [py_splat]. eexists. split; [reflexivity|]. split.
    + rewrite lookup_union. destruct (view !! "agent_id"); [done|].
      by rewrite lookup_singleton_eq.
    + intros k Hk. rewrite lookup_union, lookup_singleton_ne by done.
      by destruct (view !! k).
  - intros v -> Hv. destruct v; try discriminate Hv;
      (eexists; split; [reflexivity|vm_compute; reflexivity]).
  - intros error ->. rewrite Hmsg. cbn [rejection_of].
    eexists. split; [reflexivity|vm_compute; reflexivity].
Qed.

(** X9.  On the policy verification path, when the service answers with a
    success status but no decision can be built from the answer (the payload
    lacks [decision_id] or [allow], or is not a mapping), [dispatch] answers
    500 [internal_error]: a malformed decision never lets the request
    through. *)
Theorem dispatch_malformed_decision (self : AgentPassportMiddleware)
    (request : Request) (body : gmap string pyval) (w : World) (v : pyval) (e : exn) :
  let opts := options self in
  let policy_id := AgentPassportMiddlewareOptions.policy_id opts in
  let pfb := AgentPassportMiddlewareOptions.passport_from_body opts in
  let bp := dict_field pfb body "passport" in
  let bpol := dict_field (AgentPassportMiddlewareOptions.policy_from_body opts)
                body "policy" in
  let aid := agent_id_of request None body pfb in
  let eff := effective_agent_id_of aid bp in
  let op := selected_op bpol bp eff (of_opt_str policy_id) (context_of_body body) in
  let out := dispatch json_loads py_repr error_message transport latency
               self request w in
  should_skip_request request (AgentPassportMiddlewareOptions.skip_paths opts) = false →
  body_json_of json_loads opts request = Ok (PDict body) →
  truthy aid || truthy bp = true →
  truthy_opt_str policy_id || truthy bpol = true →
  http_result json_loads (transport (op_wire py_repr (client self) op)) = Ok v →
  from_api_response v = Raise e →
  ∃ content, out.1 = Ok (JSONResponse 500 content)
             ∧ content !! "error" = Some (PStr "internal_error").
Proof.
  intros opts policy_id pfb bp bpol aid eff op out Hskip Hbody Hid Hpol Hv He.
  subst out. rewrite dispatch_run.
  rewrite (mediate_policy_path _ _ _ _ _ _ _ _ _ _ Hskip Hbody Hid Hpol).
  cbn [fst snd]. fold opts policy_id pfb bp bpol aid eff op.
  rewrite Hv. cbn [mbind res_bind]. rewrite He.
  pose proof (from_api_response_no_aport v) as Hn. rewrite He in Hn.
  destruct e as [error|n]; [done|].
  eexists. split; [reflexivity|vm_compute; reflexivity].
Qed.

(** X10.  A POST body that decodes to a value that is not a mapping (a JSON
    array, string, number, boolean or null), with body passports or body
    policies honoured, is answered 500 [internal_error] before any client
    operation or network call, identity headers or not. *)
Theorem dispatch_non_mapping_body (self : AgentPassportMiddleware)
    (request : Request) (v : pyval) (w : World) :
  let opts := options self in
  let out := dispatch json_loads py_repr error_message transport latency
               self request w in
  should_skip_request request (AgentPassportMiddlewareOptions.skip_paths opts) = false →
  body_json_of json_loads opts request = Ok v →
  is_dict v = false →
  AgentPassportMiddlewareOptions.passport_from_body opts
  || AgentPassportMiddlewareOptions.policy_from_body opts = true →
  (∃ content, out.1 = Ok (JSONResponse 500 content)
              ∧ content !! "error" = Some (PStr "internal_error"))
  ∧ client_ops (events out.2) = client_ops (events w)
  ∧ wire_requests (events out.2) = wire_requests (events w).
Proof.
  intros opts out Hskip Hbody Hv Hflags. subst out opts.
  assert (Hm : mediate json_loads py_repr error_message transport latency
                 (options self) (client self) request w
               = (Raise (PyExn "AttributeError"), after_read (options self) request w)).
  { unfold mediate. rewrite Hskip.
    rewrite bind_run, (read_step _ _ _ _ _ Hbody). cbv beta iota zeta.
    rewrite bind_run. unfold lift_res at 1.
    destruct (AgentPassportMiddlewareOptions.passport_from_body (options self)).
    - by destruct v.
    - simpl in Hflags. rewrite Hflags.
      cbn [body_dict_field]. cbv beta iota zeta.
      rewrite bind_run. unfold lift_res at 1. by destruct v. }
  rewrite dispatch_run, Hm. cbn [fst snd].
  rewrite events_after_read, client_ops_app, wire_requests_app.
  split_and!.
  - eexists. split; [reflexivity|vm_compute; reflexivity].
  - destruct (reads_body _ _); simpl; by rewrite app_nil_r.
  - destruct (reads_body _ _); simpl; by rewrite app_nil_r.
Qed.

End Paths.

Lemma dispatch_passport_without_policy_witness :
  ∃ agent,
    (dispatch (loads_table [("b", PDict {[ "passport" := PDict passport_x ]})])
       repr0 message0 (respond "decision_allow") latency0 (middleware0 None true)
       (request0 "POST" "/pay" {[ "x-agent-id" := "abc" ]} "b") (world0 0)).1
    = Ok (CallNext (set_state_agent
                      (request0 "POST" "/pay" {[ "x-agent-id" := "abc" ]} "b") agent))
    ∧ agent !! "agent_id" = Some (PStr "x").
Proof.
  destruct (dispatch_passport_without_policy
              (loads_table [("b", PDict {[ "passport" := PDict passport_x ]})])
              repr0 message0 (respond "decision_allow") latency0 (middleware0 None true)
              (request0 "POST" "/pay" {[ "x-agent-id" := "abc" ]} "b")
              {[ "passport" := PDict passport_x ]} passport_x (world0 0))
    as (agent & H & _ & Hid & _); [vm_compute; reflexivity..| |].
  { intros E. apply (f_equal (λ m : gmap string pyval, m !! "agent_id")) in E.
    vm_compute in E. discriminate E. }
  exists agent. split; [exact H|]. etransitivity; [exact Hid|]. vm_compute. reflexivity.
Defined.

Lemma dispatch_identity_view_witness :
  ∃ agent,
    (dispatch loads0 repr0 message0 (respond "keyset") latency0 (middleware0 None true)
       (request0 "GET" "/pay" {[ "x-agent-id" := "abc" ]} EmptyString) (world0 0)).1
    = Ok (CallNext (set_state_agent
                      (request0 "GET" "/pay" {[ "x-agent-id" := "abc" ]} EmptyString)
                      agent))
    ∧ agent !! "agent_id" = Some (PStr "abc")
    ∧ agent !! "keys" = Some (PList []).
Proof.
  destruct (dispatch_identity_view loads0 repr0 message0 (respond "keyset") latency0
              (middleware0 None true)
              (request0 "GET" "/pay" {[ "x-agent-id" := "abc" ]} EmptyString)
              ∅ (world0 0))
    as (_ & Hview & _); [vm_compute; reflexivity..|].
  destruct (Hview {[ "keys" := PList [] ]}) as (agent & H & Hid & Hrest);
    [vm_compute; reflexivity|].
  exists agent. split_and!; [exact H| |].
  - etransitivity; [exact Hid|]. vm_compute. reflexivity.
  - etransitivity; [exact (Hrest "keys" ltac:(discriminate))|]. vm_compute. reflexivity.
Defined.

Lemma dispatch_malformed_decision_witness :
  ∃ content,
    (dispatch loads0 repr0 message0 (respond "keyset") latency0
       (middleware0 (Some "p1") true)
       (request0 "GET" "/pay" {[ "x-agent-id" := "abc" ]} EmptyString) (world0 0)).1
    = Ok (JSONResponse 500 content)
    ∧ content !! "error" = Some (PStr "internal_error").
Proof.
  apply (dispatch_malformed_decision loads0 repr0 message0 (respond "keyset") latency0
           (middleware0 (Some "p1") true)
           (request0 "GET" "/pay" {[ "x-agent-id" := "abc" ]} EmptyString)
           ∅ (world0 0) (PDict {[ "keys" := PList [] ]}) (PyExn "TypeError"));
    vm_compute; reflexivity.
Defined.

Lemma dispatch_non_mapping_body_witness :
  (∃ content,
     (dispatch loads0 repr0 message0 (respond "decision_allow") latency0
        (middleware0 (Some "p1") true)
        (request0 "POST" "/pay" {[ "x-agent-id" := "abc" ]} "body_array") (world0 0)).1
     = Ok (JSONResponse 500 content)
     ∧ content !! "error" = Some (PStr "internal_error"))
  ∧ wire_requests
      (events (dispatch loads0 repr0 message0 (respond "decision_allow") latency0
                 (middleware0 (Some "p1") true)
                 (request0 "POST" "/pay" {[ "x-agent-id" := "abc" ]} "body_array")
                 (world0 0)).2)
    = [].
Proof.
  destruct (dispatch_non_mapping_body loads0 repr0 message0 (respond "decision_allow")
              latency0 (middleware0 (Some "p1") true)
              (request0 "POST" "/pay" {[ "x-agent-id" := "abc" ]} "body_array")
              (PList [PInt 1]) (world0 0))
    as (H & _ & Hw); [vm_compute; reflexivity..|].
  split; [exact H|exact Hw].
Defined.

(** * Decisions from the service's answers (decision_types.py, client.py) *)

(** X11.  When the answer carries a [decision] envelope that is a mapping,
    [from_api_response] builds the decision from the envelope alone:
    [decision_id] and [allow] beside the envelope are ignored, the call
    fails exactly when the envelope lacks one of the two, a field the
    envelope leaves out is [None], and [_meta] is the envelope's own, else
    the answer's.  An enveloped answer without [_meta] gives what the bare
    envelope gives. *)
Theorem from_api_response_envelope (data p : gmap string pyval) :
  data !! "decision" = Some (PDict p) →
  (∀ r, from_api_response (PDict data) = Ok r
        ↔ ∃ decision_id allow,
            p !! "decision_id" = Some decision_id
            ∧ p !! "allow" = Some allow
            ∧ r = PolicyVerificationResponse.mk decision_id allow
                    (dict_get p "reasons") (dict_get p "assurance_level")
                    (dict_get p "expires_in") (dict_get p "passport_digest")
                    (dict_get p "signature") (dict_get p "created_at")
                    (default (dict_get data "_meta") (p !! "_meta")))
  ∧ (is_Some (p !! "decision_id") ∧ is_Some (p !! "allow")
     ∨ from_api_response (PDict data) = Raise (PyExn "TypeError"))
  ∧ (data !! "_meta" = None → dict_get p "decision" = PNone →
     from_api_response (PDict data) = from_api_response (PDict p)).
Proof.
  intros Hd.
  assert (Hrun : ∀ d : gmap string pyval,
            from_api_response (PDict (<["decision" := PDict p]> d))
            = match p !! "decision_id", p !! "allow" with
              | Some decision_id, Some allow =>
                  Ok (PolicyVerificationResponse.mk decision_id allow
                        (dict_get p "reasons") (dict_get p "assurance_level")
                        (dict_get p "expires_in") (dict_get p "passport_digest")
                        (dict_get p "signature") (dict_get p "created_at")
                        (default (dict_get d "_meta") (p !! "_meta")))
              | _, _ => Raise (PyExn "TypeError")
              end).
  { intros d.
    assert (Hg : dict_get (<["decision" := PDict p]> d) "decision" = PDict p)
      by (unfold dict_get; by rewrite lookup_insert_eq).
    unfold from_api_response, py_get. rewrite !Hg. cbn [is_not_none py_dict].
    rewrite lookup_insert_ne by discriminate. cbv zeta.
    match goal with
    | |- match ?q !! "decision_id" with Some _ => _ | None => _ end = _ =>
        set (payload := q)
    end.
    assert (Hq : ∀ k, k ≠ "_meta" → payload !! k = p !! k).
    { intros k Hk. subst payload.
      destruct (d !! "_meta"), (p !! "_meta");
        rewrite ?lookup_insert_ne by done; reflexivity. }
    assert (Hqm : dict_get payload "_meta" = default (dict_get d "_meta") (p !! "_meta")).
    { subst payload. unfold dict_get.
      destruct (d !! "_meta") as [m|], (p !! "_meta") as [pm|] eqn:Hpm;
        rewrite ?lookup_insert_eq, ?Hpm; reflexivity. }
    rewrite Hqm. unfold dict_get. rewrite !Hq by discriminate. reflexivity. }
  specialize (Hrun data). rewrite insert_id in Hrun by done.
  split_and!.
  - intros r. rewrite Hrun.
    destruct (p !! "decision_id") as [i|]; [destruct (p !! "allow") as [a|]|].
    + split; [intros [= <-]; eexists _, _; split_and!; reflexivity|].
      by intros (? & ? & [= <-] & [= <-] & ->).
    + split; [discriminate|]. by intros (? & ? & _ & ? & _).
    + split; [discriminate|]. by intros (? & ? & ? & _).
  - rewrite Hrun.
    destruct (p !! "decision_id") as [i|]; [destruct (p !! "allow") as [a|]|]; eauto.
  - intros Hm Hpd. rewrite Hrun.
    unfold from_api_response. cbn [py_get]. rewrite Hpd.
    cbn [is_not_none]. cbv zeta.
    unfold dict_get at 7. rewrite Hm.
    destruct (p !! "_meta") as [pm|] eqn:Hpm; cbn [default];
      unfold dict_get; rewrite ?Hpm; reflexivity.
Qed.

Lemma from_api_response_envelope_witness :
  from_api_response
    (PDict (<["decision" := PDict (<["decision_id" := PStr "d1"]>
                                     {[ "allow" := PBool false ]})]>
              (<["decision_id" := PStr "outer"]> {[ "allow" := PBool true ]})))
  = Ok (PolicyVerificationResponse.mk (PStr "d1") (PBool false)
          PNone PNone PNone PNone PNone PNone PNone).
Proof.
  destruct (from_api_response_envelope
              (<["decision" := PDict (<["decision_id" := PStr "d1"]>
                                        {[ "allow" := PBool false ]})]>
                 (<["decision_id" := PStr "outer"]> {[ "allow" := PBool true ]}))
              (<["decision_id" := PStr "d1"]> {[ "allow" := PBool false ]}))
    as (H & _); [vm_compute; reflexivity|].
  apply H. eexists _, _. split_and!; vm_compute; reflexivity.
Defined.

(** X12.  Round trip through the dict form: the mapping that
    [_response_to_dict] makes of a decision is read back by
    [from_api_response] as a decision with the same identifier, verdict,
    assurance level, expiry and creation time, with the reasons defaulted to
    the empty list, and without digest, signature and [_meta], which the
    dict form drops; converting that decision again gives the same mapping. *)
Theorem response_to_dict_round_trip (r : PolicyVerificationResponse.t) :
  ∃ r',
    from_api_response (PDict (_response_to_dict (DObj r))) = Ok r'
    ∧ _response_to_dict (DObj r') = _response_to_dict (DObj r)
    ∧ PolicyVerificationResponse.decision_id r' = PolicyVerificationResponse.decision_id r
    ∧ PolicyVerificationResponse.allow r' = PolicyVerificationResponse.allow r
    ∧ PolicyVerificationResponse.reasons r'
      = py_or (PolicyVerificationResponse.reasons r) (PList [])
    ∧ PolicyVerificationResponse.assurance_level r'
      = PolicyVerificationResponse.assurance_level r
    ∧ PolicyVerificationResponse.expires_in r' = PolicyVerificationResponse.expires_in r
    ∧ PolicyVerificationResponse.created_at r' = PolicyVerificationResponse.created_at r
    ∧ PolicyVerificationResponse.passport_digest r' = PNone
    ∧ PolicyVerificationResponse.signature r' = PNone
    ∧ PolicyVerificationResponse._meta r' = PNone.
Proof.
  destruct r as [i a rs lvl exp dig sig cr meta].
  exists (PolicyVerificationResponse.mk i a (py_or rs (PList [])) lvl exp
            PNone PNone cr PNone).
  split; [vm_compute; reflexivity|].
  cbn [PolicyVerificationResponse.decision_id PolicyVerificationResponse.allow
       PolicyVerificationResponse.reasons PolicyVerificationResponse.assurance_level
       PolicyVerificationResponse.expires_in PolicyVerificationResponse.created_at
       PolicyVerificationResponse.passport_digest PolicyVerificationResponse.signature
       PolicyVerificationResponse._meta].
  split_and!; try reflexivity.
  unfold _response_to_dict.
  cbn [PolicyVerificationResponse.decision_id PolicyVerificationResponse.allow
       PolicyVerificationResponse.reasons PolicyVerificationResponse.assurance_level
       PolicyVerificationResponse.expires_in PolicyVerificationResponse.created_at].
  do 3 f_equal.
  assert (Hor : py_or (py_or rs (PList [])) (PList []) = py_or rs (PList [])).
  { unfold py_or. destruct (truthy rs) eqn:E; [by rewrite E|reflexivity]. }
  by rewrite Hor.
Qed.

(** * The client's requests (client.py) *)

Section Requests.

Variable json_loads : string → loads_result.
Variable py_repr : pyval → string.
Variable transport : wire_request → transport_outcome.
Variable latency : wire_request → N.



(** X14.  An answer with a status below 400 never raises an [AportError].
    An empty body, or one that is not JSON, is returned as the empty
    mapping; a JSON mapping is returned as it is, except that a non-empty
    [server-timing] header replaces its [_meta] entry by
    [{"serverTiming": header}]. *)
Theorem make_request_success_response (opts : APortClientOptions.t) (method path : string)
    (data : option pyval) (idempotency_key : option string) (w : World)
    (status : Z) (server_timing : option string) (text : string) :
  let wr := wire_of opts method path data idempotency_key in
  let out := _make_request json_loads transport latency opts method path data
               idempotency_key w in
  let with_meta (d : gmap string pyval) :=
    match server_timing with
    | Some st =>
        if str_nonempty st
        then <["_meta" := PDict {[ "serverTiming" := PStr st ]}]> d
        else d
    | None => d
    end in
  transport wr = HttpResponse status server_timing text →
  status < 400 →
  (∀ error, out.1 ≠ Raise (AportErr error))
  ∧ (text = EmptyString ∨ json_loads text = LoadsJSONDecodeError →
       out.1 = Ok (PDict (with_meta ∅)))
  ∧ (∀ d, text ≠ EmptyString → json_loads text = LoadsOk (PDict d) →
       out.1 = Ok (PDict (with_meta d))).
Proof.
  intros wr out with_meta Ht Hs. subst out. rewrite make_request_run. fold wr.
  rewrite Ht. cbn [fst].
  assert (Hok : negb (response_ok status) = false).
  { unfold response_ok. apply negb_false_iff, Z.ltb_lt. lia. }
  assert (Hne : ∀ t, t ≠ EmptyString → str_nonempty t = true) by (by intros []).
  assert (Hmeta : ∀ d,
            (if truthy_opt_str server_timing
             then py_setitem (PDict d) "_meta"
                    (PDict (<["serverTiming" := of_opt_str server_timing]> ∅))
             else Ok (PDict d))
            = Ok (PDict (with_meta d))).
  { intros d. subst with_meta. destruct server_timing as [st|]; [|reflexivity].
    unfold truthy_opt_str. simpl. by destruct (str_nonempty st). }
  unfold http_result. rewrite Hok. split_and!.
  - intros error.
    pose proof (loads_or_empty_no_aport json_loads text) as Hl.
    destruct (loads_or_empty json_loads text) as [jd|[e|n]]; [|done|discriminate].
    cbn [mbind res_bind]. destruct (truthy_opt_str server_timing); [|discriminate].
    destruct jd; discriminate.
  - intros H. assert (Hl : loads_or_empty json_loads text = Ok (PDict ∅)).
    { unfold loads_or_empty. destruct H as [->|Hl]; [reflexivity|].
      destruct (str_nonempty text); [|reflexivity]. by rewrite Hl. }
    rewrite Hl. cbn [mbind res_bind]. apply Hmeta.
  - intros d Hne' Hl.
    assert (Hl' : loads_or_empty json_loads text = Ok (PDict d)).
    { unfold loads_or_empty. by rewrite (Hne _ Hne'), Hl. }
    rewrite Hl'. cbn [mbind res_bind]. apply Hmeta.
Qed.

End Requests.


Lemma make_request_success_response_witness :
  (_make_request loads0 (λ _, HttpResponse 200 (Some "total;dur=3") "keyset") latency0
     (create_client getenv0 None None None) "GET" "/jwks.json" None None (world0 0)).1
  = Ok (PDict (<["_meta" := PDict {[ "serverTiming" := PStr "total;dur=3" ]}]>
                 {[ "keys" := PList [] ]})).
Proof.
  destruct (make_request_success_response loads0
              (λ _, HttpResponse 200 (Some "total;dur=3") "keyset") latency0
              (create_client getenv0 None None None) "GET" "/jwks.json" None None
              (world0 0) 200 (Some "total;dur=3") "keyset")
    as (_ & _ & H); [reflexivity|lia|].
  etransitivity; [apply (H {[ "keys" := PList [] ]});
                    [discriminate|vm_compute; reflexivity]|].
  vm_compute. reflexivity.
Defined.

(** * Decision tokens and the keyset (client.py, middleware.py) *)

Section Tokens.

Variable getenv : string → option string.
Variable json_loads : string → loads_result.
Variable py_repr : pyval → string.
Variable transport : wire_request → transport_outcome.
Variable latency : wire_request → N.

(** The headers of a request made without idempotency key: the bearer
    token when an API key is configured, and the session's defaults. *)
Lemma wire_headers_lookup (opts : APortClientOptions.t) (method path : string)
    (data : option pyval) (h : string) :
  w_headers (wire_of opts method path data None) !! h
  = if String.eqb h "Authorization"
    then match APortClientOptions.api_key opts with
         | Some k => if str_nonempty k then Some (String.append "Bearer " k) else None
         | None => None
         end
    else DEFAULT_HEADERS !! h.
Proof.
  cbn [wire_of w_headers]. unfold session_headers, _get_headers.
  rewrite lookup_union.
  destruct (String.eqb_spec h "Authorization") as [->|Hh].
  - destruct (APortClientOptions.api_key opts) as [k|]; [|vm_compute; reflexivity].
    destruct (str_nonempty k); [|vm_compute; reflexivity].
    by rewrite lookup_insert_eq.
  - destruct (APortClientOptions.api_key opts) as [k|];
      [destruct (str_nonempty k)|]; rewrite ?lookup_insert_ne by done;
      rewrite lookup_empty; by destruct (DEFAULT_HEADERS !! h).
Qed.

Lemma raise_invalid_token_run {A} (w : World) :
  raise_AportError (A := A) 401 invalid_token_reasons PNone None None w
  = (Raise (AportErr invalid_token), w).
Proof. reflexivity. Qed.

(** X15.  [validate_decision_token_local] raises nothing but the
    [INVALID_TOKEN] error with status 401.  When the keyset is neither
    cached nor fetched, that error is raised without asking the service
    about the token: a keyset outage is reported as an invalid token.  When
    the keyset is there, the outcome is the service's validation of the
    token, whatever the keys are, every failure of it replaced by
    [INVALID_TOKEN]. *)
Theorem validate_decision_token_local_outcomes (opts : APortClientOptions.t)
    (token : pyval) (w : World) :
  let out := validate_decision_token_local json_loads transport latency opts token w in
  let jwks_wr := wire_of opts "GET" "/jwks.json" None None in
  let validate_wr := wire_of opts "POST" "/api/verify/token/validate"
                       (Some (PDict {[ "token" := token ]})) None in
  let validated :=
    match http_result json_loads (transport validate_wr) ≫= from_api_response with
    | Ok r => Ok r
    | Raise _ => Raise (AportErr invalid_token)
    end in
  let cached := jwks_cached (jwks_cache w) (jwks_cache_expiry w) (now w) in
  (∀ e, out.1 = Raise e →
     e = AportErr (AportError.mk 401
           (PList [PDict (<["code" := PStr "INVALID_TOKEN"]>
                            (<["message" := PStr "Token validation failed"]> ∅))])
           PNone None None))
  ∧ (is_Some cached →
       out.1 = validated
       ∧ wire_requests (events out.2) = wire_requests (events w) ++ [validate_wr])
  ∧ (cached = None →
       (∀ j, http_result json_loads (transport jwks_wr) ≫= Jwks_init = Ok j →
          out.1 = validated
          ∧ wire_requests (events out.2)
            = wire_requests (events w) ++ [jwks_wr; validate_wr])
       ∧ (∀ e, http_result json_loads (transport jwks_wr) ≫= Jwks_init = Raise e →
            out.1 = Raise (AportErr invalid_token)
            ∧ wire_requests (events out.2) = wire_requests (events w) ++ [jwks_wr])).
Proof.
  intros out jwks_wr validate_wr validated cached.
  assert (Hval : ∀ w1,
            validate_decision_token json_loads transport latency opts token w1
            = (http_result json_loads (transport validate_wr) ≫= from_api_response,
               after_call latency validate_wr w1)).
  { intros w1. unfold validate_decision_token.
    rewrite bind_run, make_request_run. fold validate_wr.
    destruct (http_result _ _); reflexivity. }
  assert (Hhit : ∀ j, cached = Some j →
            out.1 = validated
            ∧ wire_requests (events out.2) = wire_requests (events w) ++ [validate_wr]).
  { intros j Hj. subst out. unfold validate_decision_token_local, try_except.
    rewrite bind_run, (get_jwks_hit _ _ _ _ _ _ Hj), Hval.
    subst validated.
    destruct (_ ≫= from_api_response) as [r|e];
      rewrite ?raise_invalid_token_run;
      cbn [fst snd after_call after_emit events];
      rewrite !wire_requests_app; cbn; by rewrite app_nil_r. }
  assert (Hmiss : cached = None →
            (∀ j, http_result json_loads (transport jwks_wr) ≫= Jwks_init = Ok j →
               out.1 = validated
               ∧ wire_requests (events out.2)
                 = wire_requests (events w) ++ [jwks_wr; validate_wr])
            ∧ (∀ e, http_result json_loads (transport jwks_wr) ≫= Jwks_init = Raise e →
                 out.1 = Raise (AportErr invalid_token)
                 ∧ wire_requests (events out.2) = wire_requests (events w) ++ [jwks_wr])).
  { intros Hc. subst out. unfold validate_decision_token_local, try_except.
    rewrite bind_run, (get_jwks_miss _ _ _ _ _ Hc). fold jwks_wr.
    split.
    - intros j ->. rewrite Hval. subst validated.
      destruct (_ ≫= from_api_response) as [r|e];
        rewrite ?raise_invalid_token_run;
        cbn [fst snd after_call after_emit events];
        rewrite !wire_requests_app; cbn; by rewrite app_nil_r, <- app_assoc.
    - intros e ->. rewrite raise_invalid_token_run.
      cbn [fst snd after_call after_emit events].
      rewrite !wire_requests_app; cbn; by rewrite app_nil_r. }
  split_and!.
  - intros e He. destruct cached as [j|] eqn:Hc.
    + destruct (Hhit j eq_refl) as [H _]. rewrite H in He. subst validated.
      destruct (_ ≫= from_api_response); [discriminate|]. by injection He as <-.
    + destruct (Hmiss eq_refl) as [Hok Hfail].
      destruct (http_result json_loads (transport jwks_wr) ≫= Jwks_init) as [j|e'] eqn:Hj.
      * destruct (Hok j eq_refl) as [H _]. rewrite H in He. subst validated.
        destruct (_ ≫= from_api_response); [discriminate|]. by injection He as <-.
      * destruct (Hfail e' eq_refl) as [H _]. rewrite H in He. by injection He as <-.
  - intros [j Hj]. by apply (Hhit j).
  - exact Hmiss.
Qed.

(** X16.  [get_decision_token] posts to [/api/verify/token/{policy_id}]
    the five fields of the request dataclass: the agent identity and the
    context at top level (the context is not enriched), and
    [idempotency_key], [passport] and [policy] as [None]; no idempotency
    header is sent.  From an answer that is a mapping it returns the
    [token] entry, and fails with [KeyError] when there is none. *)
Theorem get_decision_token_request (opts : APortClientOptions.t)
    (agent_id policy_id : pyval) (context : option (gmap string pyval)) (w : World) :
  let out := get_decision_token json_loads py_repr transport latency opts agent_id
               policy_id context w in
  ∃ wr body,
    wire_requests (events out.2) = wire_requests (events w) ++ [wr]
    ∧ w_method wr = "POST"
    ∧ w_url wr = _normalize_url opts
                   (String.append "/api/verify/token/" (fstr py_repr policy_id))
    ∧ w_headers wr !! "Idempotency-Key" = None
    ∧ w_json wr = Some (PDict body)
    ∧ body !! "agent_id" = Some agent_id
    ∧ body !! "context" = Some (PDict (default ∅ context))
    ∧ body !! "idempotency_key" = Some PNone
    ∧ body !! "passport" = Some PNone
    ∧ body !! "policy" = Some PNone
    ∧ (∀ k, k ∉ ["agent_id"; "context"; "idempotency_key"; "passport"; "policy"] →
            body !! k = None)
    ∧ (∀ d, http_result json_loads (transport wr) = Ok (PDict d) →
            out.1 = match d !! "token" with
                    | Some token => Ok token
                    | None => Raise (PyExn "KeyError")
                    end)
    ∧ (∀ e, http_result json_loads (transport wr) = Raise e → out.1 = Raise e).
Proof.
  intros out.
  set (body := policy_verification_request_dict agent_id (default ∅ context)).
  set (wr := wire_of opts "POST"
               (String.append "/api/verify/token/" (fstr py_repr policy_id))
               (Some (PDict body)) None).
  assert (Hrun : out = (http_result json_loads (transport wr)
                          ≫= (λ response_data, py_getitem response_data "token"),
                        after_call latency wr w)).
  { subst out. unfold get_decision_token. rewrite bind_run, make_request_run.
    fold body wr. destruct (http_result _ _); reflexivity. }
  rewrite Hrun. cbn [fst snd after_call events].
  exists wr, body. split_and!.
  - rewrite wire_requests_app. reflexivity.
  - reflexivity.
  - reflexivity.
  - unfold wr. rewrite wire_headers_lookup. vm_compute. reflexivity.
  - reflexivity.
  - vm_compute. reflexivity.
  - unfold body, policy_verification_request_dict.
    by rewrite !lookup_insert_ne, lookup_insert_eq by discriminate.
  - vm_compute. reflexivity.
  - vm_compute. reflexivity.
  - vm_compute. reflexivity.
  - intros k Hk. unfold body, policy_verification_request_dict.
    rewrite !lookup_insert_ne; [done|intros <-; apply Hk; set_solver..].
  - intros d ->. cbn [mbind res_bind py_getitem]. by destruct (d !! "token").
  - by intros e ->.
Qed.

(** X17.  The module-level [get_jwks] makes a client of its own for each
    call: whatever keyset the world's client has cached, it fetches the
    keyset again, and it leaves that cache and its expiry as they were. *)
Theorem module_get_jwks_always_fetches (w : World) :
  let cl := create_client getenv None None None in
  let wr := wire_of cl "GET" "/jwks.json" None None in
  let out := Middleware.get_jwks getenv json_loads transport latency w in
  wire_requests (events out.2) = wire_requests (events w) ++ [wr]
  ∧ jwks_cache out.2 = jwks_cache w
  ∧ jwks_cache_expiry out.2 = jwks_cache_expiry w
  ∧ out.1 = match http_result json_loads (transport wr) ≫= Jwks_init with
            | Ok j => Ok {[ "keys" := Jwks.keys j ]}
            | Raise _ => Raise (AportErr jwks_fetch_failed)
            end.
Proof.
  intros cl wr out. subst out. unfold Middleware.get_jwks, with_new_client.
  rewrite bind_run.
  rewrite get_jwks_miss by reflexivity. fold cl wr.
  destruct (_ ≫= Jwks_init) as [j|e];
    cbn [fst snd after_call after_emit events now jwks_cache jwks_cache_expiry
         mret M_ret];
    rewrite !wire_requests_app; cbn; by rewrite app_nil_r.
Qed.

End Tokens.

Lemma validate_decision_token_local_outcomes_witness :
  (validate_decision_token_local loads0 times_out latency0
     (create_client getenv0 None None None) (PStr "token") (world0 0)).1
  = Raise (AportErr invalid_token)
  ∧ List.length
      (wire_requests
         (events (validate_decision_token_local loads0 times_out latency0
                    (create_client getenv0 None None None) (PStr "token")
                    (world0 0)).2))
    = 1%nat.
Proof.
  destruct (validate_decision_token_local_outcomes loads0 times_out latency0
              (create_client getenv0 None None None) (PStr "token") (world0 0))
    as (_ & _ & Hmiss).
  destruct (Hmiss eq_refl) as [_ Hfail].
  destruct (Hfail (AportErr (AportError.mk 408 timeout_reasons PNone None None)) eq_refl)
    as [H Hw].
  split; [exact H|]. rewrite Hw. reflexivity.
Defined.

(** * Addresses and configuration (client.py, middleware.py) *)

Lemma rstrip_slash_cons (c : ascii) (r : string) :
  rstrip_slash (String c r)
  = match rstrip_slash r with
    | EmptyString => if Ascii.eqb c "/"%char then EmptyString else String c EmptyString
    | r' => String c r'
    end.
Proof. reflexivity. Qed.

Lemma rstrip_slash_app_slash (s : string) :
  rstrip_slash (String.append s "/") = rstrip_slash s.
Proof.
  induction s as [|c s IH]; [reflexivity|].
  change (String.append (String c s) "/") with (String c (String.append s "/")).
  by rewrite !rstrip_slash_cons, IH.
Qed.

Lemma rstrip_slash_idemp (s : string) : rstrip_slash (rstrip_slash s) = rstrip_slash s.
Proof.
  induction s as [|c s IH]; [reflexivity|].
  rewrite (rstrip_slash_cons c s). destruct (rstrip_slash s) as [|c' r] eqn:E.
  - destruct (Ascii.eqb c "/") eqn:Hc; [reflexivity|].
    rewrite rstrip_slash_cons. cbn [rstrip_slash]. by rewrite Hc.
  - rewrite rstrip_slash_cons, IH. reflexivity.
Qed.

Lemma rstrip_slash_last (s : string) (c : ascii) (r : string) :
  rstrip_slash s = String c r → ∃ r' c', rstrip_slash s = String.append r' (String c' EmptyString)
                                         ∧ c' ≠ "/"%char.
Proof.
  revert c r. induction s as [|a s IH]; [discriminate|].
  intros c r. rewrite rstrip_slash_cons.
  destruct (rstrip_slash s) as [|c1 r1] eqn:E.
  - destruct (Ascii.eqb a "/") eqn:Ha; [discriminate|]. intros _.
    exists EmptyString, a. split; [reflexivity|]. by apply Ascii.eqb_neq.
  - intros _. destruct (IH c1 r1 eq_refl) as (r' & c' & Hr & Hc).
    exists (String a r'), c'. rewrite Hr. split; [reflexivity|exact Hc].
Qed.

(** X18.  [_normalize_url] joins the base URL and the path with exactly the
    path's own leading slash: trailing slashes of the base URL make no
    difference (one more or one less gives the same URL, and a stripped
    base is stripped already), a path without a leading slash gives the
    same URL as the path with one, and the base part of the URL never ends
    with a slash. *)
Theorem normalize_url_slashes (base_url : string) (api_key : option string)
    (timeout_ms : Z) (path : string) :
  let opts b := APortClientOptions.mk b api_key timeout_ms in
  _normalize_url (opts (String.append base_url "/")) path
  = _normalize_url (opts base_url) path
  ∧ _normalize_url (opts (rstrip_slash base_url)) path = _normalize_url (opts base_url) path
  ∧ (String.prefix "/" path = false →
     _normalize_url (opts base_url) path
     = _normalize_url (opts base_url) (String.append "/" path))
  ∧ ∃ stem rest,
      _normalize_url (opts base_url) path = String.append stem (String "/" rest)
      ∧ stem = rstrip_slash base_url
      ∧ (stem = EmptyString
         ∨ ∃ s c, stem = String.append s (String c EmptyString) ∧ c ≠ "/"%char).
Proof.
  intros opts. unfold _normalize_url. cbn [opts APortClientOptions.base_url].
  split_and!.
  - by rewrite rstrip_slash_app_slash.
  - by rewrite rstrip_slash_idemp.
  - intros Hp. rewrite Hp.
    change (String.append "/" path) with (String "/" path).
    cbn [String.prefix]. destruct (Ascii.ascii_dec "/" "/"); [|done].
    by destruct path.
  - destruct (String.prefix "/" path) eqn:Hp.
    + destruct path as [|c p]; [discriminate|].
      cbn [String.prefix] in Hp.
      destruct (Ascii.ascii_dec "/" c) as [<-|]; [|discriminate].
      exists (rstrip_slash base_url), p. split_and!; [reflexivity..|].
      destruct (rstrip_slash base_url) as [|c r] eqn:E; [by left|right].
      rewrite <- E. apply (rstrip_slash_last _ c r E).
    + exists (rstrip_slash base_url), path. split_and!; [reflexivity..|].
      destruct (rstrip_slash base_url) as [|c r] eqn:E; [by left|right].
      rewrite <- E. apply (rstrip_slash_last _ c r E).
Qed.

Lemma normalize_url_slashes_witness :
  _normalize_url (APortClientOptions.mk "https://api.aport.io/" None 800) "jwks.json"
  = "https://api.aport.io/jwks.json".
Proof.
  destruct (normalize_url_slashes "https://api.aport.io" None 800 "jwks.json")
    as (H1 & _ & H2 & _).
  cbv zeta in H1, H2. change (String.append "https://api.aport.io" "/")
    with "https://api.aport.io/" in H1.
  rewrite H1, H2 by reflexivity. reflexivity.
Defined.

(** X19.  [create_client] resolves the base URL and the API key by
    precedence: the argument when it is a non-empty string, else the
    environment variable ([AGENT_PASSPORT_BASE_URL], [AGENT_PASSPORT_API_KEY]),
    and for the base URL the default [https://api.aport.io] when both are
    missing or empty.  The client's base URL is never empty and its timeout
    is never 0 (a timeout of 0 becomes 5000). *)
Theorem create_client_resolution (getenv : string → option string)
    (base_url api_key : option string) (timeout_ms : option Z) :
  let cl := create_client getenv base_url api_key timeout_ms in
  APortClientOptions.base_url cl ≠ EmptyString
  ∧ APortClientOptions.timeout_ms cl ≠ 0
  ∧ APortClientOptions.timeout_ms cl
    = match timeout_ms with Some 0 | None => 5000 | Some t => t end
  ∧ (∀ b, base_url = Some b → b ≠ EmptyString → APortClientOptions.base_url cl = b)
  ∧ (truthy_opt_str base_url = false →
     ∀ b, getenv "AGENT_PASSPORT_BASE_URL" = Some b → b ≠ EmptyString →
          APortClientOptions.base_url cl = b)
  ∧ (truthy_opt_str base_url = false →
     truthy_opt_str (getenv "AGENT_PASSPORT_BASE_URL") = false →
     APortClientOptions.base_url cl = "https://api.aport.io")
  ∧ (∀ k, api_key = Some k → k ≠ EmptyString → APortClientOptions.api_key cl = Some k)
  ∧ (truthy_opt_str api_key = false →
     APortClientOptions.api_key cl = getenv "AGENT_PASSPORT_API_KEY").
Proof.
  intros cl. subst cl. unfold create_client, opt_str_or, truthy_opt_str.
  cbn [APortClientOptions.base_url APortClientOptions.api_key
       APortClientOptions.timeout_ms].
  split_and!.
  - destruct base_url as [[|c b]|]; cbn;
      destruct (getenv "AGENT_PASSPORT_BASE_URL") as [[|c' b']|]; cbn; discriminate.
  - destruct timeout_ms as [t|]; [|discriminate].
    destruct (t =? 0) eqn:E; [discriminate|]. by apply Z.eqb_neq.
  - destruct timeout_ms as [t|]; [|reflexivity]. by destruct t.
  - intros b -> Hb. by destruct b.
  - intros Hb b -> Hne. destruct base_url as [[|c0 b0]|]; try discriminate Hb;
      by destruct b.
  - intros Hb He. destruct base_url as [[|c0 b0]|]; try discriminate Hb;
      by destruct (getenv "AGENT_PASSPORT_BASE_URL") as [[|c' b']|].
  - intros k -> Hk. by destruct k.
  - intros Hk. by destruct api_key as [[|c k]|].
Qed.

(** * What goes out on the network (middleware.py, client.py) *)

Lemma sends_ret {A} (P : wire_request → Prop) (a : A) : sends P (mret a).
Proof. intros w. exists []. rewrite app_nil_r. split; [done|constructor]. Qed.

Lemma sends_lift_res {A} (P : wire_request → Prop) (r : res A) : sends P (lift_res r).
Proof. intros w. exists []. rewrite app_nil_r. split; [done|constructor]. Qed.

Lemma sends_bind {A B} (P : wire_request → Prop) (m : M A) (f : A → M B) :
  sends P m → (∀ x, sends P (f x)) → sends P (m ≫= f).
Proof.
  intros Hm Hf w. rewrite bind_run.
  destruct (Hm w) as (evs & Hevs & Hw).
  destruct (m w) as [[x|e] w1]; simpl in *.
  - destruct (Hf x w1) as (evs' & Hevs' & Hw').
    exists (evs ++ evs'). rewrite Hevs', Hevs, app_assoc, wire_requests_app.
    split; [done|by apply Forall_app].
  - by exists evs.
Qed.

Lemma sends_try_except {A} (P : wire_request → Prop) (body : M A)
    (handler : exn → option (M A)) :
  sends P body → (∀ e h, handler e = Some h → sends P h) →
  sends P (try_except body handler).
Proof.
  intros Hb Hh w. unfold try_except.
  destruct (Hb w) as (evs & Hevs & Hw).
  destruct (body w) as [[x|e] w1]; simpl in *; [by exists evs|].
  destruct (handler e) as [h|] eqn:He; [|by exists evs].
  destruct (Hh e h He w1) as (evs' & Hevs' & Hw').
  exists (evs ++ evs'). rewrite Hevs', Hevs, app_assoc, wire_requests_app.
  split; [done|by apply Forall_app].
Qed.

Section Network.

Variable json_loads : string → loads_result.
Variable py_repr : pyval → string.
Variable error_message : AportError.t → res string.
Variable transport : wire_request → transport_outcome.
Variable latency : wire_request → N.

Lemma sends_verify_selected (cl : APortClientOptions.t)
    (body_policy body_passport effective_agent_id policy_id : pyval)
    (context : gmap string pyval) :
  sends (λ wr, ∃ op, wr = op_wire py_repr cl op ∧ op ≠ OpGetJwks)
    (verify_selected json_loads py_repr transport latency cl body_policy
       body_passport effective_agent_id policy_id context).
Proof.
  intros w. rewrite verify_selected_run. cbn [snd after_call after_emit events].
  eexists [_; _]. rewrite <- app_assoc. split; [done|].
  constructor; [|constructor]. eexists. split; [reflexivity|].
  unfold selected_op. destruct (truthy body_policy); [done|].
  by destruct (truthy body_passport).
Qed.

Lemma sends_get_passport_view (cl : APortClientOptions.t) (agent_id : pyval) :
  sends (λ wr, ∃ op, wr = op_wire py_repr cl op ∧ op ≠ OpGetJwks)
    (get_passport_view json_loads py_repr transport latency cl agent_id).
Proof.
  intros w. rewrite get_passport_view_run. cbn [snd after_call after_emit events].
  eexists [_; _]. rewrite <- app_assoc. split; [done|].
  constructor; [|constructor]. by eexists.
Qed.

Lemma sends_read_and_replay_body (P : wire_request → Prop) (request : Request) :
  sends P (_read_and_replay_body json_loads request).
Proof.
  intros w. unfold _read_and_replay_body.
  rewrite bind_run. unfold emit at 1. cbv beta iota zeta.
  rewrite bind_run. unfold lift_res at 1.
  destruct (loads_or_empty json_loads (receive request));
    exists [EvBodyRead]; (split; [done|constructor]).
Qed.

Ltac silent_bind :=
  apply sends_bind; [first [apply sends_lift_res | apply sends_ret] | intros ?].

Lemma mediate_sends (opts : AgentPassportMiddlewareOptions.t)
    (cl : APortClientOptions.t) (request : Request) :
  sends (λ wr, ∃ op, wr = op_wire py_repr cl op ∧ op ≠ OpGetJwks)
    (mediate json_loads py_repr error_message transport latency opts cl request).
Proof.
  unfold mediate. destruct (should_skip_request _ _); [apply sends_ret|].
  apply sends_bind.
  { destruct (reads_body opts request);
      [apply sends_read_and_replay_body|apply sends_ret]. }
  intros [body_json rq].
  do 3 silent_bind.
  destruct (_ && _).
  { destruct (AgentPassportMiddlewareOptions.fail_closed opts); apply sends_ret. }
  apply sends_bind.
  { destruct (truthy _); [apply sends_ret|apply sends_lift_res]. }
  intros eff.
  destruct (_ && _).
  - destruct (truthy _).
    + do 2 silent_bind. apply sends_ret.
    + apply sends_try_except.
      * apply sends_bind; [apply sends_get_passport_view|intros ?].
        silent_bind. apply sends_ret.
      * intros [error|n] h [= <-].
        apply sends_bind; [apply sends_lift_res|intros ?; apply sends_ret].
  - silent_bind.
    apply sends_bind; [apply sends_verify_selected|intros d].
    cbv zeta. destruct (negb _); [|apply sends_ret].
    apply sends_bind; [|intros ?; apply sends_ret].
    destruct (truthy_opt_str _); [apply sends_ret|apply sends_lift_res].
Qed.

(** X20.  Every network request that [dispatch] issues goes to the client's
    base URL (its trailing slashes stripped) under [/api/].  Its headers are
    the three defaults of the session ([Content-Type], [Accept],
    [User-Agent]) and [Authorization: Bearer <api_key>] when an API key is
    configured, and none besides: in particular never an [Idempotency-Key].
    It is either a GET without a body or a POST whose JSON body has a
    [context] mapping. *)
Theorem dispatch_requests_shape (self : AgentPassportMiddleware)
    (request : Request) (w : World) :
  let cl := client self in
  ∃ evs,
    events (dispatch json_loads py_repr error_message transport latency
              self request w).2 = events w ++ evs
    ∧ ∀ wr, wr ∈ wire_requests evs →
        (∃ rest, w_url wr
                 = String.append (rstrip_slash (APortClientOptions.base_url cl))
                     (String.append "/api/" rest))
        ∧ w_headers wr !! "Authorization"
          = match APortClientOptions.api_key cl with
            | Some k => if str_nonempty k then Some (String.append "Bearer " k) else None
            | None => None
            end
        ∧ w_headers wr !! "Content-Type" = Some "application/json"
        ∧ w_headers wr !! "Accept" = Some "application/json"
        ∧ w_headers wr !! "User-Agent" = Some "aport-sdk-python/0.1.0"
        ∧ (∀ h, h ∉ ["Authorization"; "Content-Type"; "Accept"; "User-Agent"] →
                w_headers wr !! h = None)
        ∧ (w_method wr = "GET" ∧ w_json wr = None
           ∨ w_method wr = "POST"
             ∧ ∃ body context,
                 w_json wr = Some (PDict body)
                 ∧ body !! "context" = Some (PDict context)).
Proof.
  intros cl.
  assert (Hs : sends (λ wr, ∃ op, wr = op_wire py_repr cl op ∧ op ≠ OpGetJwks)
                 (dispatch json_loads py_repr error_message transport latency
                    self request)).
  { unfold dispatch. apply sends_try_except; [apply mediate_sends|].
    intros [error|n] h [= <-]; [|apply sends_ret].
    apply sends_bind; [apply sends_lift_res|intros ?; apply sends_ret]. }
  destruct (Hs w) as (evs & Hevs & Hall).
  exists evs. split; [exact Hevs|].
  intros wr Hin. rewrite list.Forall_forall in Hall.
  destruct (Hall wr Hin) as (op & -> & Hop).
  assert (Hhead : ∀ method path data,
            let wr := wire_of cl method path data None in
            w_headers wr !! "Authorization"
            = match APortClientOptions.api_key cl with
              | Some k => if str_nonempty k then Some (String.append "Bearer " k) else None
              | None => None
              end
            ∧ w_headers wr !! "Content-Type" = Some "application/json"
            ∧ w_headers wr !! "Accept" = Some "application/json"
            ∧ w_headers wr !! "User-Agent" = Some "aport-sdk-python/0.1.0"
            ∧ ∀ h, h ∉ ["Authorization"; "Content-Type"; "Accept"; "User-Agent"] →
                   w_headers wr !! h = None).
  { intros method path data wr0. subst wr0. split_and!.
    - by rewrite wire_headers_lookup.
    - rewrite wire_headers_lookup. vm_compute. reflexivity.
    - rewrite wire_headers_lookup. vm_compute. reflexivity.
    - rewrite wire_headers_lookup. vm_compute. reflexivity.
    - intros h Hh. rewrite wire_headers_lookup.
      destruct (String.eqb_spec h "Authorization") as [->|_];
        [exfalso; apply Hh; set_solver|].
      unfold DEFAULT_HEADERS.
      rewrite !lookup_insert_ne, lookup_singleton_ne;
        [done|intros <-; apply Hh; set_solver..]. }
  assert (Hbody : ∀ agent_id policy_id context passport policy,
            ∃ body ctx,
              Some (PDict (_build_policy_request_body agent_id policy_id None
                             (Some context) passport policy)) = Some (PDict body)
              ∧ body !! "context" = Some (PDict ctx)).
  { intros a p c pp pol. eexists _, _. split; [reflexivity|].
    unfold _build_policy_request_body. cbv zeta.
    destruct pp, pol; by rewrite ?lookup_insert_ne, lookup_insert_eq by discriminate. }
  destruct op as [a p c|pp p c|ap pol c|a|]; [..|done]; cbn [op_wire];
    (split; [eexists; unfold wire_of, _normalize_url; cbn [w_url];
             cbn [String.prefix]; reflexivity|]);
    match goal with
    | |- context [wire_of cl ?m ?p ?d None] =>
        destruct (Hhead m p d) as (H1 & H2 & H3 & H4 & H5)
    end;
    (split; [exact H1|]); (split; [exact H2|]); (split; [exact H3|]);
    (split; [exact H4|]); (split; [exact H5|]).
  - right. split; [reflexivity|]. apply Hbody.
  - right. split; [reflexivity|]. apply Hbody.
  - right. split; [reflexivity|]. apply Hbody.
  - left. by split.
Qed.

End Network.

(** * The route dependency (middleware.py) *)

Section Dependency.

Variable getenv : string → option string.
Variable json_loads : string → loads_result.
Variable py_repr : pyval → string.
Variable error_message : AportError.t → res string.
Variable transport : wire_request → transport_outcome.
Variable latency : wire_request → N.

Ltac plain_bind lem :=
  apply post_bind_true; [apply post_pure; apply lem | intros ?].

Lemma require_policy_try_wf (cl : APortClientOptions.t) (policy_id : string)
    (agent_id : option string) (request : Request) :
  post (dependency_wf request policy_id) client_exn
    (require_policy_try json_loads py_repr transport latency cl policy_id agent_id
       request).
Proof.
  unfold require_policy_try.
  apply (post_bind (λ p, p.2 = request)).
  { destruct (String.eqb _ _); [apply post_read_and_replay_body|by apply post_ret]. }
  intros [body_json rq] Hrq. simpl in Hrq. subst rq.
  plain_bind body_dict_field_no_aport.
  plain_bind body_dict_field_no_aport.
  plain_bind extract_agent_id_no_aport.
  destruct (_ && _).
  { apply post_ret. exists "missing_agent_id". split; [vm_compute; reflexivity|]. by left. }
  apply post_bind_true.
  { destruct (truthy _); [by apply post_ret|].
    apply post_pure, get_if_truthy_no_aport. }
  intros eff.
  plain_bind py_items_no_aport.
  apply post_bind_true; [apply post_verify_selected|intros d].
  cbv zeta. destruct (negb _) eqn:Hallow.
  - apply post_ret. exists "policy_violation". split.
    + apply lookup_union_Some_raw. right. split; [by destruct d|].
      by rewrite !lookup_insert_ne, lookup_insert_eq by discriminate.
    + right; left. split_and!; [done..|].
      apply lookup_union_Some_raw. right. split; [by destruct d|].
      by rewrite lookup_insert_eq.
  - apply post_ret. apply negb_false_iff in Hallow. simpl in Hallow.
    eexists _, _, _. split_and!; [reflexivity..| |exact Hallow|reflexivity].
    by rewrite lookup_insert_ne, lookup_insert_eq.
Qed.

(** X21.  The dependency that [require_policy] returns never fails open.
    When it returns, the decision allowed: the returned mapping and
    [request.state] hold the same agent and the same policy result, whose
    [allow] is truthy, and the body is still there to be read.  Otherwise it
    raises [HTTPException] 401 [missing_agent_id], 403 [policy_violation]
    naming the route's policy id, or 500 [internal_error]; or, when the
    client raised an [AportError], the [AttributeError] of the handler's read
    of [error.message]: no [api_error] exception is ever built. *)
Theorem require_policy_outcomes (policy_id : string) (agent_id : option string)
    (request : Request) (w : World) :
  no_message error_message →
  match (require_policy getenv json_loads py_repr error_message transport latency
           policy_id agent_id request w).1 with
  | Ok (Returned downstream value) =>
      ∃ effective_agent_id policy_result allow,
        state_agent downstream = Some {[ "agent_id" := effective_agent_id ]}
        ∧ state_policy_result downstream = Some (PDict policy_result)
        ∧ value !! "agent" = Some (PDict {[ "agent_id" := effective_agent_id ]})
        ∧ value !! "policy_result" = Some (PDict policy_result)
        ∧ policy_result !! "allow" = Some allow
        ∧ truthy allow = true
        ∧ receive downstream = receive request
  | Ok (HTTPException s detail) =>
      ∃ code,
        detail !! "error" = Some (PStr code)
        ∧ ((code = "missing_agent_id" ∧ s = 401)
           ∨ (code = "policy_violation" ∧ s = 403
              ∧ detail !! "policy_id" = Some (PStr policy_id))
           ∨ (code = "internal_error" ∧ s = 500))
  | Raise e => e = PyExn "AttributeError"
  end.
Proof.
  intros Hmsg.
  assert (H : post (dependency_wf request policy_id) (λ e, e = PyExn "AttributeError")
                (require_policy getenv json_loads py_repr error_message transport
                   latency policy_id agent_id request)).
  { unfold require_policy.
    apply (post_try_except _ client_exn); [apply require_policy_try_wf|].
    intros [error|n] He; cbn [require_policy_handlers].
    - intros w'. rewrite bind_run. unfold lift_res at 1. by rewrite Hmsg.
    - apply post_ret. exists "internal_error". split; [vm_compute; reflexivity|].
      right; right. by split. }
  specialize (H w). destruct (_.1) as [[s detail|downstream value]|e]; exact H.
Qed.

Lemma route_read_step (request : Request) (w : World) (v : pyval) :
  route_body_json_of json_loads request = Ok v →
  (if String.eqb (method request) "POST" then _read_and_replay_body json_loads request
   else mret (PDict ∅, request)) w
  = (Ok (v, request), after_route_read request w).
Proof.
  unfold route_body_json_of, after_route_read, _read_and_replay_body.
  destruct (String.eqb (method request) "POST"); [|by intros [= <-]].
  intros Hv. rewrite bind_run. unfold emit at 1. cbv beta iota zeta.
  rewrite bind_run. unfold lift_res at 1. rewrite Hv.
  by rewrite set_receive_replay.
Qed.

(** X22.  The [agent_id] argument of [require_policy] has no effect.  A
    request that carries no identity of its own (no identity header, no
    passport in the body) is answered 401 [missing_agent_id] without any
    client operation or network call, also when the route was declared with
    an agent id; [require_policy_with_context] declared with the same agent
    id verifies that agent. *)
Theorem require_policy_ignores_agent_id (policy_id agent_id : string)
    (context : gmap string pyval) (request : Request) (body : gmap string pyval)
    (w : World) :
  let out := require_policy getenv json_loads py_repr error_message transport latency
               policy_id (Some agent_id) request w in
  let out' := require_policy_with_context getenv json_loads py_repr error_message
                transport latency policy_id context (Some agent_id) request w in
  let bp := dict_field true body "passport" in
  let bpol := dict_field true body "policy" in
  route_body_json_of json_loads request = Ok (PDict body) →
  truthy (agent_id_of request None body true) = false →
  truthy bp = false →
  agent_id ≠ EmptyString →
  (∃ detail, out.1 = Ok (HTTPException 401 detail)
             ∧ detail !! "error" = Some (PStr "missing_agent_id"))
  ∧ client_ops (events out.2) = client_ops (events w)
  ∧ wire_requests (events out.2) = wire_requests (events w)
  ∧ client_ops (events out'.2)
    = client_ops (events w)
      ++ [selected_op bpol bp (PStr agent_id) (PStr policy_id)
            (context ∪ context_of_body body)].
Proof.
  intros out out' bp bpol Hbody Hid Hbp Hne.
  assert (Hrd : events (after_route_read request w)
                = events w ++ (if String.eqb (method request) "POST"
                               then [EvBodyRead] else [])).
  { unfold after_route_read. destruct (String.eqb _ _); simpl; by rewrite ?app_nil_r. }
  assert (Hout : out = (Ok (HTTPException 401
                              (<["message" := PStr MISSING_AGENT_ID_MESSAGE_ROUTE]>
                                 (<["error" := PStr "missing_agent_id"]> ∅))),
                        after_route_read request w)).
  { subst out. unfold require_policy, try_except, require_policy_try.
    rewrite bind_run, (route_read_step _ _ _ Hbody). cbv beta iota zeta.
    rewrite bind_run. unfold lift_res at 1. rewrite body_dict_field_dict.
    cbv beta iota zeta.
    rewrite bind_run. unfold lift_res at 1. rewrite body_dict_field_dict.
    cbv beta iota zeta.
    rewrite bind_run. unfold lift_res at 1. rewrite extract_agent_id_dict.
    cbv beta iota zeta. fold bp. rewrite Hid, Hbp. reflexivity. }
  split_and!.
  - rewrite Hout. eexists. split; [reflexivity|vm_compute; reflexivity].
  - rewrite Hout. cbn [snd]. rewrite Hrd, client_ops_app.
    destruct (String.eqb _ _); cbn; by rewrite app_nil_r.
  - rewrite Hout. cbn [snd]. rewrite Hrd, wire_requests_app.
    destruct (String.eqb _ _); cbn; by rewrite app_nil_r.
  - assert (Haid : agent_id_of request (Some agent_id) body true = PStr agent_id).
    { unfold agent_id_of. cbn [of_opt_str]. unfold py_or at 1. cbn [truthy].
      destruct agent_id; [done|reflexivity]. }
    assert (Heff : effective_agent_id_of (PStr agent_id) bp = PStr agent_id).
    { unfold effective_agent_id_of, py_or. cbn [truthy].
      destruct agent_id; [done|reflexivity]. }
    subst out'. unfold require_policy_with_context, try_except.
    rewrite (route_policy_path json_loads py_repr transport latency _ _ _ _ _ _ _ Hbody)
      by (rewrite Haid; destruct agent_id; [done|reflexivity]).
    rewrite Haid. fold bp bpol. rewrite Heff.
    destruct (_ ≫= from_api_response) as [d|e];
      [|destruct (mediate_handlers error_message e) as [h|] eqn:Hh;
        [rewrite (mediate_handlers_world _ _ _ _ Hh)|]];
      cbn [fst snd after_call after_emit events];
      rewrite Hrd, !client_ops_app; destruct (String.eqb _ _); cbn;
      by rewrite ?app_nil_r.
Qed.

End Dependency.

(** A route with policy [p1]: the decision call times out and the
    [AttributeError] of the handler leaves the dependency. *)
Lemma require_policy_outcomes_witness :
  (require_policy getenv0 loads0 repr0 message0 times_out latency0 "p1" None
     (request0 "GET" "/pay" {[ "x-agent-id" := "abc" ]} EmptyString) (world0 0)).1
  = Raise (PyExn "AttributeError").
Proof.
  pose proof (require_policy_outcomes getenv0 loads0 repr0 message0 times_out latency0
                "p1" None
                (request0 "GET" "/pay" {[ "x-agent-id" := "abc" ]} EmptyString)
                (world0 0) (λ _, eq_refl)) as H.
  assert (E : ∃ e,
             (require_policy getenv0 loads0 repr0 message0 times_out latency0 "p1" None
                (request0 "GET" "/pay" {[ "x-agent-id" := "abc" ]} EmptyString)
                (world0 0)).1 = Raise e)
    by (vm_compute; eexists; reflexivity).
  destruct E as [e E]. rewrite E in H. rewrite E. by rewrite H.
Defined.

Lemma require_policy_ignores_agent_id_witness :
  (∃ detail,
     (require_policy getenv0 loads0 repr0 message0 (respond "decision_allow") latency0
        "p1" (Some "abc") (request0 "GET" "/pay" ∅ EmptyString) (world0 0)).1
     = Ok (HTTPException 401 detail)
     ∧ detail !! "error" = Some (PStr "missing_agent_id"))
  ∧ client_ops
      (events (require_policy_with_context getenv0 loads0 repr0 message0
                 (respond "decision_allow") latency0 "p1" ∅ (Some "abc")
                 (request0 "GET" "/pay" ∅ EmptyString) (world0 0)).2)
    = [OpVerifyPolicy (PStr "abc") (PStr "p1") ∅].
Proof.
  destruct (require_policy_ignores_agent_id getenv0 loads0 repr0 message0
              (respond "decision_allow") latency0 "p1" "abc" ∅
              (request0 "GET" "/pay" ∅ EmptyString) ∅ (world0 0))
    as (H & _ & _ & Hops); [vm_compute; reflexivity..|discriminate|].
  split; [exact H|]. etransitivity; [exact Hops|]. vm_compute. reflexivity.
Defined.

(** * The function form of the middleware (middleware.py) *)

Section FunctionForm.

Variable getenv : string → option string.
Variable json_loads : string → loads_result.
Variable py_repr : pyval → string.
Variable error_message : AportError.t → res string.
Variable transport : wire_request → transport_outcome.
Variable latency : wire_request → N.

(** X23.  [agent_passport_middleware] builds its options anew from the
    attributes of the options it is given.  For options made by the
    constructor the rebuilt options are the given ones (the base URL, the API
    key and the skip paths resolve to themselves), so the function form
    answers every request as the class form does. *)
Theorem function_middleware_agrees (base_url api_key : option string) (timeout_ms : Z)
    (fail_closed : bool) (skip_paths : option (list string)) (policy_id : option string)
    (passport_from_body policy_from_body : bool) (request : Request) :
  let o := AgentPassportMiddlewareOptions_init getenv base_url api_key timeout_ms
             fail_closed skip_paths policy_id passport_from_body policy_from_body in
  AgentPassportMiddlewareOptions_init getenv
    (Some (AgentPassportMiddlewareOptions.base_url o))
    (AgentPassportMiddlewareOptions.api_key o)
    (AgentPassportMiddlewareOptions.timeout_ms o)
    (AgentPassportMiddlewareOptions.fail_closed o)
    (Some (AgentPassportMiddlewareOptions.skip_paths o))
    (AgentPassportMiddlewareOptions.policy_id o)
    (AgentPassportMiddlewareOptions.passport_from_body o)
    (AgentPassportMiddlewareOptions.policy_from_body o) = o
  ∧ agent_passport_middleware getenv json_loads py_repr error_message transport latency
      (Some o) request
    = dispatch json_loads py_repr error_message transport latency
        (AgentPassportMiddleware_init getenv o) request.
Proof.
  intros o.
  assert (Ho : AgentPassportMiddlewareOptions_init getenv
                 (Some (AgentPassportMiddlewareOptions.base_url o))
                 (AgentPassportMiddlewareOptions.api_key o)
                 (AgentPassportMiddlewareOptions.timeout_ms o)
                 (AgentPassportMiddlewareOptions.fail_closed o)
                 (Some (AgentPassportMiddlewareOptions.skip_paths o))
                 (AgentPassportMiddlewareOptions.policy_id o)
                 (AgentPassportMiddlewareOptions.passport_from_body o)
                 (AgentPassportMiddlewareOptions.policy_from_body o) = o).
  { subst o. unfold AgentPassportMiddlewareOptions_init.
    cbn [AgentPassportMiddlewareOptions.base_url AgentPassportMiddlewareOptions.api_key
         AgentPassportMiddlewareOptions.timeout_ms
         AgentPassportMiddlewareOptions.fail_closed
         AgentPassportMiddlewareOptions.skip_paths
         AgentPassportMiddlewareOptions.policy_id
         AgentPassportMiddlewareOptions.passport_from_body
         AgentPassportMiddlewareOptions.policy_from_body].
    f_equal.
    - unfold opt_str_or, truthy_opt_str.
      destruct base_url as [[|c b]|]; cbn;
        destruct (getenv "AGENT_PASSPORT_BASE_URL") as [[|c' b']|]; reflexivity.
    - unfold opt_str_or, truthy_opt_str.
      destruct api_key as [[|c k]|]; cbn;
        destruct (getenv "AGENT_PASSPORT_API_KEY") as [[|c' k']|]; reflexivity.
    - by destruct skip_paths as [[|p ps]|]. }
  split; [exact Ho|].
  unfold agent_passport_middleware, dispatch. rewrite Ho. reflexivity.
Qed.

End FunctionForm.
